(** * Finetune-FetalCLIP: the UNETR decoder and the epoch metric protocol

    A shallow embedding of [src/model.py].

    - Part I embeds the decoder ([SingleDeconv2DBlock] ... [UNETR]) at the
      level of tensor shapes.  A tensor is its size [(batch, channels,
      height, width)]; the channel axis is kept as a list that records, for
      every channel, the pyramid levels its values are computed from, so
      that the order of the operands of [torch.cat] stays observable.
    - Part II embeds the Lightning hooks of [ClassificationModel] and
      [SegmentationModel] ([training_step], [validation_step], [test_step]
      and the two epoch-end hooks) as programs over the mutable attributes
      of [self] that may raise and that send values to the logger.
    - The definitions come first (modules [Decoder], [Torch], [Lightning],
      [ClassificationModel], [SegmentationModel], [Examples]), the proofs
      after them ([DecoderFacts], [TorchFacts], [SegmentationFacts],
      [ClassificationFacts], [Claims], [Instances]). *)

From Stdlib Require Import String.
From Stdlib Require Import ZArith NArith List Bool Lia QArith Qround Qabs.
Import ListNotations.

Set Implicit Arguments.
Set Warnings "-register-all".

(* ------------------------------------------------------------------ *)
(** * Python exceptions and the monad of the embedded programs          *)
(* ------------------------------------------------------------------ *)

(** The exceptions the modelled code can raise. *)
Inductive exn : Type :=
| ValueError
| RuntimeError
| AssertionError
| IndexError
| KeyError (key : string).

Inductive result (A : Type) : Type :=
| Ok (a : A)
| Raise (e : exn).
Arguments Ok {A} a.
Arguments Raise {A} e.

Definition is_ok {A} (r : result A) : bool :=
  match r with Ok _ => true | Raise _ => false end.

(** Pure fallible code: sequencing of [result]. *)
Definition rbind {A B} (r : result A) (k : A -> result B) : result B :=
  match r with
  | Ok a => k a
  | Raise e => Raise e
  end.

(** Stateful fallible code that also emits: a program takes the state of
    [self] and returns its result, the state it leaves and what it sent out
    (log entries, recorded calls), oldest first.  An exception leaves the
    mutations and emissions made before it in place, as in Python. *)
Definition M (S W A : Type) : Type := S -> result A * S * list W.

Definition ret {S W A} (a : A) : M S W A := fun s => (Ok a, s, []).

Definition bind {S W A B} (c : M S W A) (k : A -> M S W B) : M S W B :=
  fun s =>
    match c s with
    | (Ok a, s', w) =>
        match k a s' with
        | (r, s'', w') => (r, s'', w ++ w')
        end
    | (Raise e, s', w) => (Raise e, s', w)
    end.

Definition raise {S W A} (e : exn) : M S W A := fun s => (Raise e, s, []).

Definition get {S W} : M S W S := fun s => (Ok s, s, []).

Definition modify {S W} (f : S -> S) : M S W unit :=
  fun s => (Ok tt, f s, []).

Definition tell {S W} (w : W) : M S W unit := fun s => (Ok tt, s, [w]).

Definition lift {S W A} (r : result A) : M S W A := fun s => (r, s, []).

(** The three components of a run. *)
Definition result_of {S W A} (run : result A * S * list W) : result A :=
  fst (fst run).

Definition state_of {S W A} (run : result A * S * list W) : S :=
  snd (fst run).

Definition output_of {S W A} (run : result A * S * list W) : list W :=
  snd run.

Declare Scope monad_scope.
Delimit Scope monad_scope with monad.
Notation "x <- c ;; k" := (bind c (fun x => k))
  (at level 61, c at next level, right associativity) : monad_scope.
Notation "c ;;; k" := (bind c (fun _ => k))
  (at level 61, right associativity) : monad_scope.

(* ------------------------------------------------------------------ *)
(** * Part I.  The UNETR decoder on tensor shapes                      *)
(* ------------------------------------------------------------------ *)

Module Decoder.

Open Scope Z_scope.

(** The pyramid levels a channel is computed from, as a bit set: bit [k]
    is set when the channel depends on the feature map [z_k]. *)
Definition Deps : Type := N.

Definition level (k : N) : Deps := N.shiftl 1 k.

Definition union_all (ds : list Deps) : Deps := fold_right N.lor 0%N ds.

(** A 4-D tensor [(batch, channels, height, width)].  [chan] has one entry
    per channel. *)
Record Tensor : Type := mkTensor {
  batch : Z;
  chan : list Deps;
  height : Z;
  width : Z
}.

Definition channels (t : Tensor) : Z := Z.of_nat (length (chan t)).

(** [t.shape] *)
Definition shape (t : Tensor) : Z * Z * Z * Z :=
  (batch t, channels t, height t, width t).

Definition levels (ks : list N) : Deps := union_all (map level ks).

(** A tensor of [c] channels that all depend on the same levels. *)
Definition uniform (d : Deps) (n c h w : Z) : Tensor :=
  mkTensor n (repeat d (Z.to_nat c)) h w.

(** A feature map as the encoder hands it over: [c] channels, all of them
    coming from pyramid level [k]. *)
Definition feature (k : N) (n c h w : Z) : Tensor :=
  uniform (levels [k]) n c h w.

(** The operand list [[a, b]] of a concatenation whose operands have the
    same size and are uniform in what they depend on. *)
Definition operands (shallow deep : Deps) (n c h w : Z) : list Tensor :=
  [uniform shallow n c h w; uniform deep n c h w].

(** Channel count of [torch.cat(ops, dim=1)]. *)
Definition total_channels (ops : list Tensor) : Z :=
  fold_right Z.add 0 (map channels ops).

(** ** torch.nn layers *)

Inductive Layer : Type :=
| Conv2d (in_channels out_channels kernel_size stride padding groups : Z)
| ConvTranspose2d (in_channels out_channels kernel_size stride padding
                   output_padding groups : Z)
| BatchNorm2d (num_features : Z)
| ReLU
| Sequential (layers : list Layer).

(** Checks of [torch.nn.modules.conv._ConvNd.__init__]: [groups] positive
    and dividing both channel counts; the weight tensor it allocates, of
    size [(out_channels, in_channels / groups, kernel_size, kernel_size)],
    cannot have a negative dimension. *)
Definition conv_args_ok (in_channels out_channels groups : Z) : bool :=
  (0 <? groups) && (in_channels mod groups =? 0)
  && (out_channels mod groups =? 0)
  && (0 <=? in_channels) && (0 <=? out_channels).

(** The layers whose constructor returns. *)
Fixpoint constructible (l : Layer) : bool :=
  match l with
  | Conv2d i o k _ _ g => conv_args_ok i o g && (0 <=? k)
  | ConvTranspose2d i o k _ _ _ g => conv_args_ok i o g && (0 <=? k)
  | BatchNorm2d n => 0 <=? n
  | ReLU => true
  | Sequential ls =>
      (fix all (ls : list Layer) : bool :=
         match ls with
         | [] => true
         | l :: ls' => constructible l && all ls'
         end) ls
  end.

(** The constructor of a convolution: the checks on [groups] raise
    [ValueError]; allocating a weight tensor with a negative dimension
    raises [RuntimeError]. *)
Definition conv_init (in_channels out_channels kernel_size groups : Z)
    : result unit :=
  if groups <=? 0 then Raise ValueError
  else if negb (in_channels mod groups =? 0) then Raise ValueError
  else if negb (out_channels mod groups =? 0) then Raise ValueError
  else if (in_channels <? 0) || (out_channels <? 0) || (kernel_size <? 0)
  then Raise RuntimeError
  else Ok tt.

(** The constructor of a layer; the layers of a [Sequential] are built in
    order, and the first that fails ends the construction. *)
Fixpoint Layer_init (l : Layer) : result unit :=
  match l with
  | Conv2d i o k _ _ g => conv_init i o k g
  | ConvTranspose2d i o k _ _ _ g => conv_init i o k g
  | BatchNorm2d n => if n <? 0 then Raise RuntimeError else Ok tt
  | ReLU => Ok tt
  | Sequential ls =>
      (fix all (ls : list Layer) : result unit :=
         match ls with
         | [] => Ok tt
         | l :: ls' => rbind (Layer_init l) (fun _ => all ls')
         end) ls
  end.

(** Output channels of a grouped convolution: output channel [j] of group
    [g] is computed from the input channels of group [g]. *)
Definition grouped_channels (in_channels out_channels groups : Z)
    (cs : list Deps) : list Deps :=
  let ipg := Z.to_nat (in_channels / groups) in
  let opg := Z.to_nat (out_channels / groups) in
  flat_map
    (fun g => repeat (union_all (firstn ipg (skipn (g * ipg) cs))) opg)
    (seq 0 (Z.to_nat groups)).

(** Output size of [nn.Conv2d] along one axis (dilation 1). *)
Definition conv_out (size kernel_size stride padding : Z) : Z :=
  (size + 2 * padding - (kernel_size - 1) - 1) / stride + 1.

(** Output size of [nn.ConvTranspose2d] along one axis (dilation 1). *)
Definition deconv_out (size kernel_size stride padding output_padding : Z)
    : Z :=
  (size - 1) * stride - 2 * padding + (kernel_size - 1) + output_padding + 1.

(** [module(x)].  A convolution refuses to run with a weight that has no
    input or no output channel, an input whose channel count is not its
    [in_channels], an empty kernel, a negative padding and a padded input
    smaller than the kernel.  [training] is [module.training]: in training
    mode batch normalisation refuses an input with a single value per
    channel. *)
Fixpoint forward (training : bool) (l : Layer) (x : Tensor) : result Tensor :=
  match l with
  | Conv2d i o k s p g =>
      if (i <=? 0) || (o <=? 0) then Raise RuntimeError
      else if negb (channels x =? i) then Raise RuntimeError
      else if (k <=? 0) || (p <? 0) then Raise RuntimeError
      else if (height x + 2 * p <? k) || (width x + 2 * p <? k)
      then Raise RuntimeError
      else Ok (mkTensor (batch x) (grouped_channels i o g (chan x))
                 (conv_out (height x) k s p) (conv_out (width x) k s p))
  | ConvTranspose2d i o k s p op g =>
      if (i <=? 0) || (o <=? 0) then Raise RuntimeError
      else if negb (channels x =? i) then Raise RuntimeError
      else if (k <=? 0) || (p <? 0) || (op <? 0) then Raise RuntimeError
      else Ok (mkTensor (batch x) (grouped_channels i o g (chan x))
                 (deconv_out (height x) k s p op)
                 (deconv_out (width x) k s p op))
  | BatchNorm2d n =>
      if negb (channels x =? n) then Raise RuntimeError
      else if training && (batch x * height x * width x =? 1)
      then Raise ValueError
      else Ok x
  | ReLU => Ok x
  | Sequential ls =>
      (fix run (ls : list Layer) (x : Tensor) : result Tensor :=
         match ls with
         | [] => Ok x
         | l :: ls' => rbind (forward training l x) (run ls')
         end) ls x
  end.

(** ** The blocks of [src/model.py] *)

Definition SingleDeconv2DBlock (in_planes out_planes groups : Z) : Layer :=
  ConvTranspose2d in_planes out_planes 2 2 0 0 groups.

Definition SingleConv2DBlock (in_planes out_planes kernel_size groups : Z)
    : Layer :=
  Conv2d in_planes out_planes kernel_size 1 ((kernel_size - 1) / 2) groups.

Definition Conv2DBlock (in_planes out_planes kernel_size : Z) : Layer :=
  Sequential
    [ SingleConv2DBlock in_planes in_planes kernel_size in_planes;
      BatchNorm2d in_planes;
      ReLU;
      SingleConv2DBlock in_planes out_planes 1 1;
      BatchNorm2d out_planes;
      ReLU ].

Definition Deconv2DBlock (in_planes out_planes kernel_size : Z) : Layer :=
  Sequential
    [ SingleDeconv2DBlock in_planes in_planes in_planes;
      SingleConv2DBlock in_planes in_planes kernel_size in_planes;
      BatchNorm2d in_planes;
      ReLU;
      SingleConv2DBlock in_planes out_planes 1 1;
      BatchNorm2d out_planes;
      ReLU ].

Definition SingleDWConv2DBlock (in_planes out_planes : Z) : Layer :=
  Sequential
    [ SingleDeconv2DBlock in_planes in_planes in_planes;
      SingleConv2DBlock in_planes out_planes 1 1 ].

(** ** UNETR *)

Record UNETR : Type := mkUNETR {
  decoder0 : Layer;
  decoder3 : Layer;
  decoder6 : Layer;
  decoder9 : Layer;
  decoder12_upsampler : Layer;
  decoder9_upsampler : Layer;
  decoder6_upsampler : Layer;
  decoder3_upsampler : Layer;
  decoder0_header : Layer
}.

(** The attribute assignments of [UNETR.__init__]. *)
Definition UNETR_modules (transformer_width output_dim input_dim
    init_filters : Z) : UNETR :=
  {| decoder0 :=
       Sequential
         [ Conv2DBlock input_dim init_filters 3;
           Conv2DBlock init_filters init_filters 3 ];
     decoder3 :=
       Sequential
         [ Deconv2DBlock transformer_width (8 * init_filters) 3;
           Deconv2DBlock (8 * init_filters) (4 * init_filters) 3;
           Deconv2DBlock (4 * init_filters) (2 * init_filters) 3 ];
     decoder6 :=
       Sequential
         [ Deconv2DBlock transformer_width (8 * init_filters) 3;
           Deconv2DBlock (8 * init_filters) (4 * init_filters) 3 ];
     decoder9 :=
       Deconv2DBlock transformer_width (8 * init_filters) 3;
     decoder12_upsampler :=
       SingleDWConv2DBlock transformer_width (8 * init_filters);
     decoder9_upsampler :=
       Sequential
         [ Conv2DBlock (16 * init_filters) (8 * init_filters) 3;
           Conv2DBlock (8 * init_filters) (8 * init_filters) 3;
           Conv2DBlock (8 * init_filters) (8 * init_filters) 3;
           SingleDWConv2DBlock (8 * init_filters) (4 * init_filters) ];
     decoder6_upsampler :=
       Sequential
         [ Conv2DBlock (8 * init_filters) (4 * init_filters) 3;
           Conv2DBlock (4 * init_filters) (4 * init_filters) 3;
           SingleDWConv2DBlock (4 * init_filters) (2 * init_filters) ];
     decoder3_upsampler :=
       Sequential
         [ Conv2DBlock (4 * init_filters) (2 * init_filters) 3;
           Conv2DBlock (2 * init_filters) (2 * init_filters) 3;
           SingleDWConv2DBlock (2 * init_filters) init_filters ];
     decoder0_header :=
       Sequential
         [ Conv2DBlock (2 * init_filters) init_filters 3;
           Conv2DBlock init_filters init_filters 3;
           SingleConv2DBlock init_filters output_dim 1 1 ] |}.

(** The nine attributes can all be built. *)
Definition UNETR_constructible (m : UNETR) : bool :=
  constructible (decoder0 m) && constructible (decoder3 m)
  && constructible (decoder6 m) && constructible (decoder9 m)
  && constructible (decoder12_upsampler m)
  && constructible (decoder9_upsampler m)
  && constructible (decoder6_upsampler m)
  && constructible (decoder3_upsampler m)
  && constructible (decoder0_header m).

(** [UNETR(transformer_width, output_dim, input_dim, init_filters)]: the
    nine attributes are built in the order of their assignments, and the
    constructor raises what the first layer that cannot be built raises. *)
Definition UNETR_init (transformer_width output_dim input_dim
    init_filters : Z) : result UNETR :=
  let m := UNETR_modules transformer_width output_dim input_dim
             init_filters in
  rbind (Layer_init (decoder0 m)) (fun _ =>
  rbind (Layer_init (decoder3 m)) (fun _ =>
  rbind (Layer_init (decoder6 m)) (fun _ =>
  rbind (Layer_init (decoder9 m)) (fun _ =>
  rbind (Layer_init (decoder12_upsampler m)) (fun _ =>
  rbind (Layer_init (decoder9_upsampler m)) (fun _ =>
  rbind (Layer_init (decoder6_upsampler m)) (fun _ =>
  rbind (Layer_init (decoder3_upsampler m)) (fun _ =>
  rbind (Layer_init (decoder0_header m)) (fun _ => Ok m))))))))).

(** The decoder has no mutable attribute; what it emits is the record of its
    calls of [torch.cat], one operand list per call. *)
Definition Fwd (A : Type) : Type := M unit (list Tensor) A.

Definition same_size (a b : Tensor) : bool :=
  (batch a =? batch b) && (height a =? height b) && (width a =? width b).

(** [torch.cat([a, b], dim=1)]: every axis but the channel axis must agree;
    the channels of [a] come first. *)
Definition torch_cat (a b : Tensor) : Fwd Tensor :=
  (tell [a; b] ;;;
   if same_size a b
   then ret (mkTensor (batch a) (chan a ++ chan b) (height a) (width a))
   else raise RuntimeError)%monad.

(** [UNETR.forward]; [x] is the list the caller passes, unpacked into five
    tensors. *)
Definition UNETR_forward (training : bool) (self : UNETR) (x : list Tensor)
    : Fwd Tensor :=
  match x with
  | [z0; z3; z6; z9; z12] =>
      (z12 <- lift (forward training (decoder12_upsampler self) z12) ;;
       z9 <- lift (forward training (decoder9 self) z9) ;;
       c9 <- torch_cat z9 z12 ;;
       z9 <- lift (forward training (decoder9_upsampler self) c9) ;;
       z6 <- lift (forward training (decoder6 self) z6) ;;
       c6 <- torch_cat z6 z9 ;;
       z6 <- lift (forward training (decoder6_upsampler self) c6) ;;
       z3 <- lift (forward training (decoder3 self) z3) ;;
       c3 <- torch_cat z3 z6 ;;
       z3 <- lift (forward training (decoder3_upsampler self) c3) ;;
       z0 <- lift (forward training (decoder0 self) z0) ;;
       c0 <- torch_cat z0 z3 ;;
       output <- lift (forward training (decoder0_header self) c0) ;;
       ret output)%monad
  | _ => raise ValueError
  end.

(** [UNETR(transformer_width, output_dim, input_dim, init_filters)(x)]:
    the result and the calls of [torch.cat] made on the way. *)
Definition UNETR_call (training : bool) (transformer_width output_dim
    input_dim init_filters : Z) (x : list Tensor)
    : result Tensor * list (list Tensor) :=
  match UNETR_init transformer_width output_dim input_dim init_filters with
  | Ok self =>
      match UNETR_forward training self x tt with
      | (r, _, calls) => (r, calls)
      end
  | Raise e => (Raise e, [])
  end.

End Decoder.

(* ------------------------------------------------------------------ *)
(** * Part II.  The Lightning hooks and the epoch accumulators          *)
(* ------------------------------------------------------------------ *)

(** ** What the hooks use of torch, torchmetrics, MONAI and smp

    Floating-point values are modelled by rationals: comparisons and the
    counts derived from them are exact, and the activation [torch.sigmoid]
    stays a parameter of the models below. *)
Module Torch.

Open Scope Z_scope.

(** Tensors with their entries: rank 2 is [[sample][class]], rank 4 is
    [[sample][channel][row][column]]. *)
Definition Tensor2 (A : Type) : Type := list (list A).
Definition Tensor4 (A : Type) : Type := list (list (list (list A))).

Definition map2 {A B} (f : A -> B) (t : Tensor2 A) : Tensor2 B :=
  map (map f) t.

Definition map4 {A B} (f : A -> B) (t : Tensor4 A) : Tensor4 B :=
  map (map (map (map f))) t.

(** All entries, in storage order. *)
Definition flatten2 {A} (t : Tensor2 A) : list A := concat t.
Definition flatten4 {A} (t : Tensor4 A) : list A :=
  concat (concat (concat t)).

Fixpoint list_eqb {A} (eqb : A -> A -> bool) (l1 l2 : list A) : bool :=
  match l1, l2 with
  | [], [] => true
  | a1 :: l1', a2 :: l2' => eqb a1 a2 && list_eqb eqb l1' l2'
  | _, _ => false
  end.

(** [t.shape], as the nested lengths. *)
Definition shape2 {A} (t : Tensor2 A) : list nat := map (@length A) t.

Definition shape3 {A} (t : list (list (list A))) : list (list nat) :=
  map (map (@length A)) t.

Definition shape4 {A} (t : Tensor4 A) : list (list (list nat)) :=
  map shape3 t.

Definition same_shape2 {A B} (a : Tensor2 A) (b : Tensor2 B) : bool :=
  list_eqb Nat.eqb (shape2 a) (shape2 b).

Definition same_shape3 {A B} (a : list (list (list A)))
    (b : list (list (list B))) : bool :=
  list_eqb (list_eqb Nat.eqb) (shape3 a) (shape3 b).

Definition same_shape4 {A B} (a : Tensor4 A) (b : Tensor4 B) : bool :=
  list_eqb (list_eqb (list_eqb Nat.eqb)) (shape4 a) (shape4 b).

Definition sumZ (l : list Z) : Z := fold_right Z.add 0 l.
Definition sumQ (l : list Q) : Q := fold_right Qplus 0%Q l.

(** [a > b] on floats. *)
Definition Qgtb (a b : Q) : bool := negb (Qle_bool a b).

(** [t > 0.5], entry by entry. *)
Definition gt_half (t : Tensor4 Q) : Tensor4 bool :=
  map4 (fun p => Qgtb p (1 # 2)) t.

(** [t.sum((2, 3))] of a boolean tensor: the number of true entries of
    every channel of every sample. *)
Definition sum_2_3 (t : Tensor4 bool) : Tensor2 Z :=
  map (map (fun plane => sumZ (map (fun row => sumZ (map Z.b2z row)) plane)))
    t.

(** [t.to(torch.int64)] of a float: truncation towards zero. *)
Definition to_int64 (q : Q) : Z :=
  if Qle_bool 0 q then Qfloor q else Qceiling q.

(** [torch.cat(ts)] along the sample axis: the list must not be empty and
    all samples must have the same size. *)
Definition torch_cat {A} (ts : list (Tensor4 A)) : result (Tensor4 A) :=
  match ts with
  | [] => Raise RuntimeError
  | _ =>
      let t := concat ts in
      match t with
      | [] => Ok t
      | s :: t' =>
          if forallb (fun s' => same_shape3 s' s) t' then Ok t
          else Raise RuntimeError
      end
  end.

(** *** torchmetrics: the binary [MetricCollection]

    Accuracy, recall, F1, precision, specificity and the confusion matrix
    of the binary task are all functions of the four counts below, which
    [update] accumulates and [reset] zeroes. *)
Record StatScores : Type := mkStatScores {
  tp : Z;
  fp : Z;
  tn : Z;
  fn : Z
}.

Definition StatScores_zero : StatScores := mkStatScores 0 0 0 0.

Definition count (s : StatScores) (pt : bool * bool) : StatScores :=
  match pt with
  | (true, true) => mkStatScores (tp s + 1) (fp s) (tn s) (fn s)
  | (true, false) => mkStatScores (tp s) (fp s + 1) (tn s) (fn s)
  | (false, false) => mkStatScores (tp s) (fp s) (tn s + 1) (fn s)
  | (false, true) => mkStatScores (tp s) (fp s) (tn s) (fn s + 1)
  end.

(** A value that must be 0 or 1. *)
Definition binary (q : Q) : option bool :=
  if Qeq_bool q 0 then Some false
  else if Qeq_bool q 1 then Some true
  else None.

Fixpoint all_binary (l : list Q) : option (list bool) :=
  match l with
  | [] => Some []
  | q :: l' =>
      match binary q, all_binary l' with
      | Some b, Some bs => Some (b :: bs)
      | _, _ => None
      end
  end.

(** [t.reshape(t.shape[0], -1)], which [metric.update] applies to both of
    its arguments: a tensor of no sample cannot be reshaped. *)
Definition reshape_rows {A} (t : Tensor2 A) : result (Tensor2 A) :=
  match t with
  | [] => Raise RuntimeError
  | _ => Ok t
  end.

(** The validation and formatting [metric.update(preds, target)] starts
    with, for integer predictions: the shapes must agree, both tensors must
    hold only 0 and 1, and there must be a sample.  The result pairs every
    prediction with its target. *)
Definition int_pairs (preds : Tensor2 Z) (target : Tensor2 Q)
    : result (list (bool * bool)) :=
  if negb (same_shape2 preds target) then Raise RuntimeError
  else
    match all_binary (map inject_Z (flatten2 preds)),
          all_binary (flatten2 target) with
    | Some ps, Some ts =>
        rbind (reshape_rows preds) (fun _ => Ok (combine ps ts))
    | _, _ => Raise RuntimeError
    end.

(** The same for probabilities, which are thresholded at 0.5. *)
Definition prob_pairs (preds : Tensor2 Q) (target : Tensor2 Q)
    : result (list (bool * bool)) :=
  if negb (same_shape2 preds target) then Raise RuntimeError
  else
    match all_binary (flatten2 target) with
    | Some ts =>
        rbind (reshape_rows preds) (fun _ =>
        Ok (combine (map (fun p => Qgtb p (1 # 2)) (flatten2 preds)) ts))
    | None => Raise RuntimeError
    end.

(** [metric.update(preds, target)] *)
Definition update_int (s : StatScores) (preds : Tensor2 Z)
    (target : Tensor2 Q) : result StatScores :=
  rbind (int_pairs preds target) (fun pairs => Ok (fold_left count pairs s)).

Definition update_prob (s : StatScores) (preds : Tensor2 Q)
    (target : Tensor2 Q) : result StatScores :=
  rbind (prob_pairs preds target)
    (fun pairs => Ok (fold_left count pairs s)).

(** Division that yields 0 when the denominator is 0. *)
Definition safe_divide (num denom : Z) : Q :=
  if denom =? 0 then 0%Q else (num # Z.to_pos denom)%Q.

(** The 2 x 2 confusion matrix, rows indexed by the true class. *)
Definition ConfMat : Type := list (list Z).

Inductive MetricValue : Type :=
| Scalar (q : Q)
| Matrix (m : ConfMat).

(** [collection.compute()]: a dict from the prefixed metric names, in sorted
    key order, to their values. *)
Definition compute (prefix : string) (s : StatScores)
    : list (string * MetricValue) :=
  [ (prefix ++ "accuracy",
     Scalar (safe_divide (tp s + tn s) (tp s + tn s + fp s + fn s)));
    (prefix ++ "confmat", Matrix [[tn s; fp s]; [fn s; tp s]]);
    (prefix ++ "f1",
     Scalar (safe_divide (2 * tp s) (2 * tp s + fn s + fp s)));
    (prefix ++ "precision", Scalar (safe_divide (tp s) (tp s + fp s)));
    (prefix ++ "recall", Scalar (safe_divide (tp s) (tp s + fn s)));
    (prefix ++ "specificity", Scalar (safe_divide (tn s) (tn s + fp s)))
  ]%string.

(** [d.pop(key)] *)
Fixpoint pop {V} (key : string) (d : list (string * V))
    : result (V * list (string * V)) :=
  match d with
  | [] => Raise (KeyError key)
  | (k, v) :: d' =>
      if String.eqb k key then Ok (v, d')
      else rbind (pop key d') (fun r => Ok (fst r, (k, v) :: snd r))
  end.

(** [d[key]] *)
Fixpoint getitem {V} (key : string) (d : list (string * V)) : result V :=
  match d with
  | [] => Raise (KeyError key)
  | (k, v) :: d' => if String.eqb k key then Ok v else getitem key d'
  end.

(** [m[i, j]] of a confusion matrix. *)
Definition cell (v : MetricValue) (i j : nat) : result Z :=
  match v with
  | Matrix m =>
      match nth_error m i with
      | Some row =>
          match nth_error row j with
          | Some c => Ok c
          | None => Raise IndexError
          end
      | None => Raise IndexError
      end
  | Scalar _ => Raise IndexError
  end.

(** *** smp: [Fscore(activation='sigmoid')]

    [beta = 1], [eps = 1e-7], [threshold = 0.5]; the predictions are the
    thresholded activations.  The hooks call it on tensors of equal shape
    only (the loss has asserted it); broadcasting of unequal shapes is not
    modelled and raises here. *)
Definition eps : Q := 1 # 10000000.

Definition f_score (pr gt : list Q) : Q :=
  let tp := sumQ (map (fun pg => (snd pg * fst pg)%Q) (combine pr gt)) in
  let fp := (sumQ pr - tp)%Q in
  let fn := (sumQ gt - tp)%Q in
  (((1 + 1 * 1) * tp + eps) / ((1 + 1 * 1) * tp + 1 * 1 * fn + fp + eps))%Q.

Definition Fscore {L} (sigmoid : L -> Q) (y_pr : Tensor4 L)
    (y_gt : Tensor4 Q) : result Q :=
  if negb (same_shape4 y_pr y_gt) then Raise RuntimeError
  else
    let pr :=
      map (fun l => if Qgtb (sigmoid l) (1 # 2) then 1%Q else 0%Q)
        (flatten4 y_pr) in
    Ok (f_score pr (flatten4 y_gt)).

(** *** torchmetrics: [DiceScore], for the examples

    The theorems on the hooks hold for whatever value [DiceScore.compute]
    returns; the examples need one.  For every sample: twice the overlap
    of prediction and target over the sum of their sizes, all channels
    together (the micro average), the first channel left out when
    [include_background=False] and there is more than one; the score is
    the mean over the samples for which this is defined.  The examples
    have one channel and masks of 0 and 1, on which the average over the
    channels plays no role. *)
Definition without_background {A} (sample : list (list (list A)))
    : list (list (list A)) :=
  match sample with
  | _ :: ((_ :: _) as rest) => rest
  | _ => sample
  end.

Definition sample_dice (preds : list (list (list Z)))
    (target : list (list (list Q))) : option Q :=
  let p := map inject_Z (concat (concat (without_background preds))) in
  let t := concat (concat (without_background target)) in
  let numerator :=
    (2 * sumQ (map (fun pt => (fst pt * snd pt)%Q) (combine p t)))%Q in
  let denominator := (sumQ p + sumQ t)%Q in
  if Qeq_bool denominator 0 then None else Some (numerator / denominator)%Q.

Fixpoint defined {A} (l : list (option A)) : list A :=
  match l with
  | [] => []
  | Some a :: l' => a :: defined l'
  | None :: l' => defined l'
  end.

Definition DiceScore_compute (updates : list (Tensor4 Z * Tensor4 Q))
    : option Q :=
  let scores :=
    defined
      (flat_map
         (fun u => map (fun pt => sample_dice (fst pt) (snd pt))
                     (combine (fst u) (snd u)))
         updates) in
  match scores with
  | [] => None
  | _ => Some (sumQ scores / inject_Z (Z.of_nat (length scores)))%Q
  end.

(** Two values agree up to a tolerance of [1e-4]. *)
Definition within_tolerance (a b : Q) : bool :=
  Qle_bool (Qabs (a - b)) (1 # 10000).

End Torch.

(** ** What the hooks use of Lightning *)
Module Lightning.

Import Torch.
Open Scope string_scope.
Open Scope monad_scope.

Section Hooks.

(** The mutable attributes of the module, and the values of its loss and
    of its Dice score. *)
Variables State Loss Dice : Type.

(** What is sent to the logger. *)
Inductive LogValue : Type :=
| LossValue (l : Loss)
| Fscore_value (q : Q)
| DiceValue (d : Dice)
| Metric (v : MetricValue)
| Cell (c : Z)
| Figure (confmat : MetricValue).

Definition Hook (A : Type) : Type := M State (string * LogValue) A.

(** [batch[key]]; a missing key of the batch dict is [None]. *)
Definition item {A} (key : string) (field : option A) : Hook A :=
  match field with
  | Some v => ret v
  | None => raise (KeyError key)
  end.

(** [self.log(name, value)] *)
Definition log (name : string) (v : LogValue) : Hook unit := tell (name, v).

(** [self.log_dict(results)] *)
Fixpoint log_dict (results : list (string * MetricValue)) : Hook unit :=
  match results with
  | [] => ret tt
  | (name, v) :: results' => log name (Metric v) ;;; log_dict results'
  end.

(** The four [self.log(f"{name}_{i}_{j}", confmat[i, j])] of the two
    nested loops. *)
Definition log_cells (name : string) (confmat : MetricValue) : Hook unit :=
  c <- lift (cell confmat 0 0) ;; log (name ++ "_0_0") (Cell c) ;;;
  c <- lift (cell confmat 0 1) ;; log (name ++ "_0_1") (Cell c) ;;;
  c <- lift (cell confmat 1 0) ;; log (name ++ "_1_0") (Cell c) ;;;
  c <- lift (cell confmat 1 1) ;; log (name ++ "_1_1") (Cell c).

(** The trainer loop's contract: the step hook once per batch, in order,
    then the epoch-end hook; an exception ends the phase. *)
Fixpoint steps {Batch} (step : Batch -> Z -> Hook unit)
    (batches : list Batch) (batch_idx : Z) : Hook unit :=
  match batches with
  | [] => ret tt
  | batch :: batches' =>
      step batch batch_idx ;;; steps step batches' (batch_idx + 1)%Z
  end.

Definition epoch {Batch} (step : Batch -> Z -> Hook unit)
    (on_epoch_end : Hook unit) (batches : list Batch) : Hook unit :=
  steps step batches 0%Z ;;; on_epoch_end.

End Hooks.

Arguments LossValue {Loss Dice} l.
Arguments Fscore_value {Loss Dice} q.
Arguments DiceValue {Loss Dice} d.
Arguments Metric {Loss Dice} v.
Arguments Cell {Loss Dice} c.
Arguments Figure {Loss Dice} confmat.
Arguments item {State Loss Dice A} key field.
Arguments log {State Loss Dice} name v.
Arguments log_dict {State Loss Dice} results.
Arguments log_cells {State Loss Dice} name confmat.
Arguments steps {State Loss Dice Batch} step batches batch_idx.
Arguments epoch {State Loss Dice Batch} step on_epoch_end batches.

End Lightning.

(** ** ClassificationModel *)
Module ClassificationModel.

Import Torch Lightning.
Open Scope string_scope.
Open Scope Z_scope.
Open Scope monad_scope.

Section Model.

(** The input (an image, or an embedding when there is no encoder), the
    logits of the linear head, and the value of the loss. *)
Variables Input Logit Loss : Type.

(** [self.encoder] and [self.model] with their weights. *)
Variable encoder : option (Input -> result Input).
Variable model : Input -> result (Tensor2 Logit).

(** [torch.sigmoid] on one entry. *)
Variable sigmoid : Logit -> Q.

(** The value [nn.BCEWithLogitsLoss()] returns once its size check has
    passed. *)
Variable loss_value : Tensor2 Logit -> Tensor2 Q -> Loss.

(** The batch dict; a missing key is [None]. *)
Record Batch : Type := mkBatch {
  embs : option Input;
  image : option Input;
  label : option (Tensor2 Q)
}.

(** The mutable attributes of [self]. *)
Record State : Type := mkState {
  val_metrics : StatScores;
  test_metrics : StatScores
}.

Definition Hook (A : Type) : Type := Lightning.Hook State Loss Empty_set A.

(** [ClassificationModel.__init__]: the attributes after construction. *)
Definition init : State := mkState StatScores_zero StatScores_zero.

(** [ClassificationModel.forward] *)
Definition forward (x : Input) : result (Tensor2 Logit) :=
  match encoder with
  | Some enc => rbind (enc x) model
  | None => model x
  end.

(** [self.loss_fn(logits, y)] *)
Definition loss_fn (logits : Tensor2 Logit) (y : Tensor2 Q) : result Loss :=
  if same_shape2 logits y then Ok (loss_value logits y)
  else Raise ValueError.

(** The input the batch must carry: [batch["embs"]] if [self.encoder is
    None], else [batch["image"]]. *)
Definition input_of (batch : Batch) : Hook Input :=
  match encoder with
  | None => item "embs" (embs batch)
  | Some _ => item "image" (image batch)
  end.

Definition training_step (batch : Batch) (batch_idx : Z) : Hook Loss :=
  x <- input_of batch ;;
  y <- item "label" (label batch) ;;
  logits <- lift (forward x) ;;
  loss <- lift (loss_fn logits y) ;;
  log "train_loss" (LossValue loss) ;;;
  ret loss.

Definition validation_step (batch : Batch) (batch_idx : Z) : Hook unit :=
  x <- input_of batch ;;
  y <- item "label" (label batch) ;;
  logits <- lift (forward x) ;;
  loss <- lift (loss_fn logits y) ;;
  log "val_loss" (LossValue loss) ;;;
  let probs := map2 sigmoid logits in
  self <- get ;;
  m <- lift (update_prob (val_metrics self) probs y) ;;
  modify (fun self => mkState m (test_metrics self)).

Definition on_validation_epoch_end : Hook unit :=
  self <- get ;;
  let results := compute "" (val_metrics self) in
  modify (fun self => mkState StatScores_zero (test_metrics self)) ;;;
  popped <- lift (pop "confmat" results) ;;
  let confmat := fst popped in
  let results := snd popped in
  log_dict results ;;;
  log_cells "confusion_matrix" confmat ;;;
  log "confusion_matrix" (Figure confmat).

Definition test_step (batch : Batch) (batch_idx : Z) : Hook unit :=
  x <- input_of batch ;;
  y <- item "label" (label batch) ;;
  logits <- lift (forward x) ;;
  loss <- lift (loss_fn logits y) ;;
  log "test_loss" (LossValue loss) ;;;
  let probs := map2 sigmoid logits in
  self <- get ;;
  m <- lift (update_prob (test_metrics self) probs y) ;;
  modify (fun self => mkState (val_metrics self) m).

Definition on_test_epoch_end : Hook unit :=
  self <- get ;;
  let results := compute "test_" (test_metrics self) in
  modify (fun self => mkState (val_metrics self) StatScores_zero) ;;;
  popped <- lift (pop "test_confmat" results) ;;
  let confmat := fst popped in
  let results := snd popped in
  log_dict results ;;;
  log_cells "test_confusion_matrix" confmat ;;;
  log "confusion_matrix" (Figure confmat).

Definition validation_epoch (batches : list Batch) : Hook unit :=
  epoch validation_step on_validation_epoch_end batches.

Definition test_epoch (batches : list Batch) : Hook unit :=
  epoch test_step on_test_epoch_end batches.

(** The number of entries of [batch["label"]]. *)
Definition label_count (batch : Batch) : nat :=
  match label batch with
  | Some y => length (flatten2 y)
  | None => 0%nat
  end.

(** What the epoch-end hook of a phase sends to the logger, from the counts
    [m] and the phase's prefix.  Both phases send the figure under the same
    name. *)
Definition reduction (prefix : string) (m : StatScores)
    : list (string * LogValue Loss Empty_set) :=
  [ (prefix ++ "accuracy",
     Metric (Scalar (safe_divide (tp m + tn m) (tp m + tn m + fp m + fn m))));
    (prefix ++ "f1",
     Metric (Scalar (safe_divide (2 * tp m) (2 * tp m + fn m + fp m))));
    (prefix ++ "precision",
     Metric (Scalar (safe_divide (tp m) (tp m + fp m))));
    (prefix ++ "recall", Metric (Scalar (safe_divide (tp m) (tp m + fn m))));
    (prefix ++ "specificity",
     Metric (Scalar (safe_divide (tn m) (tn m + fp m))));
    (prefix ++ "confusion_matrix_0_0", Cell (tn m));
    (prefix ++ "confusion_matrix_0_1", Cell (fp m));
    (prefix ++ "confusion_matrix_1_0", Cell (fn m));
    (prefix ++ "confusion_matrix_1_1", Cell (tp m));
    ("confusion_matrix", Figure (Matrix [[tn m; fp m]; [fn m; tp m]])) ].

End Model.

End ClassificationModel.

(** ** SegmentationModel *)
Module SegmentationModel.

Import Torch Lightning.
Open Scope string_scope.
Open Scope Z_scope.
Open Scope monad_scope.

Section Model.

(** The inputs of the decoder (image and embeddings), its logits, and the
    values of the loss and of the Dice score. *)
Variables Input Logit Loss Dice : Type.

(** [self.encoder] and [self.model] with their weights. *)
Variable encoder : option (list Input -> result (list Input)).
Variable model : list Input -> result (Tensor4 Logit).

(** [torch.sigmoid] on one entry. *)
Variable sigmoid : Logit -> Q.

(** The value [GeneralizedDiceLoss(sigmoid=True)] returns once its shape
    assertion has passed. *)
Variable loss_value : Tensor4 Logit -> Tensor4 Q -> Loss.

(** The value [DiceScore.compute()] returns for the pairs it was updated
    with since the last reset. *)
Variable dice_value : list (Tensor4 Z * Tensor4 Q) -> Dice.

(** The batch dict; a missing key is [None]. *)
Record Batch : Type := mkBatch {
  image : option Input;
  mask : option (Tensor4 Q);
  embs : option (list (string * Input));
  label : option (Tensor2 Q)
}.

(** The mutable attributes of [self]. *)
Record State : Type := mkState {
  val_metrics : StatScores;
  test_metrics : StatScores;
  dice_score : list (Tensor4 Z * Tensor4 Q);
  validation_step_outputs : list (Tensor4 Logit * Tensor4 Q)
}.

Definition Hook (A : Type) : Type := Lightning.Hook State Loss Dice A.

Definition pixel_treshold : Z := 1000.

(** [SegmentationModel.__init__]: the attributes after construction. *)
Definition init : result State :=
  match encoder with
  | Some _ => Raise AssertionError
  | None => Ok (mkState StatScores_zero StatScores_zero [] [])
  end.

(** [SegmentationModel.forward] *)
Definition forward (x : list Input) : result (Tensor4 Logit) :=
  match encoder with
  | Some enc => rbind (enc x) model
  | None => model x
  end.

(** [self.loss_fn(logits, y)] *)
Definition loss_fn (logits : Tensor4 Logit) (y : Tensor4 Q) : result Loss :=
  if same_shape4 logits y then Ok (loss_value logits y)
  else Raise AssertionError.

(** [((probs > 0.5).sum((2, 3)) > self.pixel_treshold).to(torch.int64)] *)
Definition pred_label_of (probs : Tensor4 Q) : Tensor2 Z :=
  map2 Z.b2z (map2 (fun c => pixel_treshold <? c) (sum_2_3 (gt_half probs))).

(** [self.val_metrics.update(preds, target)] *)
Definition val_metrics_update (preds : Tensor2 Z) (target : Tensor2 Z)
    : Hook unit :=
  self <- get ;;
  m <- lift (update_int (val_metrics self) preds (map2 inject_Z target)) ;;
  modify (fun self =>
    mkState m (test_metrics self) (dice_score self)
      (validation_step_outputs self)).

(** [self.test_metrics.update(preds, target)] *)
Definition test_metrics_update (preds : Tensor2 Z) (target : Tensor2 Z)
    : Hook unit :=
  self <- get ;;
  m <- lift (update_int (test_metrics self) preds (map2 inject_Z target)) ;;
  modify (fun self =>
    mkState (val_metrics self) m (dice_score self)
      (validation_step_outputs self)).

(** [self.dice_score.update(preds, target)] *)
Definition dice_score_update (preds : Tensor4 Z) (target : Tensor4 Q)
    : Hook unit :=
  if same_shape4 preds target
  then modify (fun self =>
         mkState (val_metrics self) (test_metrics self)
           (dice_score self ++ [(preds, target)])%list
           (validation_step_outputs self))
  else raise RuntimeError.

(** [self.dice_score.compute()]: the statistic of a score that has had no
    update since its last reset cannot be concatenated. *)
Definition dice_score_compute (updates : list (Tensor4 Z * Tensor4 Q))
    : result Dice :=
  match updates with
  | [] => Raise ValueError
  | _ => Ok (dice_value updates)
  end.

(** [self.validation_step_outputs.append(pair)] *)
Definition validation_step_outputs_append
    (pair : Tensor4 Logit * Tensor4 Q) : Hook unit :=
  modify (fun self =>
    mkState (val_metrics self) (test_metrics self) (dice_score self)
      (validation_step_outputs self ++ [pair])%list).

Definition training_step (batch : Batch) (batch_idx : Z) : Hook Loss :=
  x <- item "image" (image batch) ;;
  y <- item "mask" (mask batch) ;;
  embs <- item "embs" (embs batch) ;;
  z3 <- lift (getitem "z3" embs) ;;
  z6 <- lift (getitem "z6" embs) ;;
  z9 <- lift (getitem "z9" embs) ;;
  z12 <- lift (getitem "z12" embs) ;;
  logits <- lift (forward [x; z3; z6; z9; z12]) ;;
  loss <- lift (loss_fn logits y) ;;
  log "train_loss" (LossValue loss) ;;;
  dsc <- lift (Fscore sigmoid logits y) ;;
  log "train_dsc" (Fscore_value dsc) ;;;
  ret loss.

Definition validation_step (batch : Batch) (batch_idx : Z) : Hook unit :=
  x <- item "image" (image batch) ;;
  y <- item "mask" (mask batch) ;;
  embs <- item "embs" (embs batch) ;;
  logits <- lift (forward (x :: map snd embs)) ;;
  loss <- lift (loss_fn logits y) ;;
  log "val_loss" (LossValue loss) ;;;
  let probs := map4 sigmoid logits in
  let pred_label := pred_label_of probs in
  label <- item "label" (label batch) ;;
  let label := map2 to_int64 label in
  val_metrics_update pred_label label ;;;
  let pred_mask := map4 Z.b2z (gt_half probs) in
  dice_score_update pred_mask y ;;;
  validation_step_outputs_append (logits, y).

Definition on_validation_epoch_end : Hook unit :=
  self <- get ;;
  let results := compute "val_" (val_metrics self) in
  modify (fun self =>
    mkState StatScores_zero (test_metrics self) (dice_score self)
      (validation_step_outputs self)) ;;;
  self <- get ;;
  dsc <- lift (dice_score_compute (dice_score self)) ;;
  modify (fun self =>
    mkState (val_metrics self) (test_metrics self) []
      (validation_step_outputs self)) ;;;
  log "val_dsc" (DiceValue dsc) ;;;
  popped <- lift (pop "val_confmat" results) ;;
  let confmat := fst popped in
  let results := snd popped in
  log_dict results ;;;
  log_cells "val_confusion_matrix" confmat ;;;
  log "val_confusion_matrix" (Figure confmat) ;;;
  self <- get ;;
  let logits := map fst (validation_step_outputs self) in
  let targets := map snd (validation_step_outputs self) in
  modify (fun self =>
    mkState (val_metrics self) (test_metrics self) (dice_score self) []) ;;;
  logits <- lift (torch_cat logits) ;;
  targets <- lift (torch_cat targets) ;;
  dsc <- lift (Fscore sigmoid logits targets) ;;
  log "val_smp" (Fscore_value dsc).

Definition test_step (batch : Batch) (batch_idx : Z) : Hook unit :=
  x <- item "image" (image batch) ;;
  embs <- item "embs" (embs batch) ;;
  y <- item "mask" (mask batch) ;;
  logits <- lift (forward (x :: map snd embs)) ;;
  loss <- lift (loss_fn logits y) ;;
  log "test_loss" (LossValue loss) ;;;
  let probs := map4 sigmoid logits in
  let pred_label := pred_label_of probs in
  label <- item "label" (label batch) ;;
  let label := map2 to_int64 label in
  test_metrics_update pred_label label ;;;
  let pred_mask := map4 Z.b2z (gt_half probs) in
  dice_score_update pred_mask y ;;;
  validation_step_outputs_append (logits, y).

Definition on_test_epoch_end : Hook unit :=
  self <- get ;;
  let results := compute "test_" (test_metrics self) in
  modify (fun self =>
    mkState (val_metrics self) StatScores_zero (dice_score self)
      (validation_step_outputs self)) ;;;
  self <- get ;;
  dsc <- lift (dice_score_compute (dice_score self)) ;;
  modify (fun self =>
    mkState (val_metrics self) (test_metrics self) []
      (validation_step_outputs self)) ;;;
  log "test_dsc" (DiceValue dsc) ;;;
  popped <- lift (pop "test_confmat" results) ;;
  let confmat := fst popped in
  let results := snd popped in
  log_dict results ;;;
  log_cells "test_confusion_matrix" confmat ;;;
  log "test_confusion_matrix" (Figure confmat) ;;;
  self <- get ;;
  let preds := map fst (validation_step_outputs self) in
  let targets := map snd (validation_step_outputs self) in
  modify (fun self =>
    mkState (val_metrics self) (test_metrics self) (dice_score self) []) ;;;
  preds <- lift (torch_cat preds) ;;
  targets <- lift (torch_cat targets) ;;
  dsc <- lift (Fscore sigmoid preds targets) ;;
  log "test_smp" (Fscore_value dsc).

Definition validation_epoch (batches : list Batch) : Hook unit :=
  epoch validation_step on_validation_epoch_end batches.

Definition test_epoch (batches : list Batch) : Hook unit :=
  epoch test_step on_test_epoch_end batches.

(** The accumulators hold nothing: the state right after construction. *)
Definition idle (self : State) : Prop :=
  self = mkState StatScores_zero StatScores_zero [] [].

(** What evaluation steps add to the accumulators: the (prediction,
    target) pairs counted by the metric collection, the pairs given to the
    Dice score and the pairs buffered for the epoch end. *)
Record Delta : Type := mkDelta {
  counted : list (bool * bool);
  dice_pairs : list (Tensor4 Z * Tensor4 Q);
  buffered : list (Tensor4 Logit * Tensor4 Q)
}.

Definition no_delta : Delta := mkDelta [] [] [].

Definition delta_app (d1 d2 : Delta) : Delta :=
  mkDelta (counted d1 ++ counted d2)%list
    (dice_pairs d1 ++ dice_pairs d2)%list
    (buffered d1 ++ buffered d2)%list.

(** The state after a validation phase has added [d]. *)
Definition accumulate_val (d : Delta) (self : State) : State :=
  mkState (fold_left count (counted d) (val_metrics self))
    (test_metrics self)
    (dice_score self ++ dice_pairs d)%list
    (validation_step_outputs self ++ buffered d)%list.

(** The state after a test phase has added [d]. *)
Definition accumulate_test (d : Delta) (self : State) : State :=
  mkState (val_metrics self)
    (fold_left count (counted d) (test_metrics self))
    (dice_score self ++ dice_pairs d)%list
    (validation_step_outputs self ++ buffered d)%list.

(** What a step that returns has computed from its batch: the logits, the
    mask, and the (derived label, label) pairs it counts.  [None] when the
    step raises. *)
Definition evaluate (batch : Batch)
    : option (Tensor4 Logit * Tensor4 Q * list (bool * bool)) :=
  match image batch, mask batch, embs batch, label batch with
  | Some x, Some y, Some e, Some lbl =>
      match forward (x :: map snd e) with
      | Ok logits =>
          if same_shape4 logits y
          then
            match int_pairs (pred_label_of (map4 sigmoid logits))
                    (map2 inject_Z (map2 to_int64 lbl)) with
            | Ok ps => Some (logits, y, ps)
            | Raise _ => None
            end
          else None
      | Raise _ => None
      end
  | _, _, _, _ => None
  end.

Fixpoint evaluate_all (batches : list Batch)
    : option (list (Tensor4 Logit * Tensor4 Q * list (bool * bool))) :=
  match batches with
  | [] => Some []
  | batch :: batches' =>
      match evaluate batch, evaluate_all batches' with
      | Some ev, Some evs => Some (ev :: evs)
      | _, _ => None
      end
  end.

(** What the steps of an epoch add to the accumulators, from what each of
    them computed. *)
Definition epoch_delta
    (evs : list (Tensor4 Logit * Tensor4 Q * list (bool * bool))) : Delta :=
  mkDelta (concat (map snd evs))
    (map (fun ev =>
            (map4 Z.b2z (gt_half (map4 sigmoid (fst (fst ev)))),
             snd (fst ev))) evs)
    (map fst evs).

(** What the epoch-end hook of a phase sends to the logger when its final
    recomputation returns [smp], from the counts [m], the Dice updates [ds]
    and the phase's prefix. *)
Definition reduction (phase : string) (m : StatScores)
    (ds : list (Tensor4 Z * Tensor4 Q)) (smp : Q)
    : list (string * LogValue Loss Dice) :=
  [ (phase ++ "_dsc", DiceValue (dice_value ds));
    (phase ++ "_accuracy",
     Metric (Scalar (safe_divide (tp m + tn m) (tp m + tn m + fp m + fn m))));
    (phase ++ "_f1",
     Metric (Scalar (safe_divide (2 * tp m) (2 * tp m + fn m + fp m))));
    (phase ++ "_precision",
     Metric (Scalar (safe_divide (tp m) (tp m + fp m))));
    (phase ++ "_recall", Metric (Scalar (safe_divide (tp m) (tp m + fn m))));
    (phase ++ "_specificity",
     Metric (Scalar (safe_divide (tn m) (tn m + fp m))));
    (phase ++ "_confusion_matrix_0_0", Cell (tn m));
    (phase ++ "_confusion_matrix_0_1", Cell (fp m));
    (phase ++ "_confusion_matrix_1_0", Cell (fn m));
    (phase ++ "_confusion_matrix_1_1", Cell (tp m));
    (phase ++ "_confusion_matrix",
     Figure (Matrix [[tn m; fp m]; [fn m; tp m]]));
    (phase ++ "_smp", Fscore_value smp) ].

(** What the epoch-end hook of a phase has sent to the logger when it comes
    to its final recomputation: all of the above but the last entry. *)
Definition tracked (phase : string) (m : StatScores)
    (ds : list (Tensor4 Z * Tensor4 Q)) : list (string * LogValue Loss Dice) :=
  removelast (reduction phase m ds 0).

(** The number of foreground pixels of one channel of one sample: the
    entries whose probability is above 0.5. *)
Definition foreground_pixels (plane : list (list Q)) : Z :=
  Z.of_nat (length (filter (fun p => Qgtb p (1 # 2)) (concat plane))).

End Model.

End SegmentationModel.

(** ** Concrete instances, to run the hooks on *)
Module Examples.

Import Torch Lightning.
Open Scope string_scope.
Open Scope Q_scope.

(** The logits are represented by the probabilities [torch.sigmoid] maps
    them to: the hooks use the logits through the sigmoid and through the
    loss only, and the value of the loss is not computed here. *)
Definition Logit : Type := Q.
Definition sigmoid (p : Logit) : Q := p.
Definition Loss : Type := unit.
Definition loss_value (logits : Tensor4 Logit) (y : Tensor4 Q) : Loss := tt.

(** A decoder that unpacks its five inputs as [UNETR.forward] does and
    predicts the first of them. *)
Definition decoder (x : list (Tensor4 Q)) : result (Tensor4 Logit) :=
  match x with
  | [z0; _; _; _; _] => Ok z0
  | _ => Raise ValueError
  end.

Definition Batch : Type := SegmentationModel.Batch (Tensor4 Q).
Definition State : Type := SegmentationModel.State Logit.

Definition training_step : Batch -> Z -> SegmentationModel.Hook _ _ _ Loss :=
  @SegmentationModel.training_step _ _ _ (option Q) None decoder sigmoid
    loss_value.
Definition validation_step : Batch -> Z -> SegmentationModel.Hook _ _ _ unit :=
  @SegmentationModel.validation_step _ _ _ (option Q) None decoder sigmoid
    loss_value.
Definition test_step : Batch -> Z -> SegmentationModel.Hook _ _ _ unit :=
  @SegmentationModel.test_step _ _ _ (option Q) None decoder sigmoid
    loss_value.
Definition on_validation_epoch_end : SegmentationModel.Hook _ _ _ unit :=
  @SegmentationModel.on_validation_epoch_end Logit Loss _ sigmoid
    DiceScore_compute.
Definition on_test_epoch_end : SegmentationModel.Hook _ _ _ unit :=
  @SegmentationModel.on_test_epoch_end Logit Loss _ sigmoid
    DiceScore_compute.
Definition validation_epoch
    : list Batch -> SegmentationModel.Hook _ _ _ unit :=
  @SegmentationModel.validation_epoch _ _ _ _ None decoder sigmoid
    loss_value DiceScore_compute.

(** The state right after construction. *)
Definition fresh : State :=
  SegmentationModel.mkState StatScores_zero StatScores_zero [] [].

(** A tensor of one sample and one channel. *)
Definition single (plane : list (list Q)) : Tensor4 Q := [[plane]].

Definition constant (v : Q) (h w : nat) : list (list Q) :=
  repeat (repeat v w) h.

Definition embeddings : list (string * Tensor4 Q) :=
  [ ("z3", single [[0]]); ("z6", single [[0]]); ("z9", single [[0]]);
    ("z12", single [[0]]) ].

(** A batch of one sample: the predicted probabilities, the mask and the
    label of the sample. *)
Definition batch_of (probs mask : list (list Q)) (label : Q) : Batch :=
  SegmentationModel.mkBatch (Some (single probs)) (Some (single mask))
    (Some embeddings) (Some [[label]]).

(** 1001 = 7 x 143 and 1000 = 25 x 40 foreground pixels. *)
Definition plane_1001 : list (list Q) := constant (3 # 4) 7 143.
Definition plane_1000 : list (list Q) := constant (3 # 4) 25 40.

(** A positive sample whose four-pixel mask is predicted exactly. *)
Definition small_lesion : Batch :=
  batch_of (constant (3 # 4) 2 2) (constant 1 2 2) 1.

(** A positive sample whose two-pixel mask is missed by a two-pixel
    prediction. *)
Definition missed_lesion : Batch :=
  batch_of [[3 # 4; 3 # 4]; [1 # 4; 1 # 4]] [[0; 0]; [1; 1]] 1.

Definition test_epoch : list Batch -> SegmentationModel.Hook _ _ _ unit :=
  @SegmentationModel.test_epoch _ _ _ _ None decoder sigmoid loss_value
    DiceScore_compute.

(** A batch without its label, and a batch that carries its image only. *)
Definition unlabelled : Batch :=
  SegmentationModel.mkBatch (Some (single (constant (3 # 4) 2 2)))
    (Some (single (constant 1 2 2))) (Some embeddings) None.

Definition image_only : Batch :=
  SegmentationModel.mkBatch (Some (single (constant (3 # 4) 2 2))) None None
    None.


(** A batch whose image is larger than that of the batches above. *)
Definition large_lesion : Batch :=
  batch_of (constant (3 # 4) 3 3) (constant 1 3 3) 1.

(** Embeddings that can be told apart, the same in the reverse order, and
    the same without "z9". *)
Definition pyramid : list (string * Tensor4 Q) :=
  [ ("z3", single [[3]]); ("z6", single [[6]]); ("z9", single [[9]]);
    ("z12", single [[12]]) ].

Definition pyramid_reversed : list (string * Tensor4 Q) :=
  [ ("z12", single [[12]]); ("z9", single [[9]]); ("z6", single [[6]]);
    ("z3", single [[3]]) ].

Definition pyramid_without_z9 : list (string * Tensor4 Q) :=
  [ ("z3", single [[3]]); ("z6", single [[6]]); ("z12", single [[12]]) ].

Definition with_embs (embs : list (string * Tensor4 Q)) : Batch :=
  SegmentationModel.mkBatch (Some (single (constant (3 # 4) 2 2)))
    (Some (single (constant 1 2 2))) (Some embs) (Some [[1]]).

(** The classification model without an encoder, with a head that returns
    its input as the logits. *)
Definition head (x : Tensor2 Q) : result (Tensor2 Logit) := Ok x.

Definition head_loss_value (logits : Tensor2 Logit) (y : Tensor2 Q) : Loss :=
  tt.

Definition embedded (probs label : Tensor2 Q)
    : ClassificationModel.Batch (Tensor2 Q) :=
  ClassificationModel.mkBatch (Some probs) None (Some label).

(** Two batches of two and of one sample: a true positive and a false
    negative, then a false positive. *)
Definition embedded_batches : list (ClassificationModel.Batch (Tensor2 Q)) :=
  [ embedded [[3 # 4]; [1 # 4]] [[1]; [1]]; embedded [[3 # 4]] [[0]] ].

End Examples.

(* ------------------------------------------------------------------ *)
(** * Part I, proofs                                                   *)
(* ------------------------------------------------------------------ *)

Module DecoderFacts.

Import Decoder.
Open Scope Z_scope.

(** ** Channel bookkeeping *)

Lemma union_all_app (a b : list Deps) :
  union_all (a ++ b) = N.lor (union_all a) (union_all b).
Proof.
  induction a as [|d a IH]; simpl.
  - reflexivity.
  - rewrite IH. apply N.lor_assoc.
Qed.

Lemma union_all_repeat (d : Deps) (n : nat) :
  (0 < n)%nat -> union_all (repeat d n) = d.
Proof.
  induction n as [|n IH]; intros Hn; [lia|].
  destruct n as [|n]; simpl.
  - apply N.lor_0_r.
  - simpl in IH. rewrite IH by lia. apply N.lor_diag.
Qed.

Lemma union_all_feature (d : Deps) (c : Z) :
  0 < c -> union_all (repeat d (Z.to_nat c)) = d.
Proof. intros Hc. apply union_all_repeat. lia. Qed.

Lemma length_repeat_Z (d : Deps) (c : Z) :
  0 <= c -> Z.of_nat (length (repeat d (Z.to_nat c))) = c.
Proof. intros Hc. rewrite repeat_length. lia. Qed.

(** A pointwise convolution ([groups = 1]) mixes all input channels into
    every output channel. *)
Lemma grouped_pointwise (i o : Z) (cs : list Deps) :
  Z.of_nat (length cs) = i ->
  grouped_channels i o 1 cs = repeat (union_all cs) (Z.to_nat o).
Proof.
  intros Hlen. unfold grouped_channels.
  rewrite !Z.div_1_r. change (Z.to_nat 1) with 1%nat. simpl.
  rewrite app_nil_r.
  replace (Z.to_nat i) with (length cs) by lia.
  now rewrite firstn_all.
Qed.

Lemma singletons_of_list (l : list Deps) :
  flat_map (fun g => [union_all (firstn 1 (skipn g l))]) (seq 0 (length l))
  = l.
Proof.
  induction l as [|a l IH]; [reflexivity|].
  cbn [length seq flat_map skipn firstn union_all fold_right app].
  rewrite N.lor_0_r. f_equal.
  rewrite <- seq_shift, flat_map_concat_map, map_map.
  rewrite <- flat_map_concat_map. exact IH.
Qed.

(** A depthwise convolution ([groups = in = out]) keeps every channel on
    its own. *)
Lemma grouped_depthwise (i : Z) (cs : list Deps) :
  0 < i -> Z.of_nat (length cs) = i -> grouped_channels i i i cs = cs.
Proof.
  intros Hi Hlen. unfold grouped_channels.
  rewrite Z.div_same by lia. change (Z.to_nat 1) with 1%nat.
  replace (Z.to_nat i) with (length cs) by lia.
  etransitivity; [|apply singletons_of_list].
  apply flat_map_ext. intros g. now rewrite Nat.mul_1_r.
Qed.

(** ** Output sizes *)

Lemma conv_out_odd (size k : Z) :
  Z.odd k = true -> conv_out size k 1 ((k - 1) / 2) = size.
Proof.
  intros Hk. apply Z.odd_spec in Hk. destruct Hk as [m ->].
  unfold conv_out. rewrite Z.div_1_r.
  replace (2 * m + 1 - 1) with (m * 2) by ring.
  rewrite Z.div_mul by lia. ring.
Qed.


Lemma deconv_out_double (size : Z) : deconv_out size 2 2 0 0 = 2 * size.
Proof. unfold deconv_out. ring. Qed.

(** ** One layer at a time *)

Lemma forward_Sequential_nil (training : bool) (x : Tensor) :
  forward training (Sequential []) x = Ok x.
Proof. reflexivity. Qed.

Lemma forward_Sequential_cons (training : bool) (l : Layer)
    (ls : list Layer) (x : Tensor) :
  forward training (Sequential (l :: ls)) x
  = rbind (forward training l x) (forward training (Sequential ls)).
Proof. reflexivity. Qed.

Lemma forward_SingleConv2DBlock (training : bool) (i o k g : Z)
    (x : Tensor) :
  0 < i -> 0 < o ->
  channels x = i ->
  1 <= k ->
  k <= height x + 2 * ((k - 1) / 2) ->
  k <= width x + 2 * ((k - 1) / 2) ->
  forward training (SingleConv2DBlock i o k g) x
  = Ok (mkTensor (batch x) (grouped_channels i o g (chan x))
          (conv_out (height x) k 1 ((k - 1) / 2))
          (conv_out (width x) k 1 ((k - 1) / 2))).
Proof.
  intros Hi Ho Hc Hk Hh Hw. unfold SingleConv2DBlock. cbn [forward].
  destruct (Z.leb_spec i 0); [lia|]. destruct (Z.leb_spec o 0); [lia|].
  cbn [orb]. rewrite Hc, Z.eqb_refl. cbn [negb].
  assert (Hp : 0 <= (k - 1) / 2) by (apply Z.div_pos; lia).
  destruct (Z.leb_spec k 0); [lia|].
  destruct (Z.ltb_spec ((k - 1) / 2) 0); [lia|]. cbn [orb].
  destruct (Z.ltb_spec (height x + 2 * ((k - 1) / 2)) k); [lia|].
  destruct (Z.ltb_spec (width x + 2 * ((k - 1) / 2)) k); [lia|].
  reflexivity.
Qed.

Lemma forward_SingleDeconv2DBlock (training : bool) (i o g : Z)
    (x : Tensor) :
  0 < i -> 0 < o ->
  channels x = i ->
  forward training (SingleDeconv2DBlock i o g) x
  = Ok (mkTensor (batch x) (grouped_channels i o g (chan x))
          (2 * height x) (2 * width x)).
Proof.
  intros Hi Ho Hc. unfold SingleDeconv2DBlock. cbn [forward].
  destruct (Z.leb_spec i 0); [lia|]. destruct (Z.leb_spec o 0); [lia|].
  rewrite Hc, Z.eqb_refl. cbn [negb orb Z.leb Z.ltb Z.compare].
  now rewrite !deconv_out_double.
Qed.

Lemma forward_BatchNorm2d (training : bool) (c : Z) (x : Tensor) :
  channels x = c ->
  training && (batch x * height x * width x =? 1) = false ->
  forward training (BatchNorm2d c) x = Ok x.
Proof.
  intros Hc Hn. cbn [forward]. rewrite Hc, Z.eqb_refl, Hn. reflexivity.
Qed.

Lemma forward_ReLU (training : bool) (x : Tensor) :
  forward training ReLU x = Ok x.
Proof. reflexivity. Qed.

(** In either mode a batch of at least one image larger than a single
    pixel passes the check of batch normalisation. *)
Lemma batch_norm_guard (training : bool) (n h w : Z) :
  1 <= n -> 2 <= h -> 1 <= w -> training && (n * h * w =? 1) = false.
Proof.
  intros Hn Hh Hw. destruct training; [|reflexivity]. cbn [andb].
  apply Z.eqb_neq. nia.
Qed.

(** ** The blocks *)

(** Side conditions of [forward_SingleConv2DBlock] for the two kernel sizes
    the decoder uses. *)
Ltac conv_side :=
  first
    [ assumption
    | unfold channels; cbn [chan]; assumption
    | lia
    | cbn [height width];
      change ((1 - 1) / 2) with 0; change ((3 - 1) / 2) with 1; lia ].

Section Blocks.

Variable training : bool.
Variables (i o n h w : Z) (cs : list Deps).
Hypothesis Hi : 0 < i.
Hypothesis Ho : 0 < o.
Hypothesis Hcs : Z.of_nat (length cs) = i.
Hypothesis Hh : 1 <= h.
Hypothesis Hw : 1 <= w.

Lemma forward_pointwise :
  forward training (SingleConv2DBlock i o 1 1) (mkTensor n cs h w)
  = Ok (mkTensor n (repeat (union_all cs) (Z.to_nat o)) h w).
Proof.
  rewrite forward_SingleConv2DBlock by conv_side.
  cbn [batch chan height width].
  rewrite grouped_pointwise by exact Hcs.
  now rewrite !conv_out_odd by reflexivity.
Qed.

Lemma forward_depthwise :
  forward training (SingleConv2DBlock i i 3 i) (mkTensor n cs h w)
  = Ok (mkTensor n cs h w).
Proof.
  rewrite forward_SingleConv2DBlock by conv_side.
  cbn [batch chan height width].
  rewrite grouped_depthwise by assumption.
  now rewrite !conv_out_odd by reflexivity.
Qed.

Lemma forward_Conv2DBlock :
  training && (n * h * w =? 1) = false ->
  forward training (Conv2DBlock i o 3) (mkTensor n cs h w)
  = Ok (mkTensor n (repeat (union_all cs) (Z.to_nat o)) h w).
Proof.
  intros Hbn. unfold Conv2DBlock.
  rewrite forward_Sequential_cons, forward_depthwise. cbn [rbind].
  rewrite forward_Sequential_cons, forward_BatchNorm2d by assumption.
  cbn [rbind].
  rewrite forward_Sequential_cons, forward_ReLU. cbn [rbind].
  rewrite forward_Sequential_cons, forward_pointwise. cbn [rbind].
  rewrite forward_Sequential_cons, forward_BatchNorm2d;
    [| apply length_repeat_Z; lia | assumption ].
  cbn [rbind].
  now rewrite forward_Sequential_cons, forward_ReLU.
Qed.

(** With one value per channel, batch normalisation in training mode
    raises. *)
Lemma forward_Conv2DBlock_single_value :
  training && (n * h * w =? 1) = true ->
  forward training (Conv2DBlock i o 3) (mkTensor n cs h w)
  = Raise ValueError.
Proof.
  intros Hbn. unfold Conv2DBlock.
  rewrite forward_Sequential_cons, forward_depthwise. cbn [rbind].
  rewrite forward_Sequential_cons. cbn [forward].
  unfold channels. cbn [chan batch height width].
  now rewrite Hcs, Z.eqb_refl, Hbn.
Qed.

Lemma forward_SingleDWConv2DBlock :
  forward training (SingleDWConv2DBlock i o) (mkTensor n cs h w)
  = Ok (mkTensor n (repeat (union_all cs) (Z.to_nat o)) (2 * h) (2 * w)).
Proof.
  unfold SingleDWConv2DBlock.
  rewrite forward_Sequential_cons, forward_SingleDeconv2DBlock
    by first [exact Hcs | lia].
  cbn [rbind batch chan height width].
  rewrite grouped_depthwise by assumption.
  rewrite forward_Sequential_cons, forward_SingleConv2DBlock
    by conv_side.
  cbn [rbind batch chan height width].
  rewrite grouped_pointwise by exact Hcs.
  now rewrite !conv_out_odd by reflexivity.
Qed.

End Blocks.

Lemma forward_Deconv2DBlock (training : bool) (i o n h w : Z)
    (cs : list Deps) :
  0 < i -> 0 < o -> Z.of_nat (length cs) = i -> 1 <= h -> 1 <= w ->
  1 <= n ->
  forward training (Deconv2DBlock i o 3) (mkTensor n cs h w)
  = Ok (mkTensor n (repeat (union_all cs) (Z.to_nat o)) (2 * h) (2 * w)).
Proof.
  intros Hi Ho Hcs Hh Hw Hn. unfold Deconv2DBlock.
  rewrite forward_Sequential_cons, forward_SingleDeconv2DBlock
    by first [exact Hcs | lia].
  cbn [rbind batch chan height width].
  rewrite grouped_depthwise by assumption.
  apply (forward_Conv2DBlock training (i := i) (o := o));
    first [lia | apply batch_norm_guard; lia].
Qed.

(** ** Construction *)

Lemma constructible_Sequential_cons (l : Layer) (ls : list Layer) :
  constructible (Sequential (l :: ls))
  = constructible l && constructible (Sequential ls).
Proof. reflexivity. Qed.

Lemma conv_args_depthwise (i : Z) : 0 < i -> conv_args_ok i i i = true.
Proof.
  intros Hi. unfold conv_args_ok. rewrite Z.mod_same by lia.
  destruct (Z.ltb_spec 0 i); [|lia].
  destruct (Z.leb_spec 0 i); [reflexivity | lia].
Qed.

Lemma conv_args_pointwise (i o : Z) :
  0 <= i -> 0 <= o -> conv_args_ok i o 1 = true.
Proof.
  intros Hi Ho. unfold conv_args_ok. rewrite !Z.mod_1_r.
  destruct (Z.leb_spec 0 i); [|lia].
  destruct (Z.leb_spec 0 o); [reflexivity | lia].
Qed.

Lemma constructible_Conv2DBlock (i o : Z) :
  0 < i -> 0 < o -> constructible (Conv2DBlock i o 3) = true.
Proof.
  intros Hi Ho. cbn. rewrite conv_args_depthwise, conv_args_pointwise by lia.
  destruct (Z.leb_spec 0 i); [|lia]. destruct (Z.leb_spec 0 o); [|lia].
  reflexivity.
Qed.

Lemma constructible_Deconv2DBlock (i o : Z) :
  0 < i -> 0 < o -> constructible (Deconv2DBlock i o 3) = true.
Proof.
  intros Hi Ho. cbn. rewrite conv_args_depthwise, conv_args_pointwise by lia.
  destruct (Z.leb_spec 0 i); [|lia]. destruct (Z.leb_spec 0 o); [|lia].
  reflexivity.
Qed.

Lemma constructible_SingleDWConv2DBlock (i o : Z) :
  0 < i -> 0 < o -> constructible (SingleDWConv2DBlock i o) = true.
Proof.
  intros Hi Ho. cbn. rewrite conv_args_depthwise, conv_args_pointwise by lia.
  reflexivity.
Qed.

Lemma constructible_pointwise (i o : Z) :
  0 < i -> 0 < o -> constructible (SingleConv2DBlock i o 1 1) = true.
Proof. intros Hi Ho. cbn. now rewrite conv_args_pointwise by lia. Qed.

(** The constructor of a layer returns exactly when the layer is
    constructible. *)
Lemma is_ok_conv_init (i o k g : Z) :
  is_ok (conv_init i o k g) = conv_args_ok i o g && (0 <=? k).
Proof.
  unfold conv_init, conv_args_ok.
  destruct (Z.leb_spec g 0), (Z.ltb_spec 0 g); try lia; cbn [andb];
    [reflexivity|].
  destruct (i mod g =? 0); cbn [negb andb]; [|reflexivity].
  destruct (o mod g =? 0); cbn [negb andb]; [|reflexivity].
  destruct (Z.ltb_spec i 0), (Z.leb_spec 0 i); try lia; cbn [orb andb];
    [reflexivity|].
  destruct (Z.ltb_spec o 0), (Z.leb_spec 0 o); try lia; cbn [orb andb];
    [reflexivity|].
  destruct (Z.ltb_spec k 0), (Z.leb_spec 0 k); try lia; reflexivity.
Qed.

Lemma Layer_init_constructible :
  forall l : Layer, is_ok (Layer_init l) = constructible l.
Proof.
  fix IH 1. intros [i o k s p g|i o k s p op g|n| |ls].
  - apply is_ok_conv_init.
  - apply is_ok_conv_init.
  - cbn [Layer_init constructible].
    now destruct (Z.ltb_spec n 0), (Z.leb_spec 0 n); try lia.
  - reflexivity.
  - cbn [Layer_init constructible].
    induction ls as [|l ls IHls]; [reflexivity|].
    rewrite <- (IH l), <- IHls.
    now destruct (Layer_init l) as [[]|e].
Qed.

Lemma Layer_init_ok (l : Layer) :
  constructible l = true -> Layer_init l = Ok tt.
Proof.
  rewrite <- Layer_init_constructible.
  now destruct (Layer_init l) as [[]|e].
Qed.

Lemma UNETR_init_constructible (transformer_width output_dim input_dim
    init_filters : Z) :
  is_ok (UNETR_init transformer_width output_dim input_dim init_filters)
  = UNETR_constructible
      (UNETR_modules transformer_width output_dim input_dim init_filters).
Proof.
  unfold UNETR_init, UNETR_constructible. cbv zeta.
  rewrite <- !Layer_init_constructible.
  repeat
    (match goal with
     | |- context [rbind (Layer_init ?l) _] =>
         destruct (Layer_init l) as [[]|?]
     end;
     cbn [rbind is_ok andb]; [|reflexivity]).
  reflexivity.
Qed.

(** Every positive choice of the four widths builds. *)
Lemma UNETR_constructible_ok (transformer_width output_dim input_dim
    init_filters : Z) :
  0 < transformer_width -> 0 < output_dim -> 0 < input_dim ->
  0 < init_filters ->
  UNETR_constructible
    (UNETR_modules transformer_width output_dim input_dim init_filters)
  = true.
Proof.
  intros Htw Hod Hid Hf. unfold UNETR_constructible.
  cbn [UNETR_modules decoder0 decoder3 decoder6 decoder9
       decoder12_upsampler decoder9_upsampler decoder6_upsampler
       decoder3_upsampler decoder0_header].
  rewrite !constructible_Sequential_cons.
  rewrite !constructible_Conv2DBlock, !constructible_Deconv2DBlock,
    !constructible_SingleDWConv2DBlock, constructible_pointwise by lia.
  reflexivity.
Qed.

Lemma UNETR_init_ok (transformer_width output_dim input_dim
    init_filters : Z) :
  0 < transformer_width -> 0 < output_dim -> 0 < input_dim ->
  0 < init_filters ->
  UNETR_init transformer_width output_dim input_dim init_filters
  = Ok (UNETR_modules transformer_width output_dim input_dim init_filters).
Proof.
  intros Htw Hod Hid Hf.
  pose proof (UNETR_constructible_ok Htw Hod Hid Hf) as Hok.
  rewrite <- UNETR_init_constructible in Hok.
  unfold UNETR_init in *. cbv zeta in *.
  repeat
    (match goal with
     | |- context [rbind (Layer_init ?l) _] =>
         destruct (Layer_init l) as [[]|?]
     end;
     cbn [rbind is_ok] in *; [|discriminate]).
  reflexivity.
Qed.

(** A width that is not positive is refused by the constructor: the
    depthwise convolution of [decoder0], the first layer that is built,
    would have [groups <= 0]. *)
Lemma UNETR_init_input_dim (transformer_width output_dim input_dim
    init_filters : Z) :
  input_dim <= 0 ->
  UNETR_init transformer_width output_dim input_dim init_filters
  = Raise ValueError.
Proof.
  intros Hid. unfold UNETR_init. cbv zeta.
  cbn [UNETR_modules decoder0].
  replace (Layer_init
             (Sequential
                [Conv2DBlock input_dim init_filters 3;
                 Conv2DBlock init_filters init_filters 3]))
    with (@Raise unit ValueError); [reflexivity|].
  cbn [Layer_init Conv2DBlock SingleConv2DBlock]. unfold conv_init at 1.
  destruct (Z.leb_spec input_dim 0); [reflexivity | lia].
Qed.

(** ** The nine sub-networks of UNETR *)

Lemma torch_cat_ok (a b : Tensor) (s : unit) :
  same_size a b = true ->
  torch_cat a b s
  = (Ok (mkTensor (batch a) (chan a ++ chan b) (height a) (width a)),
     s, [[a; b]]).
Proof. intros H. unfold torch_cat, bind, tell, ret. now rewrite H. Qed.

Lemma torch_cat_mismatch (a b : Tensor) (s : unit) :
  same_size a b = false ->
  torch_cat a b s = (Raise RuntimeError, s, [[a; b]]).
Proof. intros H. unfold torch_cat, bind, tell, raise. now rewrite H. Qed.

Lemma same_size_mk (n h w : Z) (a b : list Deps) :
  same_size (mkTensor n a h w) (mkTensor n b h w) = true.
Proof. unfold same_size. cbn. now rewrite !Z.eqb_refl. Qed.

Lemma length_cat_Z (a b : Deps) (c : Z) :
  0 <= c ->
  Z.of_nat (length (repeat a (Z.to_nat c) ++ repeat b (Z.to_nat c)))
  = 2 * c.
Proof. intros Hc. rewrite length_app, !repeat_length. lia. Qed.

Section Subnetworks.

Variable training : bool.
Variables transformer_width output_dim input_dim init_filters : Z.
Hypothesis Htw : 0 < transformer_width.
Hypothesis Hod : 0 < output_dim.
Hypothesis Hid : 0 < input_dim.
Hypothesis Hf : 0 < init_filters.

Local Abbreviation self :=
  (UNETR_modules transformer_width output_dim input_dim init_filters).

Variables n h w : Z.
Hypothesis Hn : 1 <= n.
Hypothesis Hh : 1 <= h.
Hypothesis Hw : 1 <= w.

Variable cs : list Deps.

(** Rewrites the first block of a [Sequential] with its lemma. *)
Local Ltac block lem :=
  rewrite forward_Sequential_cons, lem;
  [ cbn [rbind]
  | first [ lia | assumption | apply length_repeat_Z; lia
          | apply batch_norm_guard; lia ] .. ];
  rewrite ?union_all_feature by lia.

Lemma forward_decoder12_upsampler :
  Z.of_nat (length cs) = transformer_width ->
  forward training (decoder12_upsampler self) (mkTensor n cs h w)
  = Ok (mkTensor n (repeat (union_all cs) (Z.to_nat (8 * init_filters)))
          (2 * h) (2 * w)).
Proof.
  intros Hcs. cbn [UNETR_modules decoder12_upsampler].
  apply forward_SingleDWConv2DBlock; first [assumption | lia].
Qed.

Lemma forward_decoder9 :
  Z.of_nat (length cs) = transformer_width ->
  forward training (decoder9 self) (mkTensor n cs h w)
  = Ok (mkTensor n (repeat (union_all cs) (Z.to_nat (8 * init_filters)))
          (2 * h) (2 * w)).
Proof.
  intros Hcs. cbn [UNETR_modules decoder9].
  apply forward_Deconv2DBlock; first [assumption | lia].
Qed.

Lemma forward_decoder6 :
  Z.of_nat (length cs) = transformer_width ->
  forward training (decoder6 self) (mkTensor n cs h w)
  = Ok (mkTensor n (repeat (union_all cs) (Z.to_nat (4 * init_filters)))
          (2 * (2 * h)) (2 * (2 * w))).
Proof.
  intros Hcs. cbn [UNETR_modules decoder6].
  block forward_Deconv2DBlock.
  block forward_Deconv2DBlock.
  reflexivity.
Qed.

Lemma forward_decoder3 :
  Z.of_nat (length cs) = transformer_width ->
  forward training (decoder3 self) (mkTensor n cs h w)
  = Ok (mkTensor n (repeat (union_all cs) (Z.to_nat (2 * init_filters)))
          (2 * (2 * (2 * h))) (2 * (2 * (2 * w)))).
Proof.
  intros Hcs. cbn [UNETR_modules decoder3].
  block forward_Deconv2DBlock.
  block forward_Deconv2DBlock.
  block forward_Deconv2DBlock.
  reflexivity.
Qed.

Lemma forward_decoder9_upsampler :
  Z.of_nat (length cs) = 16 * init_filters -> 2 <= h ->
  forward training (decoder9_upsampler self) (mkTensor n cs h w)
  = Ok (mkTensor n (repeat (union_all cs) (Z.to_nat (4 * init_filters)))
          (2 * h) (2 * w)).
Proof.
  intros Hcs Hh2. cbn [UNETR_modules decoder9_upsampler].
  block forward_Conv2DBlock.
  block forward_Conv2DBlock.
  block forward_Conv2DBlock.
  block forward_SingleDWConv2DBlock.
  reflexivity.
Qed.

Lemma forward_decoder6_upsampler :
  Z.of_nat (length cs) = 8 * init_filters -> 2 <= h ->
  forward training (decoder6_upsampler self) (mkTensor n cs h w)
  = Ok (mkTensor n (repeat (union_all cs) (Z.to_nat (2 * init_filters)))
          (2 * h) (2 * w)).
Proof.
  intros Hcs Hh2. cbn [UNETR_modules decoder6_upsampler].
  block forward_Conv2DBlock.
  block forward_Conv2DBlock.
  block forward_SingleDWConv2DBlock.
  reflexivity.
Qed.

Lemma forward_decoder3_upsampler :
  Z.of_nat (length cs) = 4 * init_filters -> 2 <= h ->
  forward training (decoder3_upsampler self) (mkTensor n cs h w)
  = Ok (mkTensor n (repeat (union_all cs) (Z.to_nat init_filters))
          (2 * h) (2 * w)).
Proof.
  intros Hcs Hh2. cbn [UNETR_modules decoder3_upsampler].
  block forward_Conv2DBlock.
  block forward_Conv2DBlock.
  block forward_SingleDWConv2DBlock.
  reflexivity.
Qed.

Lemma forward_decoder0 :
  Z.of_nat (length cs) = input_dim ->
  training && (n * h * w =? 1) = false ->
  forward training (decoder0 self) (mkTensor n cs h w)
  = Ok (mkTensor n (repeat (union_all cs) (Z.to_nat init_filters)) h w).
Proof.
  intros Hcs Hbn. cbn [UNETR_modules decoder0].
  block forward_Conv2DBlock.
  block forward_Conv2DBlock.
  reflexivity.
Qed.

Lemma forward_decoder0_header :
  Z.of_nat (length cs) = 2 * init_filters -> 2 <= h ->
  forward training (decoder0_header self) (mkTensor n cs h w)
  = Ok (mkTensor n (repeat (union_all cs) (Z.to_nat output_dim)) h w).
Proof.
  intros Hcs Hh2. cbn [UNETR_modules decoder0_header].
  block forward_Conv2DBlock.
  block forward_Conv2DBlock.
  block forward_pointwise.
  reflexivity.
Qed.

Lemma forward_decoder0_single_value :
  Z.of_nat (length cs) = input_dim ->
  training && (n * h * w =? 1) = true ->
  forward training (decoder0 self) (mkTensor n cs h w) = Raise ValueError.
Proof.
  intros Hcs Hbn. cbn [UNETR_modules decoder0].
  rewrite forward_Sequential_cons, forward_Conv2DBlock_single_value
    by assumption.
  reflexivity.
Qed.

End Subnetworks.

(** ** The forward pass *)

Section Forward.

Variable training : bool.
Variables transformer_width output_dim input_dim init_filters : Z.
Hypothesis Htw : 0 < transformer_width.
Hypothesis Hod : 0 < output_dim.
Hypothesis Hid : 0 < input_dim.
Hypothesis Hf : 0 < init_filters.

Local Abbreviation self :=
  (UNETR_modules transformer_width output_dim input_dim init_filters).

(** The deep feature maps share batch size [n] and spatial size [h x w]. *)
Variables n h w : Z.
Hypothesis Hn : 1 <= n.
Hypothesis Hh : 1 <= h.
Hypothesis Hw : 1 <= w.

Variables c3 c6 c9 c12 : list Deps.
Hypothesis Hc3 : Z.of_nat (length c3) = transformer_width.
Hypothesis Hc6 : Z.of_nat (length c6) = transformer_width.
Hypothesis Hc9 : Z.of_nat (length c9) = transformer_width.
Hypothesis Hc12 : Z.of_nat (length c12) = transformer_width.

Local Abbreviation d3 := (union_all c3).
Local Abbreviation d6 := (union_all c6).
Local Abbreviation d9 := (union_all c9).
Local Abbreviation d12 := (union_all c12).

(** The operands of the first three concatenations, and the accumulated
    result that meets the [z0] branch. *)
Local Abbreviation merge9 :=
  ([ mkTensor n (repeat d9 (Z.to_nat (8 * init_filters))) (2 * h) (2 * w);
    mkTensor n (repeat d12 (Z.to_nat (8 * init_filters))) (2 * h) (2 * w) ]).

Local Abbreviation merge6 :=
  ([ mkTensor n (repeat d6 (Z.to_nat (4 * init_filters))) (4 * h) (4 * w);
    mkTensor n (repeat (N.lor d9 d12) (Z.to_nat (4 * init_filters)))
      (4 * h) (4 * w) ]).

Local Abbreviation merge3 :=
  ([ mkTensor n (repeat d3 (Z.to_nat (2 * init_filters))) (8 * h) (8 * w);
    mkTensor n (repeat (N.lor d6 (N.lor d9 d12))
                  (Z.to_nat (2 * init_filters))) (8 * h) (8 * w) ]).

Local Abbreviation accumulated :=
  (mkTensor n (repeat (N.lor d3 (N.lor d6 (N.lor d9 d12)))
                (Z.to_nat init_filters)) (16 * h) (16 * w)).

(** Rewrites the next sub-network call with its lemma. *)
Local Ltac sub lem :=
  rewrite lem;
  [ cbv beta iota
  | first [ assumption | lia | rewrite length_cat_Z; lia ] .. ].

Lemma UNETR_forward_deep (z0 : Tensor) :
  UNETR_forward training self
    [z0; mkTensor n c3 h w; mkTensor n c6 h w; mkTensor n c9 h w;
     mkTensor n c12 h w] tt
  = match forward training (decoder0 self) z0 with
    | Ok z0' =>
        match torch_cat z0' accumulated tt with
        | (Ok c0, _, calls) =>
            (forward training (decoder0_header self) c0, tt,
             [merge9; merge6; merge3] ++ calls)
        | (Raise e, _, calls) =>
            (Raise e, tt, [merge9; merge6; merge3] ++ calls)
        end
    | Raise e => (Raise e, tt, [merge9; merge6; merge3])
    end.
Proof.
  unfold UNETR_forward, bind, lift, ret.
  sub forward_decoder12_upsampler.
  sub forward_decoder9.
  rewrite torch_cat_ok by apply same_size_mk.
  cbn [batch chan height width].
  sub forward_decoder9_upsampler.
  sub forward_decoder6.
  rewrite torch_cat_ok by apply same_size_mk.
  cbn [batch chan height width].
  sub forward_decoder6_upsampler.
  sub forward_decoder3.
  rewrite torch_cat_ok by apply same_size_mk.
  cbn [batch chan height width].
  sub forward_decoder3_upsampler.
  rewrite !union_all_app, !union_all_feature by lia.
  replace (2 * (2 * (2 * (2 * h)))) with (16 * h) by ring.
  replace (2 * (2 * (2 * (2 * w)))) with (16 * w) by ring.
  replace (2 * (2 * (2 * h))) with (8 * h) by ring.
  replace (2 * (2 * (2 * w))) with (8 * w) by ring.
  replace (2 * (2 * h)) with (4 * h) by ring.
  replace (2 * (2 * w)) with (4 * w) by ring.
  destruct (forward training _ z0) as [z0'|e]; [|reflexivity].
  destruct (torch_cat z0' _ tt) as [[[c0|e] []] calls]; [|reflexivity].
  destruct (forward training _ c0); cbn [app];
    now rewrite ?app_nil_r.
Qed.

(** The shallow branch. *)
Variable c0 : list Deps.
Hypothesis Hc0 : Z.of_nat (length c0) = input_dim.

Local Abbreviation d0 := (union_all c0).

Local Abbreviation merge0 :=
  ([ mkTensor n (repeat d0 (Z.to_nat init_filters)) (16 * h) (16 * w);
    accumulated ]).

Local Abbreviation logits :=
  (mkTensor n
    (repeat (N.lor d0 (N.lor d3 (N.lor d6 (N.lor d9 d12))))
       (Z.to_nat output_dim)) (16 * h) (16 * w)).

Lemma UNETR_forward_ok :
  UNETR_forward training self
    [mkTensor n c0 (16 * h) (16 * w); mkTensor n c3 h w;
     mkTensor n c6 h w; mkTensor n c9 h w; mkTensor n c12 h w] tt
  = (Ok logits, tt, [merge9; merge6; merge3; merge0]).
Proof.
  rewrite UNETR_forward_deep.
  rewrite forward_decoder0;
    [| first [assumption | lia | apply batch_norm_guard; lia] ..].
  rewrite torch_cat_ok by apply same_size_mk.
  cbn [batch chan height width].
  rewrite forward_decoder0_header;
    [| first [assumption | lia | rewrite length_cat_Z; lia] ..].
  rewrite !union_all_app, !union_all_feature by lia.
  reflexivity.
Qed.

(** A [z0] of any other size stops the pass before the header. *)
Lemma UNETR_forward_mismatch (H0 W0 : Z) :
  1 <= H0 -> 1 <= W0 -> ~ (H0 = 16 * h /\ W0 = 16 * w) ->
  exists e calls,
    UNETR_forward training self
      [mkTensor n c0 H0 W0; mkTensor n c3 h w; mkTensor n c6 h w;
       mkTensor n c9 h w; mkTensor n c12 h w] tt
    = (Raise e, tt, calls)
    /\ (2 <= H0 -> e = RuntimeError).
Proof.
  intros HH0 HW0 Hne. rewrite UNETR_forward_deep.
  destruct (training && (n * H0 * W0 =? 1)) eqn:Hbn.
  - rewrite forward_decoder0_single_value by assumption.
    eexists _, _. split; [reflexivity|].
    intros H2. apply andb_prop in Hbn. destruct Hbn as [_ Hbn].
    apply Z.eqb_eq in Hbn. nia.
  - rewrite forward_decoder0 by assumption.
    rewrite torch_cat_mismatch.
    + eexists _, _. split; [reflexivity | reflexivity].
    + unfold same_size. cbn [batch height width].
      rewrite Z.eqb_refl. cbn [andb].
      destruct (Z.eqb_spec H0 (16 * h)); [|reflexivity].
      destruct (Z.eqb_spec W0 (16 * w)); [|reflexivity].
      exfalso. apply Hne. now split.
Qed.

End Forward.

(** ** Results on whole pyramids *)

Lemma shape_inv (z : Tensor) (n c h w : Z) :
  shape z = (n, c, h, w) ->
  z = mkTensor n (chan z) h w /\ Z.of_nat (length (chan z)) = c.
Proof.
  destruct z as [b cs hh ww]. unfold shape, channels. cbn.
  intros H. injection H as -> <- -> ->. now split.
Qed.

Lemma shape_uniform (d : Deps) (n c h w : Z) :
  0 <= c -> shape (uniform d n c h w) = (n, c, h, w).
Proof.
  intros Hc. unfold shape, uniform, channels. cbn.
  now rewrite length_repeat_Z by assumption.
Qed.

Lemma map_shape_operands (a b : Deps) (n c h w : Z) :
  0 <= c -> map shape (operands a b n c h w) = [(n, c, h, w); (n, c, h, w)].
Proof.
  intros Hc. unfold operands. cbn [map].
  now rewrite !shape_uniform by assumption.
Qed.

Lemma total_channels_operands (a b : Deps) (n c h w : Z) :
  0 <= c -> total_channels (operands a b n c h w) = 2 * c.
Proof.
  intros Hc. unfold total_channels, operands, uniform, channels.
  cbn [map fold_right chan]. rewrite !repeat_length. lia.
Qed.

(** The whole call on a pyramid whose [z0] is sixteen times as large as the
    deep feature maps: the logits and the four concatenations. *)
Lemma UNETR_call_ok (training : bool)
    (transformer_width output_dim input_dim init_filters n h w : Z)
    (c0 c3 c6 c9 c12 : list Deps) :
  0 < transformer_width -> 0 < output_dim -> 0 < input_dim ->
  0 < init_filters -> 1 <= n -> 1 <= h -> 1 <= w ->
  Z.of_nat (length c0) = input_dim ->
  Z.of_nat (length c3) = transformer_width ->
  Z.of_nat (length c6) = transformer_width ->
  Z.of_nat (length c9) = transformer_width ->
  Z.of_nat (length c12) = transformer_width ->
  let d0 := union_all c0 in
  let d3 := union_all c3 in
  let d6 := union_all c6 in
  let d9 := union_all c9 in
  let d12 := union_all c12 in
  UNETR_call training transformer_width output_dim input_dim init_filters
    [mkTensor n c0 (16 * h) (16 * w); mkTensor n c3 h w; mkTensor n c6 h w;
     mkTensor n c9 h w; mkTensor n c12 h w]
  = (Ok (uniform (N.lor d0 (N.lor d3 (N.lor d6 (N.lor d9 d12)))) n
           output_dim (16 * h) (16 * w)),
     [ operands d9 d12 n (8 * init_filters) (2 * h) (2 * w);
       operands d6 (N.lor d9 d12) n (4 * init_filters) (4 * h) (4 * w);
       operands d3 (N.lor d6 (N.lor d9 d12)) n (2 * init_filters)
         (8 * h) (8 * w);
       operands d0 (N.lor d3 (N.lor d6 (N.lor d9 d12))) n init_filters
         (16 * h) (16 * w) ]).
Proof.
  intros Htw Hod Hid Hf Hn Hh Hw Hc0 Hc3 Hc6 Hc9 Hc12 d0 d3 d6 d9 d12.
  unfold UNETR_call. rewrite UNETR_init_ok by assumption.
  rewrite UNETR_forward_ok by assumption. reflexivity.
Qed.

Lemma UNETR_call_mismatch (training : bool)
    (transformer_width output_dim input_dim init_filters n h w H0 W0 : Z)
    (c0 c3 c6 c9 c12 : list Deps) :
  0 < transformer_width -> 0 < output_dim -> 0 < input_dim ->
  0 < init_filters -> 1 <= n -> 1 <= h -> 1 <= w ->
  Z.of_nat (length c0) = input_dim ->
  Z.of_nat (length c3) = transformer_width ->
  Z.of_nat (length c6) = transformer_width ->
  Z.of_nat (length c9) = transformer_width ->
  Z.of_nat (length c12) = transformer_width ->
  1 <= H0 -> 1 <= W0 -> ~ (H0 = 16 * h /\ W0 = 16 * w) ->
  exists e calls,
    UNETR_call training transformer_width output_dim input_dim init_filters
      [mkTensor n c0 H0 W0; mkTensor n c3 h w; mkTensor n c6 h w;
       mkTensor n c9 h w; mkTensor n c12 h w]
    = (Raise e, calls)
    /\ (2 <= H0 -> e = RuntimeError).
Proof.
  intros Htw Hod Hid Hf Hn Hh Hw Hc0 Hc3 Hc6 Hc9 Hc12 HH0 HW0 Hne.
  unfold UNETR_call. rewrite UNETR_init_ok by assumption.
  assert (Hm : exists e calls,
            UNETR_forward training
              (UNETR_modules transformer_width output_dim input_dim
                 init_filters)
              [mkTensor n c0 H0 W0; mkTensor n c3 h w; mkTensor n c6 h w;
               mkTensor n c9 h w; mkTensor n c12 h w] tt
            = (Raise e, tt, calls)
            /\ (2 <= H0 -> e = RuntimeError))
    by (apply UNETR_forward_mismatch; assumption).
  destruct Hm as (e & calls & Hrun & He).
  exists e, calls. now rewrite Hrun.
Qed.

(** ** The claims on the decoder *)

(** C2.  For every valid (positive) [transformer_width], [init_filters],
    [input_dim], [output_dim] and every pyramid whose [z3], [z6], [z9],
    [z12] have shape [(n, transformer_width, h, w)] and whose [z0] has shape
    [(n, input_dim, 16 h, 16 w)], constructing the decoder and calling it
    succeeds, the output has shape [(n, output_dim, 16 h, 16 w)], and the
    four concatenations have operands of equal size: twice, four times,
    eight times and sixteen times the size of the deep feature maps, so the
    [z3] path has doubled four times when it meets [z0]. *)
Theorem UNETR_forward_16S (training : bool)
    (transformer_width output_dim input_dim init_filters n h w : Z)
    (z0 z3 z6 z9 z12 : Tensor) :
  0 < transformer_width -> 0 < output_dim -> 0 < input_dim ->
  0 < init_filters -> 1 <= n -> 1 <= h -> 1 <= w ->
  shape z0 = (n, input_dim, 16 * h, 16 * w) ->
  shape z3 = (n, transformer_width, h, w) ->
  shape z6 = (n, transformer_width, h, w) ->
  shape z9 = (n, transformer_width, h, w) ->
  shape z12 = (n, transformer_width, h, w) ->
  exists output calls,
    UNETR_call training transformer_width output_dim input_dim init_filters
      [z0; z3; z6; z9; z12] = (Ok output, calls)
    /\ shape output = (n, output_dim, 16 * h, 16 * w)
    /\ map (map shape) calls =
       [ [(n, 8 * init_filters, 2 * h, 2 * w);
          (n, 8 * init_filters, 2 * h, 2 * w)];
         [(n, 4 * init_filters, 4 * h, 4 * w);
          (n, 4 * init_filters, 4 * h, 4 * w)];
         [(n, 2 * init_filters, 8 * h, 8 * w);
          (n, 2 * init_filters, 8 * h, 8 * w)];
         [(n, init_filters, 16 * h, 16 * w);
          (n, init_filters, 16 * h, 16 * w)] ].
Proof.
  intros Htw Hod Hid Hf Hn Hh Hw S0 S3 S6 S9 S12.
  apply shape_inv in S0, S3, S6, S9, S12.
  destruct S0 as [-> L0], S3 as [-> L3], S6 as [-> L6], S9 as [-> L9],
    S12 as [-> L12].
  eexists _, _. split; [now apply UNETR_call_ok|]. split.
  - apply shape_uniform. lia.
  - cbn [map]. now rewrite !map_shape_operands by lia.
Qed.

Lemma UNETR_forward_16S_witness :
  exists output calls,
    UNETR_call true 64 2 3 8
      [feature 0 1 3 512 512; feature 3 1 64 32 32; feature 6 1 64 32 32;
       feature 9 1 64 32 32; feature 12 1 64 32 32] = (Ok output, calls)
    /\ shape output = (1, 2, 16 * 32, 16 * 32)
    /\ map (map shape) calls =
       [ [(1, 8 * 8, 2 * 32, 2 * 32); (1, 8 * 8, 2 * 32, 2 * 32)];
         [(1, 4 * 8, 4 * 32, 4 * 32); (1, 4 * 8, 4 * 32, 4 * 32)];
         [(1, 2 * 8, 8 * 32, 8 * 32); (1, 2 * 8, 8 * 32, 8 * 32)];
         [(1, 8, 16 * 32, 16 * 32); (1, 8, 16 * 32, 16 * 32)] ].
Proof.
  apply (UNETR_forward_16S true (transformer_width := 64) (output_dim := 2)
           (input_dim := 3) (init_filters := 8) (n := 1) (h := 32)
           (w := 32));
    first [lia | reflexivity].
Defined.

(** C8.  On a pyramid whose feature map [z_k] is tagged with level [k], the
    forward pass makes exactly four concatenations.  In each the first
    operand is the output of the branch of the shallower level alone and the
    second is the result accumulated from all deeper levels; the operands'
    channel counts are [8f + 8f], [4f + 4f], [2f + 2f] and [f + f], so the
    concatenated widths are [16f], [8f], [4f] and [2f]; and [torch.cat]
    lays the channels of its first operand before those of the second. *)
Theorem UNETR_forward_concatenations (training : bool)
    (transformer_width output_dim input_dim init_filters n h w : Z) :
  0 < transformer_width -> 0 < output_dim -> 0 < input_dim ->
  0 < init_filters -> 1 <= n -> 1 <= h -> 1 <= w ->
  let calls :=
    snd (UNETR_call training transformer_width output_dim input_dim
           init_filters
           [feature 0 n input_dim (16 * h) (16 * w);
            feature 3 n transformer_width h w;
            feature 6 n transformer_width h w;
            feature 9 n transformer_width h w;
            feature 12 n transformer_width h w]) in
  calls =
    [ operands (levels [9]) (levels [12]) n (8 * init_filters)
        (2 * h) (2 * w);
      operands (levels [6]) (levels [9; 12]) n (4 * init_filters)
        (4 * h) (4 * w);
      operands (levels [3]) (levels [6; 9; 12]) n (2 * init_filters)
        (8 * h) (8 * w);
      operands (levels [0]) (levels [3; 6; 9; 12]) n init_filters
        (16 * h) (16 * w) ]%N
  /\ map total_channels calls =
     [16 * init_filters; 8 * init_filters; 4 * init_filters;
      2 * init_filters]
  /\ (forall a b t calls',
        torch_cat a b tt = (Ok t, tt, calls') ->
        chan t = chan a ++ chan b /\ calls' = [[a; b]]).
Proof.
  intros Htw Hod Hid Hf Hn Hh Hw calls.
  assert (Hcalls : calls =
    [ operands (levels [9]) (levels [12]) n (8 * init_filters)
        (2 * h) (2 * w);
      operands (levels [6]) (levels [9; 12]) n (4 * init_filters)
        (4 * h) (4 * w);
      operands (levels [3]) (levels [6; 9; 12]) n (2 * init_filters)
        (8 * h) (8 * w);
      operands (levels [0]) (levels [3; 6; 9; 12]) n init_filters
        (16 * h) (16 * w) ]%N).
  { unfold calls, feature, uniform.
    rewrite UNETR_call_ok
      by first [lia | assumption | apply length_repeat_Z; lia].
    cbn [snd]. rewrite !union_all_feature by lia. reflexivity. }
  split; [exact Hcalls|]. split.
  - rewrite Hcalls. cbn [map].
    rewrite !total_channels_operands by lia.
    replace (2 * (8 * init_filters)) with (16 * init_filters) by ring.
    replace (2 * (4 * init_filters)) with (8 * init_filters) by ring.
    replace (2 * (2 * init_filters)) with (4 * init_filters) by ring.
    reflexivity.
  - intros a b t calls' Hcat. unfold torch_cat, bind, tell, ret, raise
      in Hcat.
    destruct (same_size a b); inversion Hcat; subst. now split.
Qed.

Lemma UNETR_forward_concatenations_witness :
  let calls :=
    snd (UNETR_call true 64 2 3 8
           [feature 0 1 3 (16 * 32) (16 * 32); feature 3 1 64 32 32;
            feature 6 1 64 32 32; feature 9 1 64 32 32;
            feature 12 1 64 32 32]) in
  calls =
    [ operands (levels [9]) (levels [12]) 1 (8 * 8) (2 * 32) (2 * 32);
      operands (levels [6]) (levels [9; 12]) 1 (4 * 8) (4 * 32) (4 * 32);
      operands (levels [3]) (levels [6; 9; 12]) 1 (2 * 8) (8 * 32) (8 * 32);
      operands (levels [0]) (levels [3; 6; 9; 12]) 1 8 (16 * 32) (16 * 32)
    ]%N
  /\ map total_channels calls = [16 * 8; 8 * 8; 4 * 8; 2 * 8]
  /\ (forall a b t calls',
        torch_cat a b tt = (Ok t, tt, calls') ->
        chan t = chan a ++ chan b /\ calls' = [[a; b]]).
Proof.
  apply (UNETR_forward_concatenations true (transformer_width := 64)
           (output_dim := 2) (input_dim := 3) (init_filters := 8) (n := 1)
           (h := 32) (w := 32)); lia.
Defined.

(** C1, as the spec states it, fails on the documented example: with [z0]
    of size 256 x 256 and deep feature maps of size 32 x 32 the [z3] path
    arrives at 512 x 512 and the last concatenation raises, in training and
    in evaluation mode. *)
Lemma UNETR_forward_8S_counterexample :
  fst (UNETR_call true 64 2 3 8
         [feature 0 1 3 256 256; feature 3 1 64 32 32; feature 6 1 64 32 32;
          feature 9 1 64 32 32; feature 12 1 64 32 32])
  = Raise RuntimeError
  /\ fst (UNETR_call false 64 2 3 8
            [feature 0 1 3 256 256; feature 3 1 64 32 32;
             feature 6 1 64 32 32; feature 9 1 64 32 32;
             feature 12 1 64 32 32])
     = Raise RuntimeError.
Proof. split; vm_compute; reflexivity. Qed.

(** C1, amended.  For every valid choice of the four widths and every
    pyramid whose [z3], [z6], [z9], [z12] share the spatial size [h x w],
    the forward pass succeeds exactly when [z0] has spatial size
    [16 h x 16 w]; when it succeeds the output has the spatial size of [z0]
    and [output_dim] channels; with [z0] of size [8 h x 8 w] the pass
    raises [RuntimeError]. *)
Theorem UNETR_forward_needs_16S (training : bool)
    (transformer_width output_dim input_dim init_filters n h w H0 W0 : Z)
    (z0 z3 z6 z9 z12 : Tensor) :
  0 < transformer_width -> 0 < output_dim -> 0 < input_dim ->
  0 < init_filters -> 1 <= n -> 1 <= h -> 1 <= w -> 1 <= H0 -> 1 <= W0 ->
  shape z0 = (n, input_dim, H0, W0) ->
  shape z3 = (n, transformer_width, h, w) ->
  shape z6 = (n, transformer_width, h, w) ->
  shape z9 = (n, transformer_width, h, w) ->
  shape z12 = (n, transformer_width, h, w) ->
  let r :=
    fst (UNETR_call training transformer_width output_dim input_dim
           init_filters [z0; z3; z6; z9; z12]) in
  (is_ok r = true <-> H0 = 16 * h /\ W0 = 16 * w)
  /\ (forall output, r = Ok output ->
        shape output = (n, output_dim, H0, W0))
  /\ (H0 = 8 * h -> W0 = 8 * w -> r = Raise RuntimeError).
Proof.
  intros Htw Hod Hid Hf Hn Hh Hw HH0 HW0 S0 S3 S6 S9 S12.
  apply shape_inv in S0, S3, S6, S9, S12.
  destruct S0 as [E0 L0], S3 as [E3 L3], S6 as [E6 L6], S9 as [E9 L9],
    S12 as [E12 L12].
  rewrite E0, E3, E6, E9, E12.
  generalize dependent (chan z0). generalize dependent (chan z3).
  generalize dependent (chan z6). generalize dependent (chan z9).
  generalize dependent (chan z12).
  intros c12 _ L12 c9 _ L9 c6 _ L6 c3 _ L3 c0 _ L0 r.
  assert (Hdec : (H0 = 16 * h /\ W0 = 16 * w)
                 \/ ~ (H0 = 16 * h /\ W0 = 16 * w)) by lia.
  destruct Hdec as [[EH EW]|Hne].
  - (* the sizes agree *)
    assert (Hr : r = Ok (uniform
                (N.lor (union_all c0)
                   (N.lor (union_all c3)
                      (N.lor (union_all c6)
                         (N.lor (union_all c9) (union_all c12)))))
                n output_dim (16 * h) (16 * w))).
    { unfold r. rewrite EH, EW.
      now rewrite UNETR_call_ok by assumption. }
    rewrite Hr. repeat split.
    + exact EH.
    + exact EW.
    + intros output [= <-]. rewrite EH, EW. apply shape_uniform. lia.
    + intros. lia.
  - destruct (@UNETR_call_mismatch training transformer_width output_dim
                input_dim init_filters n h w H0 W0 c0 c3 c6 c9 c12 Htw Hod
                Hid Hf Hn Hh Hw L0 L3 L6 L9 L12 HH0 HW0 Hne)
      as (e & log & Hcall & He).
    assert (Hr : r = Raise e) by (unfold r; now rewrite Hcall).
    rewrite Hr. repeat split; try discriminate; try tauto.
    intros EH8 EW8. f_equal. apply He. lia.
Qed.

Lemma UNETR_forward_needs_16S_witness :
  let r :=
    fst (UNETR_call true 64 2 3 8
           [feature 0 1 3 512 512; feature 3 1 64 32 32;
            feature 6 1 64 32 32; feature 9 1 64 32 32;
            feature 12 1 64 32 32]) in
  (is_ok r = true <-> 512 = 16 * 32 /\ 512 = 16 * 32)
  /\ (forall output, r = Ok output -> shape output = (1, 2, 512, 512))
  /\ (512 = 8 * 32 -> 512 = 8 * 32 -> r = Raise RuntimeError).
Proof.
  apply (UNETR_forward_needs_16S true (transformer_width := 64)
           (output_dim := 2) (input_dim := 3) (init_filters := 8) (n := 1)
           (h := 32) (w := 32) (H0 := 512) (W0 := 512));
    first [lia | reflexivity].
Defined.

(** ** SingleConv2DBlock on its own *)

Lemma length_flat_map_repeat (f : nat -> Deps) (m : nat) (gs : list nat) :
  length (flat_map (fun g => repeat (f g) m) gs) = (length gs * m)%nat.
Proof.
  induction gs as [|g gs IH]; [reflexivity|].
  cbn [flat_map length]. rewrite length_app, repeat_length, IH. lia.
Qed.

(** A grouped convolution that can be built has [out_channels] output
    channels. *)
Lemma length_grouped_channels (i o g : Z) (cs : list Deps) :
  conv_args_ok i o g = true ->
  Z.of_nat (length (grouped_channels i o g cs)) = o.
Proof.
  unfold conv_args_ok. intros H.
  repeat (apply andb_prop in H; destruct H as [H ?]).
  apply Z.ltb_lt in H. rewrite Z.eqb_eq in *. rewrite Z.leb_le in *.
  unfold grouped_channels.
  rewrite length_flat_map_repeat, length_seq.
  assert (Ho : o = g * (o / g)).
  { rewrite (Z.div_mod o g) at 1 by lia. lia. }
  assert (0 <= o / g) by (apply Z.div_pos; lia).
  rewrite Nat2Z.inj_mul, !Z2Nat.id by lia. lia.
Qed.




(** ** Inputs the blocks refuse *)

Lemma forward_SingleDeconv2DBlock_channels (training : bool) (i o g : Z)
    (x : Tensor) :
  channels x <> i ->
  forward training (SingleDeconv2DBlock i o g) x = Raise RuntimeError.
Proof.
  intros Hc. unfold SingleDeconv2DBlock. cbn [forward].
  destruct ((i <=? 0) || (o <=? 0)); [reflexivity|].
  destruct (Z.eqb_spec (channels x) i); [contradiction | reflexivity].
Qed.

Lemma forward_SingleConv2DBlock_channels (training : bool) (i o k g : Z)
    (x : Tensor) :
  channels x <> i ->
  forward training (SingleConv2DBlock i o k g) x = Raise RuntimeError.
Proof.
  intros Hc. unfold SingleConv2DBlock. cbn [forward].
  destruct ((i <=? 0) || (o <=? 0)); [reflexivity|].
  destruct (Z.eqb_spec (channels x) i); [contradiction | reflexivity].
Qed.

Lemma forward_Conv2DBlock_channels (training : bool) (i o k : Z)
    (x : Tensor) :
  channels x <> i ->
  forward training (Conv2DBlock i o k) x = Raise RuntimeError.
Proof.
  intros Hc. unfold Conv2DBlock.
  now rewrite forward_Sequential_cons, forward_SingleConv2DBlock_channels.
Qed.

Lemma forward_Deconv2DBlock_channels (training : bool) (i o k : Z)
    (x : Tensor) :
  channels x <> i ->
  forward training (Deconv2DBlock i o k) x = Raise RuntimeError.
Proof.
  intros Hc. unfold Deconv2DBlock.
  now rewrite forward_Sequential_cons, forward_SingleDeconv2DBlock_channels.
Qed.

Lemma forward_SingleDWConv2DBlock_channels (training : bool) (i o : Z)
    (x : Tensor) :
  channels x <> i ->
  forward training (SingleDWConv2DBlock i o) x = Raise RuntimeError.
Proof.
  intros Hc. unfold SingleDWConv2DBlock.
  now rewrite forward_Sequential_cons, forward_SingleDeconv2DBlock_channels.
Qed.

Lemma tensor_eta (x : Tensor) :
  x = mkTensor (batch x) (chan x) (height x) (width x).
Proof. now destruct x. Qed.

(** X1.  [Conv2DBlock] with its kernel of 3, on an input of at least one
    row and one column: an input whose channel count is not [in_planes] is
    refused with [RuntimeError]; in training mode an input with a single
    value per channel is refused with [ValueError] by batch normalisation;
    every other input comes out with the same batch and spatial size and
    with [out_planes] channels, each of which depends on every channel of
    the input. *)
Theorem Conv2DBlock_forward (training : bool) (in_planes out_planes : Z)
    (x : Tensor) :
  0 < in_planes -> 0 < out_planes -> 1 <= height x -> 1 <= width x ->
  let y := forward training (Conv2DBlock in_planes out_planes 3) x in
  (channels x <> in_planes -> y = Raise RuntimeError)
  /\ (channels x = in_planes -> training = true ->
      batch x * height x * width x = 1 -> y = Raise ValueError)
  /\ (channels x = in_planes ->
      training = false \/ batch x * height x * width x <> 1 ->
      y = Ok (uniform (union_all (chan x)) (batch x) out_planes (height x)
                (width x))).
Proof.
  intros Hi Ho Hh Hw y. unfold y. split; [|split].
  - apply forward_Conv2DBlock_channels.
  - intros Hc -> H1. rewrite (tensor_eta x) at 1.
    apply forward_Conv2DBlock_single_value; try assumption.
    cbn [andb]. now apply Z.eqb_eq.
  - intros Hc Hbn. rewrite (tensor_eta x) at 1.
    apply forward_Conv2DBlock; try assumption.
    destruct Hbn as [-> | Hne]; [reflexivity|].
    apply andb_false_iff. right. now apply Z.eqb_neq.
Qed.

(** X1 on a single value per channel, in both modes, on two values, and
    on a wrong channel count. *)
Lemma Conv2DBlock_forward_witness :
  forward true (Conv2DBlock 3 8 3) (feature 0 1 3 1 1) = Raise ValueError
  /\ forward false (Conv2DBlock 3 8 3) (feature 0 1 3 1 1)
     = Ok (uniform (union_all (chan (feature 0 1 3 1 1))) 1 8 1 1)
  /\ forward true (Conv2DBlock 3 8 3) (feature 0 2 3 1 1)
     = Ok (uniform (union_all (chan (feature 0 2 3 1 1))) 2 8 1 1)
  /\ forward true (Conv2DBlock 3 8 3) (feature 0 2 4 1 1)
     = Raise RuntimeError.
Proof.
  split; [|split; [|split]].
  - apply (@Conv2DBlock_forward true 3 8 (feature 0 1 3 1 1));
      first [reflexivity | cbn; lia].
  - apply (@Conv2DBlock_forward false 3 8 (feature 0 1 3 1 1));
      first [reflexivity | cbn; lia | now left].
  - apply (@Conv2DBlock_forward true 3 8 (feature 0 2 3 1 1));
      first [reflexivity | cbn; lia | right; cbn; lia].
  - apply (@Conv2DBlock_forward true 3 8 (feature 0 2 4 1 1));
      first [reflexivity | vm_compute; lia].
Defined.

(** X2.  The two upsampling blocks, [Deconv2DBlock] (with its kernel of 3)
    and [SingleDWConv2DBlock], on a batch of at least one image of at least
    one row and one column: an input whose channel count is not
    [in_planes] is refused with [RuntimeError]; every other input comes out
    with twice the height and twice the width, the same batch size and
    [out_planes] channels, each depending on every channel of the input,
    in training and in evaluation mode alike. *)
Theorem upsampling_blocks_forward (training : bool)
    (in_planes out_planes : Z) (x : Tensor) :
  0 < in_planes -> 0 < out_planes ->
  1 <= batch x -> 1 <= height x -> 1 <= width x ->
  (channels x <> in_planes ->
   forward training (Deconv2DBlock in_planes out_planes 3) x
   = Raise RuntimeError
   /\ forward training (SingleDWConv2DBlock in_planes out_planes) x
      = Raise RuntimeError)
  /\ (channels x = in_planes ->
      let y :=
        uniform (union_all (chan x)) (batch x) out_planes (2 * height x)
          (2 * width x) in
      forward training (Deconv2DBlock in_planes out_planes 3) x = Ok y
      /\ forward training (SingleDWConv2DBlock in_planes out_planes) x
         = Ok y).
Proof.
  intros Hi Ho Hn Hh Hw. split.
  - intros Hc. split.
    + now apply forward_Deconv2DBlock_channels.
    + now apply forward_SingleDWConv2DBlock_channels.
  - intros Hc y. unfold y. split.
    + rewrite (tensor_eta x) at 1. now apply forward_Deconv2DBlock.
    + rewrite (tensor_eta x) at 1. now apply forward_SingleDWConv2DBlock.
Qed.

(** X2 on a single pixel, in training mode. *)
Lemma upsampling_blocks_forward_witness :
  forward true (Deconv2DBlock 64 32 3) (feature 12 1 64 1 1)
  = Ok (uniform (union_all (chan (feature 12 1 64 1 1))) 1 32 (2 * 1)
          (2 * 1))
  /\ forward true (SingleDWConv2DBlock 64 32) (feature 12 1 64 1 1)
     = Ok (uniform (union_all (chan (feature 12 1 64 1 1))) 1 32 (2 * 1)
             (2 * 1)).
Proof.
  apply (@upsampling_blocks_forward true 64 32 (feature 12 1 64 1 1));
    first [reflexivity | cbn; lia].
Defined.

(** X3.  [SingleDeconv2DBlock], whatever its group count: a block that
    can be built, with positive [in_planes] and [out_planes], refuses an
    input whose channel count is not [in_planes] with [RuntimeError], and
    maps every other input of at least one row and one column to an output
    of exactly twice the height and twice the width, with the same batch
    size and [out_planes] channels. *)
Theorem SingleDeconv2DBlock_doubles (training : bool)
    (in_planes out_planes groups : Z) (x : Tensor) :
  constructible (SingleDeconv2DBlock in_planes out_planes groups) = true ->
  0 < in_planes -> 0 < out_planes ->
  1 <= height x -> 1 <= width x ->
  (channels x <> in_planes ->
   forward training (SingleDeconv2DBlock in_planes out_planes groups) x
   = Raise RuntimeError)
  /\ (channels x = in_planes ->
      exists y,
        forward training (SingleDeconv2DBlock in_planes out_planes groups) x
        = Ok y
        /\ shape y = (batch x, out_planes, 2 * height x, 2 * width x)).
Proof.
  intros Hcons Hi Ho _ _. cbn [constructible SingleDeconv2DBlock] in Hcons.
  apply andb_prop in Hcons. destruct Hcons as [Hargs _].
  split.
  - apply forward_SingleDeconv2DBlock_channels.
  - intros Hc. rewrite forward_SingleDeconv2DBlock by assumption.
    eexists. split; [reflexivity|].
    unfold shape, channels. cbn [batch chan height width].
    now rewrite length_grouped_channels by assumption.
Qed.

(** X3 on a block of 32 groups. *)
Lemma SingleDeconv2DBlock_doubles_witness :
  exists y,
    forward true (SingleDeconv2DBlock 64 32 32) (feature 12 1 64 32 32)
    = Ok y
    /\ shape y = (1, 32, 2 * 32, 2 * 32).
Proof.
  apply (@SingleDeconv2DBlock_doubles true 64 32 32 (feature 12 1 64 32 32));
    first [reflexivity | cbn; lia].
Defined.

(** ** Which configurations build *)

Lemma constructible_Conv2DBlock_inv (i o k : Z) :
  constructible (Conv2DBlock i o k) = true -> 0 < i.
Proof.
  cbn. unfold conv_args_ok.
  destruct (Z.ltb_spec 0 i); [intros _; assumption | cbn; discriminate].
Qed.

Lemma constructible_Deconv2DBlock_inv (i o k : Z) :
  constructible (Deconv2DBlock i o k) = true -> 0 < i.
Proof.
  cbn. unfold conv_args_ok.
  destruct (Z.ltb_spec 0 i); [intros _; assumption | cbn; discriminate].
Qed.

Lemma UNETR_constructible_positive (transformer_width output_dim input_dim
    init_filters : Z) :
  UNETR_constructible
    (UNETR_modules transformer_width output_dim input_dim init_filters)
  = true ->
  0 < transformer_width /\ 0 < input_dim /\ 0 < init_filters.
Proof.
  unfold UNETR_constructible.
  cbn [UNETR_modules decoder0 decoder3 decoder6 decoder9
       decoder12_upsampler decoder9_upsampler decoder6_upsampler
       decoder3_upsampler decoder0_header].
  intros H.
  remember
    (constructible
       (Sequential
          [Conv2DBlock input_dim init_filters 3;
           Conv2DBlock init_filters init_filters 3])) as k0 eqn:E0.
  remember
    (constructible (Deconv2DBlock transformer_width (8 * init_filters) 3))
    as k9 eqn:E9.
  destruct k0; [|cbn [andb] in H; discriminate].
  destruct k9;
    [|rewrite andb_false_r in H; cbn [andb] in H; discriminate].
  symmetry in E0, E9. apply constructible_Deconv2DBlock_inv in E9.
  rewrite constructible_Sequential_cons in E0.
  apply andb_prop in E0. destruct E0 as [E0 E1].
  apply constructible_Conv2DBlock_inv in E0.
  rewrite constructible_Sequential_cons in E1.
  apply andb_prop in E1. destruct E1 as [E1 _].
  apply constructible_Conv2DBlock_inv in E1.
  now repeat split.
Qed.

(** X4.  With a positive [output_dim], the constructor [UNETR.__init__]
    returns exactly when [transformer_width], [input_dim] and
    [init_filters] are all positive: each of them is the group count of a
    depthwise convolution. *)
Theorem UNETR_init_accepts (transformer_width output_dim input_dim
    init_filters : Z) :
  0 < output_dim ->
  is_ok (UNETR_init transformer_width output_dim input_dim init_filters)
  = true
  <-> 0 < transformer_width /\ 0 < input_dim /\ 0 < init_filters.
Proof.
  intros Hod. split.
  - rewrite UNETR_init_constructible.
    apply UNETR_constructible_positive.
  - intros (Htw & Hid & Hf). now rewrite UNETR_init_ok.
Qed.

(** X4 on the widths of the documented example. *)
Lemma UNETR_init_accepts_witness :
  is_ok (UNETR_init 64 2 3 8) = true <-> 0 < 64 /\ 0 < 3 /\ 0 < 8.
Proof. apply (@UNETR_init_accepts 64 2 3 8). lia. Defined.

(** ** What the constructor raises *)

Lemma Layer_init_Sequential_cons (l : Layer) (ls : list Layer) :
  Layer_init (Sequential (l :: ls))
  = rbind (Layer_init l) (fun _ => Layer_init (Sequential ls)).
Proof. reflexivity. Qed.

Lemma conv_init_groups (i o k g : Z) :
  g <= 0 -> conv_init i o k g = Raise ValueError.
Proof.
  intros Hg. unfold conv_init.
  destruct (Z.leb_spec g 0); [reflexivity | lia].
Qed.

Lemma conv_init_pointwise_negative (i o : Z) :
  o < 0 -> conv_init i o 1 1 = Raise RuntimeError.
Proof.
  intros Ho. unfold conv_init. rewrite !Z.mod_1_r. cbn [Z.leb Z.eqb negb].
  destruct (Z.ltb_spec o 0); [|lia]. now rewrite orb_true_r.
Qed.

Lemma conv_init_depthwise (i : Z) : 0 < i -> conv_init i i 3 i = Ok tt.
Proof.
  intros Hi.
  pose proof (is_ok_conv_init i i 3 i) as H.
  rewrite conv_args_depthwise in H by assumption.
  now destruct (conv_init i i 3 i) as [[]|e].
Qed.

(** A depthwise block whose [in_planes] is not positive asks for a
    convolution of no group. *)
Lemma Conv2DBlock_init_groups (i o k : Z) :
  i <= 0 -> Layer_init (Conv2DBlock i o k) = Raise ValueError.
Proof.
  intros Hi. unfold Conv2DBlock, SingleConv2DBlock.
  rewrite Layer_init_Sequential_cons. cbn [Layer_init].
  now rewrite conv_init_groups.
Qed.

Lemma Deconv2DBlock_init_groups (i o k : Z) :
  i <= 0 -> Layer_init (Deconv2DBlock i o k) = Raise ValueError.
Proof.
  intros Hi. unfold Deconv2DBlock, SingleDeconv2DBlock.
  rewrite Layer_init_Sequential_cons. cbn [Layer_init].
  now rewrite conv_init_groups.
Qed.

(** A block with a negative [out_planes] asks for a weight with a negative
    dimension, in its pointwise convolution. *)
Lemma Conv2DBlock_init_negative (i o : Z) :
  0 < i -> o < 0 -> Layer_init (Conv2DBlock i o 3) = Raise RuntimeError.
Proof.
  intros Hi Ho. unfold Conv2DBlock, SingleConv2DBlock.
  rewrite !Layer_init_Sequential_cons. cbn [Layer_init].
  rewrite conv_init_depthwise by assumption. cbn [rbind].
  destruct (Z.ltb_spec i 0); [lia|]. cbn [rbind].
  now rewrite conv_init_pointwise_negative.
Qed.

(** A block of no output channel can be built. *)
Lemma Conv2DBlock_init_empty (i : Z) :
  0 < i -> Layer_init (Conv2DBlock i 0 3) = Ok tt.
Proof.
  intros Hi. apply Layer_init_ok. cbn.
  rewrite conv_args_depthwise, conv_args_pointwise by lia.
  destruct (Z.leb_spec 0 i); [reflexivity | lia].
Qed.

(** X25.  What [UNETR.__init__] raises, by the first layer it cannot
    build.  An [input_dim] that is not positive raises [ValueError] (a
    convolution of [decoder0] would have no group); with a positive
    [input_dim], an [init_filters] of 0 raises [ValueError] and a negative
    one [RuntimeError] (a weight of negative size in [decoder0]); with
    both positive, a [transformer_width] that is not positive raises
    [ValueError] (in [decoder3]); and with the three positive, a negative
    [output_dim] raises [RuntimeError] (in the last layer of
    [decoder0_header]). *)
Theorem UNETR_init_raises (transformer_width output_dim input_dim
    init_filters : Z) :
  let built :=
    UNETR_init transformer_width output_dim input_dim init_filters in
  (input_dim <= 0 -> built = Raise ValueError)
  /\ (0 < input_dim -> init_filters = 0 -> built = Raise ValueError)
  /\ (0 < input_dim -> init_filters < 0 -> built = Raise RuntimeError)
  /\ (0 < input_dim -> 0 < init_filters -> transformer_width <= 0 ->
      built = Raise ValueError)
  /\ (0 < input_dim -> 0 < init_filters -> 0 < transformer_width ->
      output_dim < 0 -> built = Raise RuntimeError).
Proof.
  cbv zeta. split; [apply UNETR_init_input_dim|].
  unfold UNETR_init. cbv zeta.
  cbn [UNETR_modules decoder0 decoder3 decoder6 decoder9
       decoder12_upsampler decoder9_upsampler decoder6_upsampler
       decoder3_upsampler decoder0_header].
  split; [|split; [|split]].
  - intros Hid ->. rewrite !Layer_init_Sequential_cons.
    rewrite Conv2DBlock_init_empty by assumption. cbn [rbind].
    now rewrite Conv2DBlock_init_groups by lia.
  - intros Hid Hf. rewrite !Layer_init_Sequential_cons.
    now rewrite Conv2DBlock_init_negative by assumption.
  - intros Hid Hf Htw.
    rewrite (Layer_init_ok
               (Sequential
                  [Conv2DBlock input_dim init_filters 3;
                   Conv2DBlock init_filters init_filters 3]))
      by (rewrite !constructible_Sequential_cons,
            !constructible_Conv2DBlock by lia; reflexivity).
    cbn [rbind]. rewrite !Layer_init_Sequential_cons.
    now rewrite Deconv2DBlock_init_groups by assumption.
  - intros Hid Hf Htw Hod.
    repeat
      (rewrite Layer_init_ok
         by (rewrite ?constructible_Sequential_cons,
               ?constructible_Conv2DBlock, ?constructible_Deconv2DBlock,
               ?constructible_SingleDWConv2DBlock by lia; reflexivity);
       cbn [rbind]).
    rewrite !Layer_init_Sequential_cons.
    rewrite !Layer_init_ok by (apply constructible_Conv2DBlock; lia).
    cbn [rbind]. unfold SingleConv2DBlock. cbn [Layer_init].
    now rewrite conv_init_pointwise_negative.
Qed.

(** X25 on the widths of the documented example, with one of them
    changed. *)
Lemma UNETR_init_raises_witness :
  UNETR_init 64 2 0 8 = Raise ValueError
  /\ UNETR_init 64 2 3 0 = Raise ValueError
  /\ UNETR_init 64 2 3 (-8) = Raise RuntimeError
  /\ UNETR_init 0 2 3 8 = Raise ValueError
  /\ UNETR_init 64 (-2) 3 8 = Raise RuntimeError.
Proof.
  destruct (@UNETR_init_raises 64 2 0 8) as (H1 & _).
  destruct (@UNETR_init_raises 64 2 3 0) as (_ & H2 & _).
  destruct (@UNETR_init_raises 64 2 3 (-8)) as (_ & _ & H3 & _).
  destruct (@UNETR_init_raises 0 2 3 8) as (_ & _ & _ & H4 & _).
  destruct (@UNETR_init_raises 64 (-2) 3 8) as (_ & _ & _ & _ & H5).
  split; [apply H1; lia|].
  split; [apply H2; first [lia | reflexivity]|].
  split; [apply H3; lia|].
  split; [apply H4; lia | apply H5; lia].
Defined.

(** ** Which pyramids the forward pass accepts *)

Section Acceptance.

Variable training : bool.
Variables transformer_width output_dim input_dim init_filters : Z.
Hypothesis Htw : 0 < transformer_width.
Hypothesis Hod : 0 < output_dim.
Hypothesis Hid : 0 < input_dim.
Hypothesis Hf : 0 < init_filters.

Local Abbreviation self :=
  (UNETR_modules transformer_width output_dim input_dim init_filters).

Lemma forward_decoder12_upsampler_channels (x : Tensor) :
  channels x <> transformer_width ->
  forward training (decoder12_upsampler self) x = Raise RuntimeError.
Proof.
  intros Hc. cbn [UNETR_modules decoder12_upsampler].
  now apply forward_SingleDWConv2DBlock_channels.
Qed.

Lemma forward_decoder9_channels (x : Tensor) :
  channels x <> transformer_width ->
  forward training (decoder9 self) x = Raise RuntimeError.
Proof.
  intros Hc. cbn [UNETR_modules decoder9].
  now apply forward_Deconv2DBlock_channels.
Qed.

Lemma forward_decoder6_channels (x : Tensor) :
  channels x <> transformer_width ->
  forward training (decoder6 self) x = Raise RuntimeError.
Proof.
  intros Hc. cbn [UNETR_modules decoder6].
  now rewrite forward_Sequential_cons, forward_Deconv2DBlock_channels.
Qed.

Lemma forward_decoder3_channels (x : Tensor) :
  channels x <> transformer_width ->
  forward training (decoder3 self) x = Raise RuntimeError.
Proof.
  intros Hc. cbn [UNETR_modules decoder3].
  now rewrite forward_Sequential_cons, forward_Deconv2DBlock_channels.
Qed.

Lemma forward_decoder0_channels (x : Tensor) :
  channels x <> input_dim ->
  forward training (decoder0 self) x = Raise RuntimeError.
Proof.
  intros Hc. cbn [UNETR_modules decoder0].
  now rewrite forward_Sequential_cons, forward_Conv2DBlock_channels.
Qed.

(** A run that stopped with an exception did not return. *)
Local Ltac stopped := cbn; intros Hok; discriminate Hok.

(** Rewrites the next sub-network call with its lemma. *)
Local Ltac sub lem :=
  rewrite lem;
  [ cbv beta iota
  | first [ assumption | lia | rewrite length_cat_Z; lia ] .. ].

(** Decides the next concatenation: its operands agree in size, or the run
    stops. *)
Local Ltac cat E :=
  match goal with
  | |- context [torch_cat ?a ?b tt] =>
      destruct (same_size a b) eqn:E;
      [ rewrite (torch_cat_ok a b tt E);
        unfold same_size in E; cbn [batch height width] in E
      | rewrite (torch_cat_mismatch a b tt E); stopped ]
  end;
  cbn [batch chan height width].

Lemma UNETR_forward_inv
    (n0 h0 w0 n3 h3 w3 n6 h6 w6 n9 h9 w9 n12 h12 w12 : Z)
    (c0 c3 c6 c9 c12 : list Deps) :
  1 <= n0 -> 1 <= h0 -> 1 <= w0 ->
  1 <= n3 -> 1 <= h3 -> 1 <= w3 ->
  1 <= n6 -> 1 <= h6 -> 1 <= w6 ->
  1 <= n9 -> 1 <= h9 -> 1 <= w9 ->
  1 <= n12 -> 1 <= h12 -> 1 <= w12 ->
  is_ok
    (result_of
       (UNETR_forward training self
          [mkTensor n0 c0 h0 w0; mkTensor n3 c3 h3 w3; mkTensor n6 c6 h6 w6;
           mkTensor n9 c9 h9 w9; mkTensor n12 c12 h12 w12] tt)) = true ->
  (Z.of_nat (length c0) = input_dim
   /\ Z.of_nat (length c3) = transformer_width
   /\ Z.of_nat (length c6) = transformer_width
   /\ Z.of_nat (length c9) = transformer_width
   /\ Z.of_nat (length c12) = transformer_width)
  /\ (n0 = n12 /\ n3 = n12 /\ n6 = n12 /\ n9 = n12)
  /\ (h3 = h12 /\ h6 = h12 /\ h9 = h12 /\ h0 = 16 * h12)
  /\ (w3 = w12 /\ w6 = w12 /\ w9 = w12 /\ w0 = 16 * w12).
Proof.
  intros Hn0 Hh0 Hw0 Hn3 Hh3 Hw3 Hn6 Hh6 Hw6 Hn9 Hh9 Hw9 Hn12 Hh12 Hw12.
  unfold UNETR_forward, bind, lift, ret.
  (* z12 *)
  destruct (Z.eq_dec (Z.of_nat (length c12)) transformer_width)
    as [L12|L12];
    [|rewrite forward_decoder12_upsampler_channels by exact L12; stopped].
  sub forward_decoder12_upsampler.
  (* z9 *)
  destruct (Z.eq_dec (Z.of_nat (length c9)) transformer_width) as [L9|L9];
    [|rewrite forward_decoder9_channels by exact L9; stopped].
  sub forward_decoder9.
  cat E9.
  sub forward_decoder9_upsampler.
  (* z6 *)
  destruct (Z.eq_dec (Z.of_nat (length c6)) transformer_width) as [L6|L6];
    [|rewrite forward_decoder6_channels by exact L6; stopped].
  sub forward_decoder6.
  cat E6.
  sub forward_decoder6_upsampler.
  (* z3 *)
  destruct (Z.eq_dec (Z.of_nat (length c3)) transformer_width) as [L3|L3];
    [|rewrite forward_decoder3_channels by exact L3; stopped].
  sub forward_decoder3.
  cat E3.
  sub forward_decoder3_upsampler.
  (* z0 *)
  destruct (Z.eq_dec (Z.of_nat (length c0)) input_dim) as [L0|L0];
    [|rewrite forward_decoder0_channels by exact L0; stopped].
  destruct (training && (n0 * h0 * w0 =? 1)) eqn:Hbn;
    [rewrite forward_decoder0_single_value by assumption; stopped|].
  sub forward_decoder0.
  cat E0.
  intros _. repeat split; first [assumption | lia].
Qed.

End Acceptance.

(** X5.  For positive widths and a pyramid of five tensors, each a batch
    of at least one image of at least one row and one column, constructing
    the decoder and calling it returns exactly when the tensors fit
    together: [z3], [z6], [z9] and [z12] all have the shape
    [(n, transformer_width, h, w)] and [z0] has the shape
    [(n, input_dim, 16 h, 16 w)], for some [n], [h] and [w].  A wrong
    channel count, a batch size or a spatial size of a deep feature map
    that differs from the others, or a [z0] of another size makes the call
    raise. *)
Theorem UNETR_call_accepts (training : bool)
    (transformer_width output_dim input_dim init_filters : Z)
    (z0 z3 z6 z9 z12 : Tensor) :
  0 < transformer_width -> 0 < output_dim -> 0 < input_dim ->
  0 < init_filters ->
  Forall (fun z => 1 <= batch z /\ 1 <= height z /\ 1 <= width z)
    [z0; z3; z6; z9; z12] ->
  is_ok
    (fst (UNETR_call training transformer_width output_dim input_dim
            init_filters [z0; z3; z6; z9; z12])) = true
  <-> exists n h w,
        shape z0 = (n, input_dim, 16 * h, 16 * w)
        /\ shape z3 = (n, transformer_width, h, w)
        /\ shape z6 = (n, transformer_width, h, w)
        /\ shape z9 = (n, transformer_width, h, w)
        /\ shape z12 = (n, transformer_width, h, w).
Proof.
  intros Htw Hod Hid Hf HF.
  apply Forall_cons_iff in HF. destruct HF as [(Hn0 & Hh0 & Hw0) HF].
  apply Forall_cons_iff in HF. destruct HF as [(Hn3 & Hh3 & Hw3) HF].
  apply Forall_cons_iff in HF. destruct HF as [(Hn6 & Hh6 & Hw6) HF].
  apply Forall_cons_iff in HF. destruct HF as [(Hn9 & Hh9 & Hw9) HF].
  apply Forall_cons_iff in HF. destruct HF as [(Hn12 & Hh12 & Hw12) _].
  split.
  - unfold UNETR_call. rewrite UNETR_init_ok by assumption.
    destruct z0 as [n0 c0 h0 w0], z3 as [n3 c3 h3 w3],
      z6 as [n6 c6 h6 w6], z9 as [n9 c9 h9 w9], z12 as [n12 c12 h12 w12].
    cbn [batch height width] in *.
    intros Hok.
    assert (Hrun : is_ok
              (result_of
                 (UNETR_forward training
                    (UNETR_modules transformer_width output_dim input_dim
                       init_filters)
                    [mkTensor n0 c0 h0 w0; mkTensor n3 c3 h3 w3;
                     mkTensor n6 c6 h6 w6; mkTensor n9 c9 h9 w9;
                     mkTensor n12 c12 h12 w12] tt)) = true).
    { destruct (UNETR_forward _ _ _ tt) as [[r s] calls]. exact Hok. }
    apply UNETR_forward_inv in Hrun; try assumption.
    destruct Hrun as ((L0 & L3 & L6 & L9 & L12) & (-> & -> & -> & ->)
                      & (-> & -> & -> & ->) & (-> & -> & -> & ->)).
    exists n12, h12, w12. unfold shape, channels. cbn [batch chan height width].
    rewrite L0, L3, L6, L9, L12. now repeat split.
  - intros (n & h & w & S0 & S3 & S6 & S9 & S12).
    apply shape_inv in S0, S3, S6, S9, S12.
    destruct S0 as [E0 L0], S3 as [E3 L3], S6 as [E6 L6], S9 as [E9 L9],
      S12 as [E12 L12].
    rewrite E12 in Hn12, Hh12, Hw12. cbn [batch height width] in *.
    rewrite E0, E3, E6, E9, E12.
    now rewrite UNETR_call_ok by assumption.
Qed.

(** X5 on the documented example. *)
Lemma UNETR_call_accepts_witness :
  is_ok
    (fst (UNETR_call true 64 2 3 8
            [feature 0 1 3 512 512; feature 3 1 64 32 32;
             feature 6 1 64 32 32; feature 9 1 64 32 32;
             feature 12 1 64 32 32])) = true
  <-> exists n h w,
        shape (feature 0 1 3 512 512) = (n, 3, 16 * h, 16 * w)
        /\ shape (feature 3 1 64 32 32) = (n, 64, h, w)
        /\ shape (feature 6 1 64 32 32) = (n, 64, h, w)
        /\ shape (feature 9 1 64 32 32) = (n, 64, h, w)
        /\ shape (feature 12 1 64 32 32) = (n, 64, h, w).
Proof.
  apply (@UNETR_call_accepts true 64 2 3 8); try lia.
  repeat constructor; cbn; lia.
Defined.

(** X6.  On a pyramid whose feature map [z_k] is tagged with level [k],
    with [z0] sixteen times as large as the deep feature maps, every one
    of the [output_dim] channels of the decoder's output depends on all
    five levels 0, 3, 6, 9 and 12: no branch is dropped on the way to the
    logits. *)
Theorem UNETR_output_levels (training : bool)
    (transformer_width output_dim input_dim init_filters n h w : Z) :
  0 < transformer_width -> 0 < output_dim -> 0 < input_dim ->
  0 < init_filters -> 1 <= n -> 1 <= h -> 1 <= w ->
  fst (UNETR_call training transformer_width output_dim input_dim
         init_filters
         [feature 0 n input_dim (16 * h) (16 * w);
          feature 3 n transformer_width h w;
          feature 6 n transformer_width h w;
          feature 9 n transformer_width h w;
          feature 12 n transformer_width h w])
  = Ok (uniform (levels [0; 3; 6; 9; 12]%N) n output_dim (16 * h) (16 * w)).
Proof.
  intros Htw Hod Hid Hf Hn Hh Hw. unfold feature, uniform.
  rewrite UNETR_call_ok
    by first [lia | assumption | apply length_repeat_Z; lia].
  cbn [fst]. rewrite !union_all_feature by lia. reflexivity.
Qed.

(** X6 on the documented example. *)
Lemma UNETR_output_levels_witness :
  fst (UNETR_call true 64 2 3 8
         [feature 0 1 3 (16 * 32) (16 * 32); feature 3 1 64 32 32;
          feature 6 1 64 32 32; feature 9 1 64 32 32;
          feature 12 1 64 32 32])
  = Ok (uniform (levels [0; 3; 6; 9; 12]%N) 1 2 (16 * 32) (16 * 32)).
Proof. apply (@UNETR_output_levels true 64 2 3 8 1 32 32); lia. Defined.

(** X7.  [UNETR.forward] unpacks its argument into five tensors: on a list
    of any other length it raises [ValueError] before any sub-network is
    run and before any concatenation, whatever the decoder's widths. *)
Theorem UNETR_forward_arity (training : bool) (self : UNETR)
    (x : list Tensor) :
  length x <> 5%nat ->
  UNETR_forward training self x tt = (Raise ValueError, tt, []).
Proof.
  intros Hlen. unfold UNETR_forward.
  do 6 (destruct x as [|? x]; try reflexivity).
  cbn in Hlen. lia.
Qed.

(** X7 on a pyramid without its [z0]. *)
Lemma UNETR_forward_arity_witness :
  UNETR_forward true (UNETR_modules 64 2 3 8)
    [feature 3 1 64 32 32; feature 6 1 64 32 32; feature 9 1 64 32 32;
     feature 12 1 64 32 32] tt
  = (Raise ValueError, tt, []).
Proof.
  apply (@UNETR_forward_arity true (UNETR_modules 64 2 3 8)). cbn. lia.
Defined.

End DecoderFacts.

(* ------------------------------------------------------------------ *)
(** * Part II, proofs                                                  *)
(* ------------------------------------------------------------------ *)

(** Runs a hook to a tuple once every fallible call it makes is resolved. *)
Ltac run_hook :=
  cbv beta iota delta
    [bind ret raise get modify tell lift rbind
     Lightning.item Lightning.log Lightning.log_cells].

(** Case analysis on the innermost undecided call of the goal. *)
Ltac next_case :=
  match goal with
  | |- context [match ?x with _ => _ end] =>
      lazymatch x with
      | context [match _ with _ => _ end] => fail
      | _ => destruct x eqn:?
      end
  end.

(** Closes a case of a step: the result and the output are read off the
    run, the effect on the accumulators is [d]. *)
Tactic Notation "close_step" constr(d) :=
  eexists; eexists; exists d; intros [? ? ? ?];
  unfold SegmentationModel.accumulate_val, SegmentationModel.accumulate_test,
    SegmentationModel.no_delta;
  cbn; rewrite ?app_nil_r; reflexivity.

(** ** What the proofs use of the tensors, the counts and the dicts *)
Module TorchFacts.

Import Torch.
Open Scope Z_scope.

Lemma list_eqb_eq {A} (eqb : A -> A -> bool) (l1 l2 : list A) :
  (forall a b, eqb a b = true -> a = b) ->
  list_eqb eqb l1 l2 = true -> l1 = l2.
Proof.
  intros Heqb. revert l2.
  induction l1 as [|a l1 IH]; intros [|b l2]; cbn [list_eqb];
    try discriminate; [reflexivity|].
  intros H. apply andb_prop in H. destruct H as [Hab Hl].
  now rewrite (Heqb _ _ Hab), (IH _ Hl).
Qed.

Lemma list_eqb_refl {A} (eqb : A -> A -> bool) (l : list A) :
  (forall a, eqb a a = true) -> list_eqb eqb l l = true.
Proof.
  intros Heqb. induction l as [|a l IH]; [reflexivity|].
  cbn [list_eqb]. now rewrite Heqb, IH.
Qed.

Lemma same_shape2_length {A B} (a : Tensor2 A) (b : Tensor2 B) :
  same_shape2 a b = true -> length (flatten2 a) = length (flatten2 b).
Proof.
  unfold same_shape2, shape2, flatten2. intros H.
  apply list_eqb_eq in H; [|intros ? ?; apply Nat.eqb_eq].
  now rewrite !length_concat, H.
Qed.

Lemma same_shape4_eq {A B} (a : Tensor4 A) (b : Tensor4 B) :
  same_shape4 a b = true -> shape4 a = shape4 b.
Proof.
  unfold same_shape4. apply list_eqb_eq. intros s s'.
  apply list_eqb_eq. intros c c'.
  apply list_eqb_eq. intros r r'. apply Nat.eqb_eq.
Qed.

Lemma shape4_same_shape4 {A B} (a : Tensor4 A) (b : Tensor4 B) :
  shape4 a = shape4 b -> same_shape4 a b = true.
Proof.
  unfold same_shape4. intros ->.
  apply list_eqb_refl. intros s.
  apply list_eqb_refl. intros c.
  apply list_eqb_refl. intros r. apply Nat.eqb_refl.
Qed.

Lemma shape4_concat {A} (ts : list (Tensor4 A)) :
  shape4 (concat ts) = concat (map shape4 ts).
Proof. unfold shape4. apply concat_map. Qed.

Lemma forallb_same_shape3 {A B} (s : list (list (list A)))
    (s0 : list (list (list B))) (r : Tensor4 A) (r0 : Tensor4 B) :
  shape3 s = shape3 s0 ->
  shape4 r = shape4 r0 ->
  forallb (fun s' => same_shape3 s' s) r
  = forallb (fun s' => same_shape3 s' s0) r0.
Proof.
  intros Hs. revert r0.
  induction r as [|a r IH]; intros [|b r0]; cbn [shape4 map];
    try discriminate; [reflexivity|].
  intros [= Hab Hr]. cbn [forallb]. unfold same_shape3 at 1 3.
  rewrite Hab, Hs. f_equal. now apply IH.
Qed.

Lemma torch_cat_raises {A} (ts : list (Tensor4 A)) (e : exn) :
  torch_cat ts = Raise e -> e = RuntimeError.
Proof.
  unfold torch_cat. destruct ts as [|t ts]; [now intros [= <-]|].
  destruct (concat (t :: ts)) as [|s t']; [discriminate|].
  destruct (forallb _ t'); [discriminate | now intros [= <-]].
Qed.

Lemma torch_cat_returns {A} (ts : list (Tensor4 A)) (t : Tensor4 A) :
  torch_cat ts = Ok t -> t = concat ts.
Proof.
  unfold torch_cat. destruct ts as [|t0 ts]; [discriminate|].
  destruct (concat (t0 :: ts)) as [|s t']; [now intros [= <-]|].
  destruct (forallb _ t'); [now intros [= <-] | discriminate].
Qed.

(** Whether [torch.cat] returns depends on the shapes of its operands
    only. *)
Lemma torch_cat_shapes {A B} (ts : list (Tensor4 A))
    (ts' : list (Tensor4 B)) :
  map shape4 ts = map shape4 ts' ->
  is_ok (torch_cat ts) = is_ok (torch_cat ts').
Proof.
  intros Hshapes.
  assert (Hcat : shape4 (concat ts) = shape4 (concat ts'))
    by now rewrite !shape4_concat, Hshapes.
  unfold torch_cat.
  destruct ts as [|t ts], ts' as [|t' ts']; try discriminate;
    [reflexivity|].
  destruct (concat (t :: ts)) as [|s r], (concat (t' :: ts')) as [|s' r'];
    try discriminate; [reflexivity|].
  cbn [shape4 map] in Hcat. injection Hcat as Hs Hr.
  rewrite (forallb_same_shape3 s s' r r' Hs Hr).
  now destruct (forallb _ r').
Qed.

Lemma count_total (ps : list (bool * bool)) (s : StatScores) :
  let s' := fold_left count ps s in
  tp s' + fp s' + tn s' + fn s'
  = tp s + fp s + tn s + fn s + Z.of_nat (length ps).
Proof.
  revert s. induction ps as [|[[] []] ps IH]; intros s; cbv zeta;
    cbn [fold_left length]; [lia | ..];
    rewrite IH; cbn [count tp fp tn fn]; lia.
Qed.

Lemma count_nonneg (ps : list (bool * bool)) (s : StatScores) :
  0 <= tp s /\ 0 <= fp s /\ 0 <= tn s /\ 0 <= fn s ->
  let s' := fold_left count ps s in
  0 <= tp s' /\ 0 <= fp s' /\ 0 <= tn s' /\ 0 <= fn s'.
Proof.
  revert s. induction ps as [|[[] []] ps IH]; intros s Hs; cbv zeta;
    cbn [fold_left]; [exact Hs | ..];
    apply IH; cbn [count tp fp tn fn]; lia.
Qed.

Lemma all_binary_length (l : list Q) (bs : list bool) :
  all_binary l = Some bs -> length bs = length l.
Proof.
  revert bs. induction l as [|q l IH]; intros bs; cbn [all_binary].
  - now intros [= <-].
  - destruct (binary q); [|discriminate].
    destruct (all_binary l) as [bs'|]; [|discriminate].
    intros [= <-]. cbn [length]. now rewrite (IH bs' eq_refl).
Qed.

Lemma int_pairs_length (preds : Tensor2 Z) (target : Tensor2 Q) ps :
  int_pairs preds target = Ok ps -> length ps = length (flatten2 preds).
Proof.
  unfold int_pairs.
  destruct (same_shape2 preds target) eqn:Hs; cbn [negb]; [|discriminate].
  destruct (all_binary (map inject_Z (flatten2 preds))) as [bs|] eqn:Hp;
    [|discriminate].
  destruct (all_binary (flatten2 target)) as [ts|] eqn:Ht; [|discriminate].
  destruct (reshape_rows preds); [|discriminate].
  cbn [rbind]. intros [= <-]. apply all_binary_length in Hp, Ht.
  apply same_shape2_length in Hs.
  rewrite length_combine, Hp, Ht, length_map, <- Hs. apply Nat.min_id.
Qed.

Lemma prob_pairs_length (preds : Tensor2 Q) (target : Tensor2 Q) ps :
  prob_pairs preds target = Ok ps -> length ps = length (flatten2 target).
Proof.
  unfold prob_pairs.
  destruct (same_shape2 preds target) eqn:Hs; cbn [negb]; [|discriminate].
  destruct (all_binary (flatten2 target)) as [ts|] eqn:Ht; [|discriminate].
  destruct (reshape_rows preds); [|discriminate].
  cbn [rbind]. intros [= <-]. apply all_binary_length in Ht.
  apply same_shape2_length in Hs.
  rewrite length_combine, Ht, length_map, Hs. apply Nat.min_id.
Qed.

Lemma shape2_map2 {A B} (f : A -> B) (t : Tensor2 A) :
  shape2 (map2 f t) = shape2 t.
Proof.
  unfold shape2, map2. rewrite map_map. apply map_ext. intros row.
  apply length_map.
Qed.

Lemma shape2_map4 {A B} (f : A -> B) (t : Tensor4 A) :
  shape2 (map4 f t) = shape2 t.
Proof.
  unfold shape2, map4. rewrite map_map. apply map_ext. intros sample.
  apply length_map.
Qed.

(** The values [metric.update] accepts. *)
Lemma all_binary_forallb (l : list Q) :
  match all_binary l with Some _ => true | None => false end
  = forallb (fun q => Qeq_bool q 0 || Qeq_bool q 1) l.
Proof.
  induction l as [|q l IH]; [reflexivity|].
  cbn [all_binary forallb]. rewrite <- IH. unfold binary.
  destruct (Qeq_bool q 0); [now destruct (all_binary l)|].
  destruct (Qeq_bool q 1); now destruct (all_binary l).
Qed.

Lemma binary_inject_Z (z : Z) :
  Qeq_bool (inject_Z z) 0 || Qeq_bool (inject_Z z) 1
  = (z =? 0) || (z =? 1).
Proof.
  unfold Qeq_bool, inject_Z. cbn [Qnum Qden].
  rewrite !Z.mul_1_r. reflexivity.
Qed.

Lemma all_binary_inject_Z (l : list Z) :
  forallb (fun z => (z =? 0) || (z =? 1)) l = true ->
  all_binary (map inject_Z l) = Some (map (fun z => z =? 1) l).
Proof.
  induction l as [|z l IH]; [reflexivity|].
  cbn [forallb map all_binary]. intros H.
  apply andb_prop in H. destruct H as [Hz Hl]. rewrite (IH Hl).
  destruct (Z.eqb_spec z 0) as [->|]; [reflexivity|].
  destruct (Z.eqb_spec z 1) as [->|]; [reflexivity | discriminate].
Qed.

Lemma is_ok_int_pairs (preds : Tensor2 Z) (target : Tensor2 Q) :
  preds <> [] ->
  is_ok (int_pairs preds target)
  = same_shape2 preds target
    && forallb (fun z => (z =? 0) || (z =? 1)) (flatten2 preds)
    && forallb (fun q => Qeq_bool q 0 || Qeq_bool q 1) (flatten2 target).
Proof.
  intros Hne. unfold int_pairs.
  destruct (same_shape2 preds target); cbn [negb andb]; [|reflexivity].
  rewrite <- (all_binary_forallb (flatten2 target)).
  replace (forallb (fun z => (z =? 0) || (z =? 1)) (flatten2 preds))
    with (forallb (fun q => Qeq_bool q 0 || Qeq_bool q 1)
            (map inject_Z (flatten2 preds))).
  - rewrite <- all_binary_forallb.
    destruct preds as [|row preds]; [contradiction|].
    destruct (all_binary (map inject_Z (flatten2 (row :: preds))));
      now destruct (all_binary (flatten2 target)).
  - induction (flatten2 preds) as [|z l IH]; [reflexivity|].
    cbn [map forallb]. now rewrite binary_inject_Z, IH.
Qed.


Lemma int_pairs_raises (preds : Tensor2 Z) (target : Tensor2 Q) (e : exn) :
  int_pairs preds target = Raise e -> e = RuntimeError.
Proof.
  unfold int_pairs. destruct (same_shape2 preds target); cbn [negb];
    [|now intros [= <-]].
  destruct (all_binary _); [|now intros [= <-]].
  destruct (all_binary _); [|now intros [= <-]].
  destruct preds; [now intros [= <-] | discriminate].
Qed.

Lemma is_ok_prob_pairs (preds target : Tensor2 Q) :
  preds <> [] ->
  is_ok (prob_pairs preds target)
  = same_shape2 preds target
    && forallb (fun q => Qeq_bool q 0 || Qeq_bool q 1) (flatten2 target).
Proof.
  intros Hne. unfold prob_pairs.
  destruct (same_shape2 preds target); cbn [negb andb]; [|reflexivity].
  rewrite <- all_binary_forallb.
  destruct preds as [|row preds]; [contradiction|].
  now destruct (all_binary (flatten2 target)).
Qed.


Lemma prob_pairs_raises (preds target : Tensor2 Q) (e : exn) :
  prob_pairs preds target = Raise e -> e = RuntimeError.
Proof.
  unfold prob_pairs. destruct (same_shape2 preds target); cbn [negb];
    [|now intros [= <-]].
  destruct (all_binary _); [|now intros [= <-]].
  destruct preds; [now intros [= <-] | discriminate].
Qed.

Lemma getitem_missing {V} (key : string) (d : list (string * V)) :
  ~ In key (map fst d) -> getitem key d = Raise (KeyError key).
Proof.
  induction d as [|[k v] d IH]; cbn [getitem map fst In]; intros H;
    [reflexivity|].
  destruct (String.eqb_spec k key) as [->|Hne]; [tauto | apply IH; tauto].
Qed.

Lemma getitem_present {V} (key : string) (d : list (string * V)) :
  In key (map fst d) -> exists v, getitem key d = Ok v.
Proof.
  induction d as [|[k v] d IH]; cbn [getitem map fst In]; intros H;
    [contradiction|].
  destruct (String.eqb_spec k key) as [->|Hne]; [now exists v|].
  apply IH. tauto.
Qed.

Lemma getitem_after_losses {V W} (name key : string) (f : W -> V)
    (vs : list W) (rest : list (string * V)) :
  String.eqb name key = false ->
  getitem key (map (fun v => (name, f v)) vs ++ rest) = getitem key rest.
Proof.
  intros Hne. induction vs as [|v vs IH]; [reflexivity|].
  cbn [map app getitem]. now rewrite Hne.
Qed.

End TorchFacts.

Module SegmentationFacts.

Import Torch Lightning TorchFacts.
Open Scope Z_scope.

Section Model.

Variables Input Logit Loss Dice : Type.
Variable encoder : option (list Input -> result (list Input)).
Variable model : list Input -> result (Tensor4 Logit).
Variable sigmoid : Logit -> Q.
Variable loss_value : Tensor4 Logit -> Tensor4 Q -> Loss.
Variable dice_value : list (Tensor4 Z * Tensor4 Q) -> Dice.

Local Abbreviation Batch := (SegmentationModel.Batch Input).
Local Abbreviation State := (SegmentationModel.State Logit).
Local Abbreviation Delta := (SegmentationModel.Delta Logit).
Local Abbreviation forward := (SegmentationModel.forward encoder model).
Local Abbreviation training_step :=
  (@SegmentationModel.training_step Input Logit Loss Dice encoder model
     sigmoid loss_value).
Local Abbreviation validation_step :=
  (@SegmentationModel.validation_step Input Logit Loss Dice encoder model
     sigmoid loss_value).
Local Abbreviation test_step :=
  (@SegmentationModel.test_step Input Logit Loss Dice encoder model
     sigmoid loss_value).
Local Abbreviation on_validation_epoch_end :=
  (@SegmentationModel.on_validation_epoch_end Logit Loss Dice sigmoid
     dice_value).
Local Abbreviation on_test_epoch_end :=
  (@SegmentationModel.on_test_epoch_end Logit Loss Dice sigmoid dice_value).
Local Abbreviation validation_epoch :=
  (@SegmentationModel.validation_epoch Input Logit Loss Dice encoder model
     sigmoid loss_value dice_value).
Local Abbreviation test_epoch :=
  (@SegmentationModel.test_epoch Input Logit Loss Dice encoder model
     sigmoid loss_value dice_value).
Local Abbreviation accumulate_val := (@SegmentationModel.accumulate_val Logit).
Local Abbreviation accumulate_test := (@SegmentationModel.accumulate_test Logit).
Local Abbreviation no_delta := (SegmentationModel.no_delta Logit).
Local Abbreviation mkState := (@SegmentationModel.mkState Logit).
Local Abbreviation mkDelta := (@SegmentationModel.mkDelta Logit).
Local Abbreviation pred_label_of := SegmentationModel.pred_label_of.
Local Abbreviation foreground_pixels := SegmentationModel.foreground_pixels.
Local Abbreviation pixel_treshold := SegmentationModel.pixel_treshold.
Local Abbreviation val_metrics := (@SegmentationModel.val_metrics Logit).
Local Abbreviation test_metrics := (@SegmentationModel.test_metrics Logit).
Local Abbreviation dice_score := (@SegmentationModel.dice_score Logit).
Local Abbreviation validation_step_outputs :=
  (@SegmentationModel.validation_step_outputs Logit).
Local Abbreviation idle := (@SegmentationModel.idle Logit).
Local Abbreviation steps := (@Lightning.steps State Loss Dice Batch).
Local Abbreviation evaluate :=
  (@SegmentationModel.evaluate Input Logit encoder model sigmoid).
Local Abbreviation evaluate_all :=
  (@SegmentationModel.evaluate_all Input Logit encoder model sigmoid).
Local Abbreviation epoch_delta :=
  (@SegmentationModel.epoch_delta Logit sigmoid).
Local Abbreviation reduction :=
  (@SegmentationModel.reduction Loss Dice dice_value).

Lemma accumulate_val_no_delta (self : State) :
  accumulate_val no_delta self = self.
Proof.
  destruct self. unfold SegmentationModel.accumulate_val. cbn.
  now rewrite !app_nil_r.
Qed.

(** The training step leaves [self] as it found it. *)
Lemma training_step_state (batch : Batch) (batch_idx : Z) (self : State) :
  state_of (training_step batch batch_idx self) = self.
Proof.
  unfold SegmentationModel.training_step, state_of. run_hook.
  repeat (next_case; try reflexivity).
Qed.

Lemma accumulate_test_no_delta (self : State) :
  accumulate_test no_delta self = self.
Proof.
  destruct self. unfold SegmentationModel.accumulate_test. cbn.
  now rewrite !app_nil_r.
Qed.

Lemma shape4_map4 {A B} (f : A -> B) (t : Tensor4 A) :
  shape4 (map4 f t) = shape4 t.
Proof.
  unfold shape4, shape3, map4. rewrite map_map.
  apply map_ext. intros s. rewrite map_map.
  apply map_ext. intros c. rewrite map_map.
  apply map_ext. intros r. apply length_map.
Qed.

Lemma same_shape4_map4 {A B C} (f : A -> B) (t : Tensor4 A)
    (y : Tensor4 C) :
  same_shape4 (map4 f t) y = same_shape4 t y.
Proof. unfold same_shape4. now rewrite shape4_map4. Qed.

Lemma same_shape4_pred_mask (logits : Tensor4 Logit) (y : Tensor4 Q) :
  same_shape4 (map4 Z.b2z (gt_half (map4 sigmoid logits))) y
  = same_shape4 logits y.
Proof. unfold gt_half. now rewrite !same_shape4_map4. Qed.

(** ** The evaluation steps

    Whatever the batch, a step's result and what it logs do not depend on
    the state it starts from, and its effect on the state is to add to the
    accumulators of its phase. *)
Lemma validation_step_delta (batch : Batch) (batch_idx : Z) :
  exists r out d,
    forall self,
      validation_step batch batch_idx self = (r, accumulate_val d self, out).
Proof.
  unfold SegmentationModel.validation_step,
    SegmentationModel.val_metrics_update,
    SegmentationModel.dice_score_update,
    SegmentationModel.validation_step_outputs_append,
    SegmentationModel.loss_fn, update_int.
  run_hook.
  destruct (SegmentationModel.image batch) as [x|]; [|close_step no_delta].
  destruct (SegmentationModel.mask batch) as [y|]; [|close_step no_delta].
  destruct (SegmentationModel.embs batch) as [e|]; [|close_step no_delta].
  destruct (forward (x :: map snd e)) as [logits|err];
    [|close_step no_delta].
  destruct (same_shape4 logits y) eqn:Hshape; [|close_step no_delta].
  destruct (SegmentationModel.label batch) as [lbl|];
    [|close_step no_delta].
  destruct (int_pairs _ _) as [ps|err]; [|close_step no_delta].
  rewrite same_shape4_pred_mask, Hshape.
  close_step
    (mkDelta ps
       [(map4 Z.b2z (gt_half (map4 sigmoid logits)), y)] [(logits, y)]).
Qed.

Lemma test_step_delta (batch : Batch) (batch_idx : Z) :
  exists r out d,
    forall self,
      test_step batch batch_idx self = (r, accumulate_test d self, out).
Proof.
  unfold SegmentationModel.test_step,
    SegmentationModel.test_metrics_update,
    SegmentationModel.dice_score_update,
    SegmentationModel.validation_step_outputs_append,
    SegmentationModel.loss_fn, update_int.
  run_hook.
  destruct (SegmentationModel.image batch) as [x|]; [|close_step no_delta].
  destruct (SegmentationModel.embs batch) as [e|]; [|close_step no_delta].
  destruct (SegmentationModel.mask batch) as [y|]; [|close_step no_delta].
  destruct (forward (x :: map snd e)) as [logits|err];
    [|close_step no_delta].
  destruct (same_shape4 logits y) eqn:Hshape; [|close_step no_delta].
  destruct (SegmentationModel.label batch) as [lbl|];
    [|close_step no_delta].
  destruct (int_pairs _ _) as [ps|err]; [|close_step no_delta].
  rewrite same_shape4_pred_mask, Hshape.
  close_step
    (mkDelta ps
       [(map4 Z.b2z (gt_half (map4 sigmoid logits)), y)] [(logits, y)]).
Qed.

(** A step that returns has read a complete batch, run the network, counted
    the thresholded labels and added one pair to the Dice score and one to
    the buffer. *)
Lemma validation_step_ok (batch : Batch) (batch_idx : Z) (self : State)
    x y e logits lbl ps :
  SegmentationModel.image batch = Some x ->
  SegmentationModel.mask batch = Some y ->
  SegmentationModel.embs batch = Some e ->
  forward (x :: map snd e) = Ok logits ->
  same_shape4 logits y = true ->
  SegmentationModel.label batch = Some lbl ->
  int_pairs (pred_label_of (map4 sigmoid logits))
    (map2 inject_Z (map2 to_int64 lbl)) = Ok ps ->
  validation_step batch batch_idx self
  = (Ok tt,
     accumulate_val
       (mkDelta ps [(map4 Z.b2z (gt_half (map4 sigmoid logits)), y)]
          [(logits, y)]) self,
     [("val_loss"%string, LossValue (loss_value logits y))]).
Proof.
  intros Hx Hy He Hf Hs Hl Hp.
  unfold SegmentationModel.validation_step,
    SegmentationModel.val_metrics_update,
    SegmentationModel.dice_score_update,
    SegmentationModel.validation_step_outputs_append,
    SegmentationModel.loss_fn, update_int.
  run_hook.
  rewrite Hx, Hy, He, Hf, Hs, Hl, Hp, same_shape4_pred_mask, Hs.
  destruct self. reflexivity.
Qed.

Lemma validation_step_inv (batch : Batch) (batch_idx : Z)
    (self self' : State) out :
  validation_step batch batch_idx self = (Ok tt, self', out) ->
  exists x y e logits lbl ps,
    SegmentationModel.image batch = Some x
    /\ SegmentationModel.mask batch = Some y
    /\ SegmentationModel.embs batch = Some e
    /\ forward (x :: map snd e) = Ok logits
    /\ same_shape4 logits y = true
    /\ SegmentationModel.label batch = Some lbl
    /\ int_pairs (pred_label_of (map4 sigmoid logits))
         (map2 inject_Z (map2 to_int64 lbl)) = Ok ps.
Proof.
  unfold SegmentationModel.validation_step,
    SegmentationModel.val_metrics_update,
    SegmentationModel.dice_score_update,
    SegmentationModel.validation_step_outputs_append,
    SegmentationModel.loss_fn, update_int.
  run_hook.
  destruct (SegmentationModel.image batch) as [x|] eqn:Hx; [|discriminate].
  destruct (SegmentationModel.mask batch) as [y|] eqn:Hy; [|discriminate].
  destruct (SegmentationModel.embs batch) as [e|] eqn:He; [|discriminate].
  destruct (forward (x :: map snd e)) as [logits|err] eqn:Hf;
    [|discriminate].
  destruct (same_shape4 logits y) eqn:Hshape; [|discriminate].
  destruct (SegmentationModel.label batch) as [lbl|] eqn:Hl;
    [|discriminate].
  destruct (int_pairs _ _) as [ps|err] eqn:Hp; [|discriminate].
  intros _. exists x, y, e, logits, lbl, ps. repeat split; assumption.
Qed.

Lemma test_step_ok (batch : Batch) (batch_idx : Z) (self : State)
    x y e logits lbl ps :
  SegmentationModel.image batch = Some x ->
  SegmentationModel.mask batch = Some y ->
  SegmentationModel.embs batch = Some e ->
  forward (x :: map snd e) = Ok logits ->
  same_shape4 logits y = true ->
  SegmentationModel.label batch = Some lbl ->
  int_pairs (pred_label_of (map4 sigmoid logits))
    (map2 inject_Z (map2 to_int64 lbl)) = Ok ps ->
  test_step batch batch_idx self
  = (Ok tt,
     accumulate_test
       (mkDelta ps [(map4 Z.b2z (gt_half (map4 sigmoid logits)), y)]
          [(logits, y)]) self,
     [("test_loss"%string, LossValue (loss_value logits y))]).
Proof.
  intros Hx Hy He Hf Hs Hl Hp.
  unfold SegmentationModel.test_step,
    SegmentationModel.test_metrics_update,
    SegmentationModel.dice_score_update,
    SegmentationModel.validation_step_outputs_append,
    SegmentationModel.loss_fn, update_int.
  run_hook.
  rewrite Hx, Hy, He, Hf, Hs, Hl, Hp, same_shape4_pred_mask, Hs.
  destruct self. reflexivity.
Qed.

Lemma test_step_inv (batch : Batch) (batch_idx : Z)
    (self self' : State) out :
  test_step batch batch_idx self = (Ok tt, self', out) ->
  exists x y e logits lbl ps,
    SegmentationModel.image batch = Some x
    /\ SegmentationModel.mask batch = Some y
    /\ SegmentationModel.embs batch = Some e
    /\ forward (x :: map snd e) = Ok logits
    /\ same_shape4 logits y = true
    /\ SegmentationModel.label batch = Some lbl
    /\ int_pairs (pred_label_of (map4 sigmoid logits))
         (map2 inject_Z (map2 to_int64 lbl)) = Ok ps.
Proof.
  unfold SegmentationModel.test_step,
    SegmentationModel.test_metrics_update,
    SegmentationModel.dice_score_update,
    SegmentationModel.validation_step_outputs_append,
    SegmentationModel.loss_fn, update_int.
  run_hook.
  destruct (SegmentationModel.image batch) as [x|] eqn:Hx; [|discriminate].
  destruct (SegmentationModel.embs batch) as [e|] eqn:He; [|discriminate].
  destruct (SegmentationModel.mask batch) as [y|] eqn:Hy; [|discriminate].
  destruct (forward (x :: map snd e)) as [logits|err] eqn:Hf;
    [|discriminate].
  destruct (same_shape4 logits y) eqn:Hshape; [|discriminate].
  destruct (SegmentationModel.label batch) as [lbl|] eqn:Hl;
    [|discriminate].
  destruct (int_pairs _ _) as [ps|err] eqn:Hp; [|discriminate].
  intros _. exists x, y, e, logits, lbl, ps. repeat split; assumption.
Qed.

(** ** A phase of steps *)

Lemma accumulate_val_app (d1 d2 : Delta) (self : State) :
  accumulate_val d2 (accumulate_val d1 self)
  = accumulate_val (SegmentationModel.delta_app d1 d2) self.
Proof.
  unfold SegmentationModel.accumulate_val, SegmentationModel.delta_app.
  cbn. now rewrite fold_left_app, !app_assoc.
Qed.

Lemma accumulate_test_app (d1 d2 : Delta) (self : State) :
  accumulate_test d2 (accumulate_test d1 self)
  = accumulate_test (SegmentationModel.delta_app d1 d2) self.
Proof.
  unfold SegmentationModel.accumulate_test, SegmentationModel.delta_app.
  cbn. now rewrite fold_left_app, !app_assoc.
Qed.

Lemma validation_steps_delta (batches : list Batch) (batch_idx : Z) :
  exists r out d,
    forall self,
      steps validation_step batches batch_idx self
      = (r, accumulate_val d self, out).
Proof.
  revert batch_idx. induction batches as [|batch batches IH];
    intros batch_idx.
  - exists (Ok tt), [], no_delta. intros self.
    now rewrite accumulate_val_no_delta.
  - destruct (validation_step_delta batch batch_idx) as (r1 & out1 & d1 & H1).
    destruct (IH (batch_idx + 1)) as (r2 & out2 & d2 & H2).
    destruct r1 as [[]|e].
    + exists r2, (out1 ++ out2)%list, (SegmentationModel.delta_app d1 d2).
      intros self. cbn [steps]. unfold bind.
      now rewrite H1, H2, accumulate_val_app.
    + exists (Raise e), out1, d1. intros self. cbn [steps]. unfold bind.
      now rewrite H1.
Qed.

Lemma test_steps_delta (batches : list Batch) (batch_idx : Z) :
  exists r out d,
    forall self,
      steps test_step batches batch_idx self
      = (r, accumulate_test d self, out).
Proof.
  revert batch_idx. induction batches as [|batch batches IH];
    intros batch_idx.
  - exists (Ok tt), [], no_delta. intros self.
    now rewrite accumulate_test_no_delta.
  - destruct (test_step_delta batch batch_idx) as (r1 & out1 & d1 & H1).
    destruct (IH (batch_idx + 1)) as (r2 & out2 & d2 & H2).
    destruct r1 as [[]|e].
    + exists r2, (out1 ++ out2)%list, (SegmentationModel.delta_app d1 d2).
      intros self. cbn [steps]. unfold bind.
      now rewrite H1, H2, accumulate_test_app.
    + exists (Raise e), out1, d1. intros self. cbn [steps]. unfold bind.
      now rewrite H1.
Qed.

(** ** The epoch-end hooks

    A Dice score that has had no update stops the hook at its
    [dice_score.compute()]: the metric collection of the phase has been
    reset, nothing has been logged and the buffer is as it was. *)
Lemma on_validation_epoch_end_no_update (vm tm : StatScores)
    (vso : list (Tensor4 Logit * Tensor4 Q)) :
  on_validation_epoch_end (mkState vm tm [] vso)
  = (Raise ValueError, mkState StatScores_zero tm [] vso, []).
Proof. reflexivity. Qed.

Lemma on_test_epoch_end_no_update (vm tm : StatScores)
    (vso : list (Tensor4 Logit * Tensor4 Q)) :
  on_test_epoch_end (mkState vm tm [] vso)
  = (Raise ValueError, mkState vm StatScores_zero [] vso, []).
Proof. reflexivity. Qed.

Lemma dice_score_compute_ok (ds : list (Tensor4 Z * Tensor4 Q)) :
  ds <> [] ->
  SegmentationModel.dice_score_compute dice_value ds = Ok (dice_value ds).
Proof. now destruct ds. Qed.

(** With a Dice score that has been updated, the reduction depends on the
    accumulators of its own phase only, and leaves them empty whether or
    not the final recomputation raises. *)
Lemma on_validation_epoch_end_reset (vm : StatScores)
    (ds : list (Tensor4 Z * Tensor4 Q))
    (vso : list (Tensor4 Logit * Tensor4 Q)) :
  ds <> [] ->
  exists r out,
    forall tm,
      on_validation_epoch_end (mkState vm tm ds vso)
      = (r, mkState StatScores_zero tm [] [], out).
Proof.
  intros Hds.
  unfold SegmentationModel.on_validation_epoch_end. run_hook.
  cbn [SegmentationModel.dice_score].
  rewrite (dice_score_compute_ok Hds). cbn.
  destruct (torch_cat (map fst vso)) as [logits|e];
    [|eexists; eexists; intros tm; reflexivity].
  destruct (torch_cat (map snd vso)) as [targets|e];
    [|eexists; eexists; intros tm; reflexivity].
  destruct (Fscore sigmoid logits targets) as [dsc|e];
    eexists; eexists; intros tm; reflexivity.
Qed.

Lemma on_test_epoch_end_reset (tm : StatScores)
    (ds : list (Tensor4 Z * Tensor4 Q))
    (vso : list (Tensor4 Logit * Tensor4 Q)) :
  ds <> [] ->
  exists r out,
    forall vm,
      on_test_epoch_end (mkState vm tm ds vso)
      = (r, mkState vm StatScores_zero [] [], out).
Proof.
  intros Hds.
  unfold SegmentationModel.on_test_epoch_end. run_hook.
  cbn [SegmentationModel.dice_score].
  rewrite (dice_score_compute_ok Hds). cbn.
  destruct (torch_cat (map fst vso)) as [logits|e];
    [|eexists; eexists; intros vm; reflexivity].
  destruct (torch_cat (map snd vso)) as [targets|e];
    [|eexists; eexists; intros vm; reflexivity].
  destruct (Fscore sigmoid logits targets) as [dsc|e];
    eexists; eexists; intros vm; reflexivity.
Qed.

Local Abbreviation tracked := (@SegmentationModel.tracked Loss Dice dice_value).

Lemma Fscore_raises (y_pr : Tensor4 Logit) (y_gt : Tensor4 Q) (e : exn) :
  Fscore sigmoid y_pr y_gt = Raise e -> e = RuntimeError.
Proof.
  unfold Fscore. destruct (same_shape4 y_pr y_gt); cbn [negb];
    [discriminate | now intros [= <-]].
Qed.

Lemma on_validation_epoch_end_output (vm tm : StatScores)
    (ds : list (Tensor4 Z * Tensor4 Q))
    (vso : list (Tensor4 Logit * Tensor4 Q)) :
  ds <> [] ->
  exists r tail,
    on_validation_epoch_end (mkState vm tm ds vso)
    = (r, mkState StatScores_zero tm [] [],
       (tracked "val" vm ds ++ tail)%list)
    /\ ((r = Ok tt
         /\ exists smp, tail = [("val_smp"%string, Fscore_value smp)])
        \/ (r = Raise RuntimeError /\ tail = [])).
Proof.
  intros Hds.
  unfold SegmentationModel.on_validation_epoch_end. run_hook.
  cbn [SegmentationModel.dice_score].
  rewrite (dice_score_compute_ok Hds). cbn.
  destruct (torch_cat (map fst vso)) as [logits|e] eqn:Hl.
  - destruct (torch_cat (map snd vso)) as [targets|e] eqn:Ht.
    + destruct (Fscore sigmoid logits targets) as [dsc|e] eqn:Hs.
      * eexists _, [_]. split; [reflexivity|]. left. split; [reflexivity|].
        now exists dsc.
      * apply Fscore_raises in Hs. subst e.
        eexists _, []. split; [reflexivity|]. now right.
    + apply torch_cat_raises in Ht. subst e.
      eexists _, []. split; [reflexivity|]. now right.
  - apply torch_cat_raises in Hl. subst e.
    eexists _, []. split; [reflexivity|]. now right.
Qed.

Lemma on_test_epoch_end_output (vm tm : StatScores)
    (ds : list (Tensor4 Z * Tensor4 Q))
    (vso : list (Tensor4 Logit * Tensor4 Q)) :
  ds <> [] ->
  exists r tail,
    on_test_epoch_end (mkState vm tm ds vso)
    = (r, mkState vm StatScores_zero [] [],
       (tracked "test" tm ds ++ tail)%list)
    /\ ((r = Ok tt
         /\ exists smp, tail = [("test_smp"%string, Fscore_value smp)])
        \/ (r = Raise RuntimeError /\ tail = [])).
Proof.
  intros Hds.
  unfold SegmentationModel.on_test_epoch_end. run_hook.
  cbn [SegmentationModel.dice_score].
  rewrite (dice_score_compute_ok Hds). cbn.
  destruct (torch_cat (map fst vso)) as [logits|e] eqn:Hl.
  - destruct (torch_cat (map snd vso)) as [targets|e] eqn:Ht.
    + destruct (Fscore sigmoid logits targets) as [dsc|e] eqn:Hs.
      * eexists _, [_]. split; [reflexivity|]. left. split; [reflexivity|].
        now exists dsc.
      * apply Fscore_raises in Hs. subst e.
        eexists _, []. split; [reflexivity|]. now right.
    + apply torch_cat_raises in Ht. subst e.
      eexists _, []. split; [reflexivity|]. now right.
  - apply torch_cat_raises in Hl. subst e.
    eexists _, []. split; [reflexivity|]. now right.
Qed.

(** Steps that all return have each added a pair to the Dice score. *)
Lemma validation_steps_dice (batches : list Batch) (batch_idx : Z)
    (self : State) :
  batches <> [] ->
  result_of (steps validation_step batches batch_idx self) = Ok tt ->
  dice_score (state_of (steps validation_step batches batch_idx self))
  <> [].
Proof.
  destruct batches as [|batch batches]; [contradiction|]. intros _.
  cbn [Lightning.steps]. unfold bind.
  destruct (validation_step batch batch_idx self) as [[r1 self1] out1]
    eqn:H1.
  destruct r1 as [[]|e]; [|discriminate].
  destruct (validation_step_inv _ _ _ H1)
    as (x & y & e & logits & lbl & ps & Hx & Hy & He & Hf & Hs & Hl & Hp).
  rewrite (validation_step_ok _ batch_idx self Hx Hy He Hf Hs Hl Hp) in H1.
  injection H1 as <- _.
  destruct (validation_steps_delta batches (batch_idx + 1))
    as (r & out & d & H).
  rewrite H. intros _. cbn. intros Heq.
  apply app_eq_nil in Heq. destruct Heq as [Heq _].
  apply app_eq_nil in Heq. destruct Heq as [_ Heq]. discriminate.
Qed.

Lemma test_steps_dice (batches : list Batch) (batch_idx : Z)
    (self : State) :
  batches <> [] ->
  result_of (steps test_step batches batch_idx self) = Ok tt ->
  dice_score (state_of (steps test_step batches batch_idx self)) <> [].
Proof.
  destruct batches as [|batch batches]; [contradiction|]. intros _.
  cbn [Lightning.steps]. unfold bind.
  destruct (test_step batch batch_idx self) as [[r1 self1] out1] eqn:H1.
  destruct r1 as [[]|e]; [|discriminate].
  destruct (test_step_inv _ _ _ H1)
    as (x & y & e & logits & lbl & ps & Hx & Hy & He & Hf & Hs & Hl & Hp).
  rewrite (test_step_ok _ batch_idx self Hx Hy He Hf Hs Hl Hp) in H1.
  injection H1 as <- _.
  destruct (test_steps_delta batches (batch_idx + 1)) as (r & out & d & H).
  rewrite H. intros _. cbn. intros Heq.
  apply app_eq_nil in Heq. destruct Heq as [Heq _].
  apply app_eq_nil in Heq. destruct Heq as [_ Heq]. discriminate.
Qed.

(** ** The label derived from the mask *)

Lemma sum_b2z_filter {A} (f : A -> bool) (row : list A) :
  sumZ (map Z.b2z (map f row)) = Z.of_nat (length (filter f row)).
Proof.
  induction row as [|a row IH]; [reflexivity|].
  cbn [map filter sumZ fold_right]. fold (sumZ (map Z.b2z (map f row))).
  rewrite IH. destruct (f a); cbn [Z.b2z length]; lia.
Qed.

Lemma sum_plane_filter {A} (f : A -> bool) (plane : list (list A)) :
  sumZ (map (fun row => sumZ (map Z.b2z row)) (map (map f) plane))
  = Z.of_nat (length (filter f (concat plane))).
Proof.
  induction plane as [|row plane IH]; [reflexivity|].
  cbn [map concat sumZ fold_right].
  fold (sumZ (map (fun row => sumZ (map Z.b2z row)) (map (map f) plane))).
  rewrite IH, sum_b2z_filter, filter_app, length_app. lia.
Qed.

(** The derived label of every channel of every sample is 1 when more than
    [pixel_treshold] of its pixels are foreground, else 0. *)
Lemma pred_label_of_spec (probs : Tensor4 Q) :
  pred_label_of probs
  = map (map (fun plane =>
                if pixel_treshold <? foreground_pixels plane then 1 else 0))
      probs.
Proof.
  unfold SegmentationModel.pred_label_of, map2, sum_2_3, gt_half, map4.
  rewrite !map_map. apply map_ext. intros sample.
  rewrite !map_map. apply map_ext. intros plane.
  rewrite sum_plane_filter. unfold SegmentationModel.foreground_pixels.
  now destruct (_ <? _).
Qed.

Lemma pred_label_of_binary (probs : Tensor4 Q) :
  forallb (fun z => (z =? 0) || (z =? 1)) (flatten2 (pred_label_of probs))
  = true.
Proof.
  rewrite pred_label_of_spec. unfold flatten2.
  induction probs as [|sample probs IH]; [reflexivity|].
  cbn [map concat]. rewrite forallb_app, IH, andb_true_r.
  induction sample as [|plane sample IHs]; [reflexivity|].
  cbn [map forallb]. rewrite IHs. now destruct (_ <? _).
Qed.

Lemma shape2_pred_label_of (logits : Tensor4 Logit) :
  shape2 (pred_label_of (map4 sigmoid logits)) = shape2 logits.
Proof.
  rewrite pred_label_of_spec.
  etransitivity; [apply (shape2_map2 _ (map4 sigmoid logits))|].
  apply shape2_map4.
Qed.

Lemma forallb_truncated (l : list Q) :
  forallb (fun q => Qeq_bool q 0 || Qeq_bool q 1)
    (map inject_Z (map to_int64 l))
  = forallb (fun q => (to_int64 q =? 0) || (to_int64 q =? 1)) l.
Proof.
  induction l as [|q l IH]; [reflexivity|].
  cbn [map forallb]. now rewrite binary_inject_Z, IH.
Qed.

Lemma flatten4_nonempty {A} (t : Tensor4 A) : flatten4 t <> [] -> t <> [].
Proof. now intros H ->. Qed.

(** The label of a batch of at least one sample is accepted when it has
    one entry per sample and channel of the logits and every entry,
    truncated, is 0 or 1. *)
Lemma label_accepted (logits : Tensor4 Logit) (lbl : Tensor2 Q) :
  logits <> [] ->
  is_ok
    (int_pairs (pred_label_of (map4 sigmoid logits))
       (map2 inject_Z (map2 to_int64 lbl)))
  = same_shape2 logits lbl
    && forallb (fun q => (to_int64 q =? 0) || (to_int64 q =? 1))
         (flatten2 lbl).
Proof.
  intros Hne.
  rewrite is_ok_int_pairs, pred_label_of_binary, andb_true_r
    by (destruct logits; [contradiction | discriminate]).
  unfold same_shape2. rewrite !shape2_map2, shape2_pred_label_of.
  f_equal. unfold flatten2, map2. rewrite <- !concat_map.
  apply forallb_truncated.
Qed.

(** The pairs the metric collection counts for a batch of at least one
    sample: the label derived from every channel of every sample, with the
    truncated label the batch gives for it. *)
Lemma int_pairs_derived (logits : Tensor4 Logit) (lbl : Tensor2 Q) :
  logits <> [] ->
  same_shape2 logits lbl = true ->
  forallb (fun q => (to_int64 q =? 0) || (to_int64 q =? 1)) (flatten2 lbl)
  = true ->
  int_pairs (pred_label_of (map4 sigmoid logits))
    (map2 inject_Z (map2 to_int64 lbl))
  = Ok (combine
          (map (fun plane => pixel_treshold <? foreground_pixels plane)
             (flatten2 (map4 sigmoid logits)))
          (map (fun q => to_int64 q =? 1) (flatten2 lbl))).
Proof.
  intros Hne Hshape Hlbl.
  pose proof (label_accepted lbl Hne) as Hok.
  rewrite Hshape, Hlbl in Hok.
  destruct (int_pairs _ _) as [ps|e] eqn:Hp; [|discriminate].
  f_equal. revert Hp. unfold int_pairs.
  destruct (same_shape2 (pred_label_of _) _); cbn [negb]; [|discriminate].
  rewrite (all_binary_inject_Z _ (pred_label_of_binary _)).
  replace (flatten2 (map2 inject_Z (map2 to_int64 lbl)))
    with (map inject_Z (map to_int64 (flatten2 lbl)))
    by (unfold flatten2, map2; now rewrite <- !concat_map).
  rewrite all_binary_inject_Z
    by (rewrite <- Hlbl; clear; induction (flatten2 lbl) as [|q l IH];
        [reflexivity | cbn [map forallb]; now rewrite IH]).
  destruct (reshape_rows _); cbn [rbind]; [|discriminate].
  intros [= <-]. f_equal.
  - rewrite pred_label_of_spec. unfold flatten2.
    rewrite <- concat_map, map_map. apply map_ext. intros plane.
    now destruct (_ <? _).
  - now rewrite map_map.
Qed.

(** C3.  The pixel threshold is 1000.  In [validation_step] and in
    [test_step] the label given to the metric collection for a channel of a
    sample is 1 exactly when the number of its pixels whose sigmoid
    probability is above 0.5 is above 1000: a mask of 1001 foreground
    pixels gives 1, a mask of 1000 gives 0.  On a batch that has its four
    keys, on which the network returns logits of at least one entry, whose
    mask has the shape of the logits and whose label has one entry of 0 or
    1 per sample and channel, both steps return, and what each has added
    to the statistics of its phase is, for every channel of every sample,
    the label so derived paired with the label of the batch.  And a step
    that returns, on whatever batch, has given the metric collection of
    its phase the label derived from the logits of the network. *)
Theorem threshold_derived_label :
  pixel_treshold = 1000
  /\ (forall probs,
        pred_label_of probs
        = map (map (fun plane =>
                      if 1000 <? foreground_pixels plane then 1 else 0))
            probs)
  /\ (forall plane,
        foreground_pixels plane = 1001 -> pred_label_of [[plane]] = [[1]])
  /\ (forall plane,
        foreground_pixels plane = 1000 -> pred_label_of [[plane]] = [[0]])
  /\ (forall batch batch_idx self x y e lbl logits,
        SegmentationModel.image batch = Some x ->
        SegmentationModel.mask batch = Some y ->
        SegmentationModel.embs batch = Some e ->
        SegmentationModel.label batch = Some lbl ->
        forward (x :: map snd e) = Ok logits ->
        flatten4 logits <> [] ->
        same_shape4 logits y = true ->
        same_shape2 logits lbl = true ->
        forallb (fun q => (to_int64 q =? 0) || (to_int64 q =? 1))
          (flatten2 lbl) = true ->
        let derived :=
          map (fun plane => 1000 <? foreground_pixels plane)
            (flatten2 (map4 sigmoid logits)) in
        let given := map (fun q => to_int64 q =? 1) (flatten2 lbl) in
        let val := validation_step batch batch_idx self in
        let test := test_step batch batch_idx self in
        result_of val = Ok tt
        /\ val_metrics (state_of val)
           = fold_left count (combine derived given) (val_metrics self)
        /\ result_of test = Ok tt
        /\ test_metrics (state_of test)
           = fold_left count (combine derived given) (test_metrics self))
  /\ (forall batch batch_idx self self' out,
        validation_step batch batch_idx self = (Ok tt, self', out) ->
        exists x e logits lbl,
          SegmentationModel.image batch = Some x
          /\ SegmentationModel.embs batch = Some e
          /\ forward (x :: map snd e) = Ok logits
          /\ SegmentationModel.label batch = Some lbl
          /\ update_int (val_metrics self)
               (pred_label_of (map4 sigmoid logits))
               (map2 inject_Z (map2 to_int64 lbl))
             = Ok (val_metrics self'))
  /\ (forall batch batch_idx self self' out,
        test_step batch batch_idx self = (Ok tt, self', out) ->
        exists x e logits lbl,
          SegmentationModel.image batch = Some x
          /\ SegmentationModel.embs batch = Some e
          /\ forward (x :: map snd e) = Ok logits
          /\ SegmentationModel.label batch = Some lbl
          /\ update_int (test_metrics self)
               (pred_label_of (map4 sigmoid logits))
               (map2 inject_Z (map2 to_int64 lbl))
             = Ok (test_metrics self')).
Proof.
  split; [reflexivity|].
  split; [exact pred_label_of_spec|].
  split; [intros plane H; rewrite pred_label_of_spec; cbn [map];
          now rewrite H|].
  split; [intros plane H; rewrite pred_label_of_spec; cbn [map];
          now rewrite H|].
  split; [|split].
  - intros batch batch_idx self x y e lbl logits Hx Hy He Hl Hf Hne Hs
      Hshape Hlbl derived given val test.
    pose proof (int_pairs_derived lbl (flatten4_nonempty Hne) Hshape Hlbl)
      as Hp.
    unfold val, test.
    rewrite (validation_step_ok _ batch_idx self Hx Hy He Hf Hs Hl Hp).
    rewrite (test_step_ok _ batch_idx self Hx Hy He Hf Hs Hl Hp).
    now repeat split.
  - intros batch batch_idx self self' out Hrun.
    destruct (validation_step_inv _ _ _ Hrun)
      as (x & y & e & logits & lbl & ps & Hx & Hy & He & Hf & Hs & Hl & Hp).
    rewrite (validation_step_ok _ batch_idx self Hx Hy He Hf Hs Hl Hp)
      in Hrun.
    injection Hrun as <- _.
    exists x, e, logits, lbl. repeat split; try assumption.
    unfold update_int. now rewrite Hp.
  - intros batch batch_idx self self' out Hrun.
    destruct (test_step_inv _ _ _ Hrun)
      as (x & y & e & logits & lbl & ps & Hx & Hy & He & Hf & Hs & Hl & Hp).
    rewrite (test_step_ok _ batch_idx self Hx Hy He Hf Hs Hl Hp) in Hrun.
    injection Hrun as <- _.
    exists x, e, logits, lbl. repeat split; try assumption.
    unfold update_int. now rewrite Hp.
Qed.

(** ** The validation cycle *)

(** C4.  From the idle state, running the validation epoch (the steps of a
    batch sequence, then [on_validation_epoch_end]) twice on the same
    batches gives the same result and sends the same values to the logger
    both times; whenever the steps all return, the state is idle again
    after each of the two epochs.  When the steps of at least one batch all
    return, the reduction is computed and logged: after the entries of the
    steps the epoch sends the Dice score, the five scalar metrics, the four
    cells of the confusion matrix and its figure, all computed from what
    the steps have accumulated, and then either returns, having sent
    [val_smp] last, or raises [RuntimeError] from the final recomputation.
    In whatever state in which the Dice score has been updated,
    [on_validation_epoch_end] leaves the metric statistics zeroed and the
    Dice statistic and the buffered list empty. *)
Theorem validation_cycle_twice (batches : list Batch) (self : State) :
  idle self ->
  let run := steps validation_step batches 0 self in
  let first := validation_epoch batches self in
  let second := validation_epoch batches (state_of first) in
  result_of first = result_of second
  /\ output_of first = output_of second
  /\ (result_of run = Ok tt ->
      idle (state_of first) /\ idle (state_of second))
  /\ (result_of run = Ok tt -> batches <> [] ->
      exists tail,
        output_of first
        = (output_of run
           ++ tracked "val" (val_metrics (state_of run))
                (dice_score (state_of run))
           ++ tail)%list
        /\ ((result_of first = Ok tt
             /\ exists smp, tail = [("val_smp"%string, Fscore_value smp)])
            \/ (result_of first = Raise RuntimeError /\ tail = [])))
  /\ (forall any : State,
        dice_score any <> [] ->
        let after := state_of (on_validation_epoch_end any) in
        val_metrics after = StatScores_zero
        /\ dice_score after = []
        /\ validation_step_outputs after = []).
Proof.
  intros Hidle.
  assert (Hreset : forall any : State,
            dice_score any <> [] ->
            let after := state_of (on_validation_epoch_end any) in
            val_metrics after = StatScores_zero
            /\ dice_score after = []
            /\ validation_step_outputs after = []).
  { intros [vm tm ds vso] Hds. cbn in Hds.
    destruct (on_validation_epoch_end_reset vm vso Hds) as (r & out & H).
    cbv zeta. rewrite H. cbn. now repeat split. }
  unfold SegmentationModel.idle in Hidle. subst self.
  destruct batches as [|batch batches'].
  { (* no batch: the Dice score has no update and the hook stops *)
    cbv zeta.
    split; [reflexivity|]. split; [reflexivity|].
    split; [intros _; split; reflexivity|].
    split; [intros _ Hne; now elim Hne | exact Hreset]. }
  set (batches := batch :: batches').
  assert (Hne : batches <> []) by discriminate.
  pose proof (@validation_steps_dice batches 0
                (mkState StatScores_zero StatScores_zero [] []) Hne)
    as Hdice.
  clearbody batches.
  destruct (validation_steps_delta batches 0) as (r & out & d & Hsteps).
  assert (Hepoch : forall self,
            validation_epoch batches self
            = match r with
              | Ok _ =>
                  match on_validation_epoch_end (accumulate_val d self) with
                  | (r', s', out') => (r', s', (out ++ out')%list)
                  end
              | Raise e => (Raise e, accumulate_val d self, out)
              end).
  { intros self. unfold SegmentationModel.validation_epoch, epoch, bind.
    rewrite Hsteps. now destruct r as [[]|e]. }
  cbv zeta. rewrite Hsteps in *. rewrite !Hepoch.
  destruct r as [[]|e].
  - (* the steps return and the reduction takes place *)
    set (acc := accumulate_val d
                  (mkState StatScores_zero StatScores_zero [] [])) in *.
    specialize (Hdice eq_refl). cbn [state_of fst snd] in Hdice.
    destruct (on_validation_epoch_end_output (val_metrics acc)
                StatScores_zero (validation_step_outputs acc) Hdice)
      as (r' & tail & Hend & Hcases).
    change (mkState (val_metrics acc) StatScores_zero (dice_score acc)
              (validation_step_outputs acc)) with acc in Hend.
    rewrite Hend. cbn [state_of fst snd]. fold acc. rewrite Hend.
    cbn [result_of state_of output_of fst snd].
    split; [reflexivity|]. split; [reflexivity|].
    split; [intros _; split; reflexivity|].
    split; [|exact Hreset].
    intros _ _. exists tail. split; [reflexivity | exact Hcases].
  - (* a step raises: no reduction, the same exception both times *)
    cbn [result_of state_of output_of fst snd].
    split; [reflexivity|]. split; [reflexivity|].
    split; [discriminate|]. split; [discriminate | exact Hreset].
Qed.

(** ** The epoch as a function of its batches *)

Lemma evaluate_Some (batch : Batch) logits y ps :
  evaluate batch = Some (logits, y, ps) ->
  exists x e lbl,
    SegmentationModel.image batch = Some x
    /\ SegmentationModel.mask batch = Some y
    /\ SegmentationModel.embs batch = Some e
    /\ forward (x :: map snd e) = Ok logits
    /\ same_shape4 logits y = true
    /\ SegmentationModel.label batch = Some lbl
    /\ int_pairs (pred_label_of (map4 sigmoid logits))
         (map2 inject_Z (map2 to_int64 lbl)) = Ok ps.
Proof.
  unfold SegmentationModel.evaluate.
  destruct (SegmentationModel.image batch) as [x|]; [|discriminate].
  destruct (SegmentationModel.mask batch) as [y'|]; [|discriminate].
  destruct (SegmentationModel.embs batch) as [e|]; [|discriminate].
  destruct (SegmentationModel.label batch) as [lbl|]; [|discriminate].
  destruct (forward (x :: map snd e)) as [logits'|err] eqn:Hf;
    [|discriminate].
  destruct (same_shape4 logits' y') eqn:Hs; [|discriminate].
  destruct (int_pairs _ _) as [ps'|err] eqn:Hp; [|discriminate].
  intros [= <- <- <-]. exists x, e, lbl.
  repeat split; first [reflexivity | assumption].
Qed.

Lemma validation_step_evaluate (batch : Batch) (batch_idx : Z)
    (self : State) logits y ps :
  evaluate batch = Some (logits, y, ps) ->
  validation_step batch batch_idx self
  = (Ok tt, accumulate_val (epoch_delta [(logits, y, ps)]) self,
     [("val_loss"%string, LossValue (loss_value logits y))]).
Proof.
  intros Hev. apply evaluate_Some in Hev.
  destruct Hev as (x & e & lbl & Hx & Hy & He & Hf & Hs & Hl & Hp).
  rewrite (validation_step_ok _ batch_idx self Hx Hy He Hf Hs Hl Hp).
  unfold SegmentationModel.epoch_delta. cbn. now rewrite app_nil_r.
Qed.

Lemma epoch_delta_cons ev evs :
  epoch_delta (ev :: evs)
  = SegmentationModel.delta_app (epoch_delta [ev]) (epoch_delta evs).
Proof.
  unfold SegmentationModel.epoch_delta, SegmentationModel.delta_app. cbn.
  now rewrite app_nil_r.
Qed.

(** When every batch evaluates, the steps all return and leave in the
    accumulators what the batches contribute, in order. *)
Lemma validation_steps_evaluate (batches : list Batch) (batch_idx : Z)
    (self : State) evs :
  evaluate_all batches = Some evs ->
  steps validation_step batches batch_idx self
  = (Ok tt, accumulate_val (epoch_delta evs) self,
     map (fun ev =>
            ("val_loss"%string,
             LossValue (loss_value (fst (fst ev)) (snd (fst ev))))) evs).
Proof.
  revert batch_idx self evs.
  induction batches as [|batch batches IH]; intros batch_idx self evs.
  - intros [= <-]. cbn. now rewrite accumulate_val_no_delta.
  - cbn [SegmentationModel.evaluate_all].
    destruct (evaluate batch) as [[[logits y] ps]|] eqn:Hev;
      [|discriminate].
    destruct (evaluate_all batches) as [evs'|] eqn:Hall; [|discriminate].
    intros [= <-]. cbn [Lightning.steps]. unfold bind.
    rewrite (validation_step_evaluate _ batch_idx self Hev).
    rewrite (IH (batch_idx + 1) _ evs' eq_refl).
    now rewrite accumulate_val_app, <- epoch_delta_cons.
Qed.

(** The reduction when the final recomputation returns. *)
Lemma on_validation_epoch_end_ok (vm tm : StatScores)
    (ds : list (Tensor4 Z * Tensor4 Q))
    (vso : list (Tensor4 Logit * Tensor4 Q)) logits targets smp :
  ds <> [] ->
  torch_cat (map fst vso) = Ok logits ->
  torch_cat (map snd vso) = Ok targets ->
  Fscore sigmoid logits targets = Ok smp ->
  on_validation_epoch_end (mkState vm tm ds vso)
  = (Ok tt, mkState StatScores_zero tm [] [], reduction "val" vm ds smp).
Proof.
  intros Hds Hl Ht Hs.
  unfold SegmentationModel.on_validation_epoch_end. run_hook.
  cbn [SegmentationModel.dice_score].
  rewrite (dice_score_compute_ok Hds). cbn.
  now rewrite Hl, Ht, Hs.
Qed.

(** With a Dice score that has had no update, the hook raises before it
    has logged anything and before it has emptied the buffer. *)
Lemma on_validation_epoch_end_empty (self : State) :
  dice_score self = [] ->
  on_validation_epoch_end self
  = (Raise ValueError,
     mkState StatScores_zero (test_metrics self) []
       (validation_step_outputs self), []).
Proof. destruct self as [vm tm ds vso]. cbn. now intros ->. Qed.

Lemma on_test_epoch_end_empty (self : State) :
  dice_score self = [] ->
  on_test_epoch_end self
  = (Raise ValueError,
     mkState (val_metrics self) StatScores_zero []
       (validation_step_outputs self), []).
Proof. destruct self as [vm tm ds vso]. cbn. now intros ->. Qed.

(** C7, amended.  When every step of a validation epoch returns and the
    final recomputation succeeds, the epoch started idle ends idle and logs,
    after the losses of the steps, the reduction of the epoch: its
    [val_smp] is smp's F-score over the concatenation, in batch order, of
    the logits and masks of the batches, pixel by pixel, and its [val_f1]
    is [2 TP / (2 TP + FN + FP)] over the labels thresholded from the masks
    of the same batches, sample by sample. *)
Theorem epoch_cross_check (batches : list Batch) (self : State)
    evs logits targets smp :
  idle self ->
  evaluate_all batches = Some evs ->
  torch_cat (map (fun ev => fst (fst ev)) evs) = Ok logits ->
  torch_cat (map (fun ev => snd (fst ev)) evs) = Ok targets ->
  Fscore sigmoid logits targets = Ok smp ->
  let counts := fold_left count (concat (map snd evs)) StatScores_zero in
  let reduced :=
    reduction "val" counts (SegmentationModel.dice_pairs (epoch_delta evs))
      smp in
  validation_epoch batches self
  = (Ok tt, self,
     (map (fun ev =>
             ("val_loss"%string,
              LossValue (loss_value (fst (fst ev)) (snd (fst ev))))) evs
      ++ reduced)%list)
  /\ getitem "val_smp" reduced = Ok (Fscore_value smp)
  /\ getitem "val_f1" reduced
     = Ok (Metric
             (Scalar
                (safe_divide (2 * tp counts)
                   (2 * tp counts + fn counts + fp counts)))).
Proof.
  intros Hidle Hall Hl Ht Hs counts reduced.
  unfold SegmentationModel.idle in Hidle. subst self.
  split; [|split; reflexivity].
  unfold SegmentationModel.validation_epoch, epoch, bind.
  rewrite (validation_steps_evaluate _ 0 _ Hall).
  unfold SegmentationModel.accumulate_val, SegmentationModel.epoch_delta.
  cbn [SegmentationModel.val_metrics SegmentationModel.test_metrics
       SegmentationModel.dice_score
       SegmentationModel.validation_step_outputs
       SegmentationModel.counted SegmentationModel.dice_pairs
       SegmentationModel.buffered app].
  rewrite (@on_validation_epoch_end_ok _ _ _ _ logits targets smp);
    [reflexivity | | now rewrite map_map | now rewrite map_map | exact Hs].
  destruct evs; [discriminate Hl | discriminate].
Qed.

(** ** Which hook touches which accumulator *)

Lemma validation_step_frame (batch : Batch) (batch_idx : Z)
    (self other : State) :
  test_metrics (state_of (validation_step batch batch_idx self))
  = test_metrics self
  /\ result_of (validation_step batch batch_idx self)
     = result_of (validation_step batch batch_idx other)
  /\ output_of (validation_step batch batch_idx self)
     = output_of (validation_step batch batch_idx other).
Proof.
  destruct (validation_step_delta batch batch_idx) as (r & out & d & H).
  rewrite !H. now repeat split.
Qed.

Lemma test_step_frame (batch : Batch) (batch_idx : Z)
    (self other : State) :
  val_metrics (state_of (test_step batch batch_idx self))
  = val_metrics self
  /\ result_of (test_step batch batch_idx self)
     = result_of (test_step batch batch_idx other)
  /\ output_of (test_step batch batch_idx self)
     = output_of (test_step batch batch_idx other).
Proof.
  destruct (test_step_delta batch batch_idx) as (r & out & d & H).
  rewrite !H. now repeat split.
Qed.

(** What an epoch-end hook leaves: the statistics of its phase zeroed,
    those of the other phase as they were, the Dice statistic empty, and
    the buffer empty unless the Dice score had no update, in which case the
    hook has raised before it came to the buffer. *)
Lemma on_validation_epoch_end_frame (vm tm tm' : StatScores)
    (ds : list (Tensor4 Z * Tensor4 Q))
    (vso : list (Tensor4 Logit * Tensor4 Q)) :
  state_of (on_validation_epoch_end (mkState vm tm ds vso))
  = mkState StatScores_zero tm []
      match ds with [] => vso | _ :: _ => [] end
  /\ result_of (on_validation_epoch_end (mkState vm tm ds vso))
     = result_of (on_validation_epoch_end (mkState vm tm' ds vso))
  /\ output_of (on_validation_epoch_end (mkState vm tm ds vso))
     = output_of (on_validation_epoch_end (mkState vm tm' ds vso)).
Proof.
  destruct ds as [|p ds];
    [now rewrite !on_validation_epoch_end_no_update|].
  destruct (@on_validation_epoch_end_reset vm (p :: ds) vso)
    as (r & out & H); [discriminate|].
  rewrite !H. now repeat split.
Qed.

Lemma on_test_epoch_end_frame (vm vm' tm : StatScores)
    (ds : list (Tensor4 Z * Tensor4 Q))
    (vso : list (Tensor4 Logit * Tensor4 Q)) :
  state_of (on_test_epoch_end (mkState vm tm ds vso))
  = mkState vm StatScores_zero []
      match ds with [] => vso | _ :: _ => [] end
  /\ result_of (on_test_epoch_end (mkState vm tm ds vso))
     = result_of (on_test_epoch_end (mkState vm' tm ds vso))
  /\ output_of (on_test_epoch_end (mkState vm tm ds vso))
     = output_of (on_test_epoch_end (mkState vm' tm ds vso)).
Proof.
  destruct ds as [|p ds]; [now rewrite !on_test_epoch_end_no_update|].
  destruct (@on_test_epoch_end_reset tm (p :: ds) vso) as (r & out & H);
    [discriminate|].
  rewrite !H. now repeat split.
Qed.

(** A step of either evaluation phase that returns has added one pair to
    the Dice score and one to the buffer. *)
Lemma validation_step_appends (batch : Batch) (batch_idx : Z)
    (self : State) :
  result_of (validation_step batch batch_idx self) = Ok tt ->
  exists p1 p2,
    dice_score (state_of (validation_step batch batch_idx self))
    = (dice_score self ++ [p1])%list
    /\ validation_step_outputs
         (state_of (validation_step batch batch_idx self))
       = (validation_step_outputs self ++ [p2])%list.
Proof.
  intros Hr.
  destruct (validation_step batch batch_idx self) as [[r self'] out] eqn:Hrun.
  cbn in Hr. subst r.
  destruct (validation_step_inv _ _ _ Hrun)
    as (x & y & e & logits & lbl & ps & Hx & Hy & He & Hf & Hs & Hl & Hp).
  rewrite (validation_step_ok _ batch_idx self Hx Hy He Hf Hs Hl Hp)
    in Hrun.
  injection Hrun as <- _. cbn. eexists _, _. split; reflexivity.
Qed.

Lemma test_step_appends (batch : Batch) (batch_idx : Z) (self : State) :
  result_of (test_step batch batch_idx self) = Ok tt ->
  exists p1 p2,
    dice_score (state_of (test_step batch batch_idx self))
    = (dice_score self ++ [p1])%list
    /\ validation_step_outputs (state_of (test_step batch batch_idx self))
       = (validation_step_outputs self ++ [p2])%list.
Proof.
  intros Hr.
  destruct (test_step batch batch_idx self) as [[r self'] out] eqn:Hrun.
  cbn in Hr. subst r.
  destruct (test_step_inv _ _ _ Hrun)
    as (x & y & e & logits & lbl & ps & Hx & Hy & He & Hf & Hs & Hl & Hp).
  rewrite (test_step_ok _ batch_idx self Hx Hy He Hf Hs Hl Hp) in Hrun.
  injection Hrun as <- _. cbn. eexists _, _. split; reflexivity.
Qed.

(** C6, amended.  [val_metrics] is written by the validation hooks only
    and [test_metrics] by the test hooks only, and neither phase reads the
    other's: a step's result and output do not depend on the state at all,
    an epoch-end hook's do not depend on the other phase's statistics.  The
    training step leaves the state as it is.  The Dice statistic and the
    buffered list are one object each, shared by the validation and the
    test phase: a returning step of either phase appends one pair to both,
    and the epoch-end hook of either phase, which zeroes the statistics of
    its own phase and keeps those of the other, leaves the Dice statistic
    empty, and the buffered list too unless the Dice score had no update:
    it has then raised before it came to the list, which is as it was. *)
Theorem accumulators_by_phase :
  (forall batch batch_idx self other,
     test_metrics (state_of (validation_step batch batch_idx self))
     = test_metrics self
     /\ result_of (validation_step batch batch_idx self)
        = result_of (validation_step batch batch_idx other)
     /\ output_of (validation_step batch batch_idx self)
        = output_of (validation_step batch batch_idx other))
  /\ (forall batch batch_idx self other,
        val_metrics (state_of (test_step batch batch_idx self))
        = val_metrics self
        /\ result_of (test_step batch batch_idx self)
           = result_of (test_step batch batch_idx other)
        /\ output_of (test_step batch batch_idx self)
           = output_of (test_step batch batch_idx other))
  /\ (forall vm tm tm' ds vso,
        state_of (on_validation_epoch_end (mkState vm tm ds vso))
        = mkState StatScores_zero tm []
            match ds with [] => vso | _ :: _ => [] end
        /\ result_of (on_validation_epoch_end (mkState vm tm ds vso))
           = result_of (on_validation_epoch_end (mkState vm tm' ds vso))
        /\ output_of (on_validation_epoch_end (mkState vm tm ds vso))
           = output_of (on_validation_epoch_end (mkState vm tm' ds vso)))
  /\ (forall vm vm' tm ds vso,
        state_of (on_test_epoch_end (mkState vm tm ds vso))
        = mkState vm StatScores_zero []
            match ds with [] => vso | _ :: _ => [] end
        /\ result_of (on_test_epoch_end (mkState vm tm ds vso))
           = result_of (on_test_epoch_end (mkState vm' tm ds vso))
        /\ output_of (on_test_epoch_end (mkState vm tm ds vso))
           = output_of (on_test_epoch_end (mkState vm' tm ds vso)))
  /\ (forall batch batch_idx self,
        state_of (training_step batch batch_idx self) = self)
  /\ (forall batch batch_idx self,
        result_of (validation_step batch batch_idx self) = Ok tt ->
        exists p1 p2,
          dice_score (state_of (validation_step batch batch_idx self))
          = (dice_score self ++ [p1])%list
          /\ validation_step_outputs
               (state_of (validation_step batch batch_idx self))
             = (validation_step_outputs self ++ [p2])%list)
  /\ (forall batch batch_idx self,
        result_of (test_step batch batch_idx self) = Ok tt ->
        exists p1 p2,
          dice_score (state_of (test_step batch batch_idx self))
          = (dice_score self ++ [p1])%list
          /\ validation_step_outputs
               (state_of (test_step batch batch_idx self))
             = (validation_step_outputs self ++ [p2])%list).
Proof.
  split; [exact validation_step_frame|].
  split; [exact test_step_frame|].
  split; [exact on_validation_epoch_end_frame|].
  split; [exact on_test_epoch_end_frame|].
  split; [exact training_step_state|].
  split; [exact validation_step_appends | exact test_step_appends].
Qed.

(** What the training step returns is the loss of the logits of its
    batch. *)
Lemma training_step_returns (batch : Batch) (batch_idx : Z) (self : State)
    loss :
  result_of (training_step batch batch_idx self) = Ok loss ->
  exists x y logits,
    SegmentationModel.image batch = Some x
    /\ SegmentationModel.mask batch = Some y
    /\ SegmentationModel.loss_fn loss_value logits y = Ok loss.
Proof.
  unfold SegmentationModel.training_step, result_of. run_hook.
  destruct (SegmentationModel.image batch) as [x|]; [|discriminate].
  destruct (SegmentationModel.mask batch) as [y|]; [|discriminate].
  destruct (SegmentationModel.embs batch) as [e|]; [|discriminate].
  repeat (destruct (getitem _ e); [|discriminate]).
  destruct (forward _) as [logits|]; [|discriminate].
  destruct (SegmentationModel.loss_fn loss_value logits y) as [l|] eqn:Hloss;
    [|discriminate].
  destruct (Fscore sigmoid logits y); [|discriminate].
  cbn. intros [= <-]. exists x, y, logits. now repeat split.
Qed.

(** ** What a failed step leaves behind *)

Lemma validation_step_raises (batch : Batch) (batch_idx : Z) (self : State)
    (e : exn) :
  result_of (validation_step batch batch_idx self) = Raise e ->
  state_of (validation_step batch batch_idx self) = self.
Proof.
  unfold SegmentationModel.validation_step,
    SegmentationModel.val_metrics_update,
    SegmentationModel.dice_score_update,
    SegmentationModel.validation_step_outputs_append,
    SegmentationModel.loss_fn, update_int, result_of, state_of.
  run_hook.
  destruct (SegmentationModel.image batch) as [x|]; [|reflexivity].
  destruct (SegmentationModel.mask batch) as [y|]; [|reflexivity].
  destruct (SegmentationModel.embs batch) as [em|]; [|reflexivity].
  destruct (forward (x :: map snd em)) as [logits|err]; [|reflexivity].
  destruct (same_shape4 logits y) eqn:Hshape; [|reflexivity].
  destruct (SegmentationModel.label batch) as [lbl|]; [|reflexivity].
  destruct (int_pairs _ _) as [ps|err]; [|reflexivity].
  rewrite same_shape4_pred_mask, Hshape. cbn. discriminate.
Qed.

Lemma test_step_raises (batch : Batch) (batch_idx : Z) (self : State)
    (e : exn) :
  result_of (test_step batch batch_idx self) = Raise e ->
  state_of (test_step batch batch_idx self) = self.
Proof.
  unfold SegmentationModel.test_step,
    SegmentationModel.test_metrics_update,
    SegmentationModel.dice_score_update,
    SegmentationModel.validation_step_outputs_append,
    SegmentationModel.loss_fn, update_int, result_of, state_of.
  run_hook.
  destruct (SegmentationModel.image batch) as [x|]; [|reflexivity].
  destruct (SegmentationModel.embs batch) as [em|]; [|reflexivity].
  destruct (SegmentationModel.mask batch) as [y|]; [|reflexivity].
  destruct (forward (x :: map snd em)) as [logits|err]; [|reflexivity].
  destruct (same_shape4 logits y) eqn:Hshape; [|reflexivity].
  destruct (SegmentationModel.label batch) as [lbl|]; [|reflexivity].
  destruct (int_pairs _ _) as [ps|err]; [|reflexivity].
  rewrite same_shape4_pred_mask, Hshape. cbn. discriminate.
Qed.

(** X8.  An evaluation step is all or nothing: a [validation_step] or
    [test_step] that raises, whatever the exception, leaves every attribute
    of [self] as it found it.  The only update that comes after another
    one, that of the Dice score, cannot fail once the loss has accepted the
    shapes. *)
Theorem failed_step_adds_nothing (batch : Batch) (batch_idx : Z)
    (self : State) (e : exn) :
  (result_of (validation_step batch batch_idx self) = Raise e ->
   state_of (validation_step batch batch_idx self) = self)
  /\ (result_of (test_step batch batch_idx self) = Raise e ->
      state_of (test_step batch batch_idx self) = self).
Proof.
  split; [apply validation_step_raises | apply test_step_raises].
Qed.

(** ** Batches that lack a key *)

(** X9.  [validation_step] reads [batch["image"]], [batch["mask"]] and
    [batch["embs"]] in this order and [test_step] reads [batch["image"]],
    [batch["embs"]] and [batch["mask"]]: the first of them that is missing
    raises [KeyError] with its name before anything is logged.  Both read
    [batch["label"]] only after the network has run and the loss has been
    logged: a batch without a label raises [KeyError] after the loss
    entry.  In every case [self] is left as it was. *)
Theorem evaluation_step_missing_key (batch : Batch) (batch_idx : Z)
    (self : State) :
  (SegmentationModel.image batch = None ->
   validation_step batch batch_idx self
   = (Raise (KeyError "image"), self, [])
   /\ test_step batch batch_idx self = (Raise (KeyError "image"), self, []))
  /\ (SegmentationModel.image batch <> None ->
      SegmentationModel.mask batch = None ->
      validation_step batch batch_idx self
      = (Raise (KeyError "mask"), self, []))
  /\ (SegmentationModel.image batch <> None ->
      SegmentationModel.embs batch = None ->
      test_step batch batch_idx self = (Raise (KeyError "embs"), self, []))
  /\ (SegmentationModel.image batch <> None ->
      SegmentationModel.mask batch <> None ->
      SegmentationModel.embs batch = None ->
      validation_step batch batch_idx self
      = (Raise (KeyError "embs"), self, []))
  /\ (SegmentationModel.image batch <> None ->
      SegmentationModel.embs batch <> None ->
      SegmentationModel.mask batch = None ->
      test_step batch batch_idx self = (Raise (KeyError "mask"), self, []))
  /\ (forall x y em logits,
        SegmentationModel.image batch = Some x ->
        SegmentationModel.mask batch = Some y ->
        SegmentationModel.embs batch = Some em ->
        forward (x :: map snd em) = Ok logits ->
        same_shape4 logits y = true ->
        SegmentationModel.label batch = None ->
        validation_step batch batch_idx self
        = (Raise (KeyError "label"), self,
           [("val_loss"%string, LossValue (loss_value logits y))])
        /\ test_step batch batch_idx self
           = (Raise (KeyError "label"), self,
              [("test_loss"%string, LossValue (loss_value logits y))])).
Proof.
  unfold SegmentationModel.validation_step, SegmentationModel.test_step,
    SegmentationModel.loss_fn.
  run_hook.
  destruct (SegmentationModel.image batch) as [x|],
    (SegmentationModel.mask batch) as [y|],
    (SegmentationModel.embs batch) as [em|];
    (split; [|split; [|split; [|split; [|split]]]]);
    try (intros; split; reflexivity); try (intros; reflexivity);
    try (intros; congruence);
    intros x' y' em' logits [= <-] [= <-] [= <-] Hf Hs Hl;
    rewrite Hf, Hs, Hl; split; reflexivity.
Qed.

(** ** Construction *)

(** X10.  [SegmentationModel.__init__] asserts that no encoder is given: with
    an encoder it raises [AssertionError]; a model that was constructed has
    none, starts with all accumulators empty, and its [forward] is its
    decoder, so that the branch of [forward] that runs an encoder is never
    taken. *)
Theorem init_requires_no_encoder :
  (encoder <> None ->
   SegmentationModel.init Logit encoder = Raise AssertionError)
  /\ (forall self,
        SegmentationModel.init Logit encoder = Ok self ->
        encoder = None /\ idle self /\ forall x, forward x = model x).
Proof.
  unfold SegmentationModel.init, SegmentationModel.forward,
    SegmentationModel.idle.
  destruct encoder as [enc|]; split.
  - reflexivity.
  - discriminate.
  - congruence.
  - intros self [= <-]. now repeat split.
Qed.

(** ** How the steps read [batch["embs"]] *)

Local Abbreviation mkBatch := (@SegmentationModel.mkBatch Input).

(** X11.  [training_step] looks the embeddings up by name, [validation_step]
    and [test_step] take them in the order of the dict.  So two batches
    whose [embs] agree on the keys "z3", "z6", "z9" and "z12" give the same
    training step, whatever the order of their entries, their other keys
    and their label, and the first of the four keys that is missing raises
    [KeyError] with its name before anything is logged; whereas two batches
    whose [embs] hold the same values in the same order give the same
    validation step and the same test step, whatever their keys. *)
Theorem embs_by_key_or_by_order (batch_idx : Z) (self : State) :
  (forall x y em em' lbl lbl',
     (forall key, In key ["z3"; "z6"; "z9"; "z12"]%string ->
                  getitem key em = getitem key em') ->
     training_step (mkBatch x y (Some em) lbl) batch_idx self
     = training_step (mkBatch x y (Some em') lbl') batch_idx self)
  /\ (forall x y em lbl,
        let keys := map fst em in
        let run :=
          training_step (mkBatch (Some x) (Some y) (Some em) lbl) batch_idx
            self in
        (~ In "z3"%string keys -> run = (Raise (KeyError "z3"), self, []))
        /\ (In "z3"%string keys -> ~ In "z6"%string keys ->
            run = (Raise (KeyError "z6"), self, []))
        /\ (In "z3"%string keys -> In "z6"%string keys ->
            ~ In "z9"%string keys ->
            run = (Raise (KeyError "z9"), self, []))
        /\ (In "z3"%string keys -> In "z6"%string keys ->
            In "z9"%string keys -> ~ In "z12"%string keys ->
            run = (Raise (KeyError "z12"), self, [])))
  /\ (forall x y em em' lbl,
        map snd em = map snd em' ->
        validation_step (mkBatch x y (Some em) lbl) batch_idx self
        = validation_step (mkBatch x y (Some em') lbl) batch_idx self
        /\ test_step (mkBatch x y (Some em) lbl) batch_idx self
           = test_step (mkBatch x y (Some em') lbl) batch_idx self).
Proof.
  split; [|split].
  - intros x y em em' lbl lbl' Hkeys.
    unfold SegmentationModel.training_step. run_hook.
    cbn [SegmentationModel.image SegmentationModel.mask
         SegmentationModel.embs].
    rewrite <- !Hkeys by (cbn; tauto). reflexivity.
  - intros x y em lbl keys run. unfold run, keys.
    unfold SegmentationModel.training_step. run_hook.
    cbn [SegmentationModel.image SegmentationModel.mask
         SegmentationModel.embs].
    split; [|split; [|split]].
    + intros H3. now rewrite (getitem_missing _ _ H3).
    + intros H3 H6. destruct (getitem_present _ _ H3) as [v3 ->].
      now rewrite (getitem_missing _ _ H6).
    + intros H3 H6 H9. destruct (getitem_present _ _ H3) as [v3 ->].
      destruct (getitem_present _ _ H6) as [v6 ->].
      now rewrite (getitem_missing _ _ H9).
    + intros H3 H6 H9 H12. destruct (getitem_present _ _ H3) as [v3 ->].
      destruct (getitem_present _ _ H6) as [v6 ->].
      destruct (getitem_present _ _ H9) as [v9 ->].
      now rewrite (getitem_missing _ _ H12).
  - intros x y em em' lbl Hvalues.
    unfold SegmentationModel.validation_step, SegmentationModel.test_step.
    run_hook.
    cbn [SegmentationModel.image SegmentationModel.mask
         SegmentationModel.embs SegmentationModel.label].
    rewrite Hvalues. split; reflexivity.
Qed.

(** ** The test cycle *)

(** X12.  The test phase is as repeatable as the validation phase: from the
    idle state, running the test epoch (the steps of a batch sequence, then
    [on_test_epoch_end]) twice on the same batches gives the same result
    and sends the same values to the logger both times; whenever the steps
    all return, the state is idle again after each of the two epochs.
    In whatever state in which the Dice score has been updated,
    [on_test_epoch_end] leaves the test statistics zeroed, the Dice
    statistic and the buffered list empty, and the validation statistics as
    they were. *)
Theorem test_cycle_twice (batches : list Batch) (self : State) :
  idle self ->
  let first := test_epoch batches self in
  let second := test_epoch batches (state_of first) in
  result_of first = result_of second
  /\ output_of first = output_of second
  /\ (result_of (steps test_step batches 0 self) = Ok tt ->
      idle (state_of first) /\ idle (state_of second))
  /\ (forall any : State,
        dice_score any <> [] ->
        let after := state_of (on_test_epoch_end any) in
        test_metrics after = StatScores_zero
        /\ dice_score after = []
        /\ validation_step_outputs after = []
        /\ val_metrics after = val_metrics any).
Proof.
  intros Hidle.
  assert (Hreset : forall any : State,
            dice_score any <> [] ->
            let after := state_of (on_test_epoch_end any) in
            test_metrics after = StatScores_zero
            /\ dice_score after = []
            /\ validation_step_outputs after = []
            /\ val_metrics after = val_metrics any).
  { intros [vm tm ds vso] Hds. cbn in Hds.
    destruct (on_test_epoch_end_reset tm vso Hds) as (r & out & H).
    cbv zeta. rewrite H. cbn. now repeat split. }
  unfold SegmentationModel.idle in Hidle. subst self.
  destruct batches as [|batch batches'].
  { (* no batch: the Dice score has no update and the hook stops *)
    cbv zeta.
    split; [reflexivity|]. split; [reflexivity|].
    split; [intros _; split; reflexivity | exact Hreset]. }
  set (batches := batch :: batches').
  assert (Hne : batches <> []) by discriminate.
  pose proof (@test_steps_dice batches 0
                (mkState StatScores_zero StatScores_zero [] []) Hne)
    as Hdice.
  clearbody batches.
  destruct (test_steps_delta batches 0) as (r & out & d & Hsteps).
  assert (Hepoch : forall self,
            test_epoch batches self
            = match r with
              | Ok _ =>
                  match on_test_epoch_end (accumulate_test d self) with
                  | (r', s', out') => (r', s', (out ++ out')%list)
                  end
              | Raise e => (Raise e, accumulate_test d self, out)
              end).
  { intros self. unfold SegmentationModel.test_epoch, epoch, bind.
    rewrite Hsteps. now destruct r as [[]|e]. }
  cbv zeta. rewrite Hsteps in *. rewrite !Hepoch.
  destruct r as [[]|e].
  - set (acc := accumulate_test d
                  (mkState StatScores_zero StatScores_zero [] [])) in *.
    specialize (Hdice eq_refl). cbn [state_of fst snd] in Hdice.
    destruct (on_test_epoch_end_reset (test_metrics acc)
                (validation_step_outputs acc) Hdice)
      as (r' & out' & Hend).
    specialize (Hend StatScores_zero).
    change (mkState StatScores_zero (test_metrics acc) (dice_score acc)
              (validation_step_outputs acc)) with acc in Hend.
    rewrite Hend. cbn [state_of fst snd]. fold acc. rewrite Hend.
    cbn [result_of state_of output_of fst snd].
    split; [reflexivity|]. split; [reflexivity|].
    split; [intros _; split; reflexivity | exact Hreset].
  - cbn [result_of state_of output_of fst snd].
    split; [reflexivity|]. split; [reflexivity|].
    split; [discriminate | exact Hreset].
Qed.

(** ** What the epoch-end hooks log, and when they raise *)

(** X13.  The epoch-end hooks log before they recompute.  In every state
    in which the Dice score has been updated, [on_validation_epoch_end]
    first sends the Dice score, the five scalar metrics, the four cells of
    the confusion matrix and its figure, computed from the statistics it
    found, and only then concatenates the buffered tensors: it either
    returns, having sent [val_smp] last, or raises, and then what it raises
    is [RuntimeError] and everything but [val_smp] has been sent.
    [on_test_epoch_end] does the same with the test statistics and
    [test_smp]. *)
Theorem epoch_end_logs_then_recomputes (self : State) :
  dice_score self <> [] ->
  let val := on_validation_epoch_end self in
  let test := on_test_epoch_end self in
  let val_tracked := tracked "val" (val_metrics self) (dice_score self) in
  let test_tracked := tracked "test" (test_metrics self) (dice_score self) in
  (firstn 11 (output_of val) = val_tracked
   /\ (result_of val = Ok tt ->
       exists smp,
         output_of val
         = reduction "val" (val_metrics self) (dice_score self) smp)
   /\ (forall e, result_of val = Raise e ->
         e = RuntimeError /\ output_of val = val_tracked))
  /\ (firstn 11 (output_of test) = test_tracked
      /\ (result_of test = Ok tt ->
          exists smp,
            output_of test
            = reduction "test" (test_metrics self) (dice_score self) smp)
      /\ (forall e, result_of test = Raise e ->
            e = RuntimeError /\ output_of test = test_tracked)).
Proof.
  intros Hds. destruct self as [vm tm ds vso]. cbv zeta.
  cbn [SegmentationModel.val_metrics SegmentationModel.test_metrics
       SegmentationModel.dice_score] in *.
  split.
  - destruct (on_validation_epoch_end_output vm tm vso Hds)
      as (r & tail & Hrun & Hcases).
    rewrite Hrun. cbn [result_of state_of output_of fst snd].
    destruct Hcases as [[-> [smp ->]] | [-> ->]].
    + split; [reflexivity|]. split; [|discriminate].
      intros _. now exists smp.
    + rewrite app_nil_r. split; [reflexivity|]. split; [discriminate|].
      now intros e [= <-].
  - destruct (on_test_epoch_end_output vm tm vso Hds)
      as (r & tail & Hrun & Hcases).
    rewrite Hrun. cbn [result_of state_of output_of fst snd].
    destruct Hcases as [[-> [smp ->]] | [-> ->]].
    + split; [reflexivity|]. split; [|discriminate].
      intros _. now exists smp.
    + rewrite app_nil_r. split; [reflexivity|]. split; [discriminate|].
      now intros e [= <-].
Qed.

(** ** What a phase of returning steps leaves in the accumulators *)

Lemma test_step_evaluate (batch : Batch) (batch_idx : Z)
    (self : State) logits y ps :
  evaluate batch = Some (logits, y, ps) ->
  test_step batch batch_idx self
  = (Ok tt, accumulate_test (epoch_delta [(logits, y, ps)]) self,
     [("test_loss"%string, LossValue (loss_value logits y))]).
Proof.
  intros Hev. apply evaluate_Some in Hev.
  destruct Hev as (x & e & lbl & Hx & Hy & He & Hf & Hs & Hl & Hp).
  rewrite (test_step_ok _ batch_idx self Hx Hy He Hf Hs Hl Hp).
  unfold SegmentationModel.epoch_delta. cbn. now rewrite app_nil_r.
Qed.

Lemma test_steps_evaluate (batches : list Batch) (batch_idx : Z)
    (self : State) evs :
  evaluate_all batches = Some evs ->
  steps test_step batches batch_idx self
  = (Ok tt, accumulate_test (epoch_delta evs) self,
     map (fun ev =>
            ("test_loss"%string,
             LossValue (loss_value (fst (fst ev)) (snd (fst ev))))) evs).
Proof.
  revert batch_idx self evs.
  induction batches as [|batch batches IH]; intros batch_idx self evs.
  - intros [= <-]. cbn. now rewrite accumulate_test_no_delta.
  - cbn [SegmentationModel.evaluate_all].
    destruct (evaluate batch) as [[[logits y] ps]|] eqn:Hev;
      [|discriminate].
    destruct (evaluate_all batches) as [evs'|] eqn:Hall; [|discriminate].
    intros [= <-]. cbn [Lightning.steps]. unfold bind.
    rewrite (test_step_evaluate _ batch_idx self Hev).
    rewrite (IH (batch_idx + 1) _ evs' eq_refl).
    now rewrite accumulate_test_app, <- epoch_delta_cons.
Qed.

Lemma length_evaluate_all (batches : list Batch) evs :
  evaluate_all batches = Some evs -> length evs = length batches.
Proof.
  revert evs. induction batches as [|batch batches IH]; intros evs.
  - now intros [= <-].
  - cbn [SegmentationModel.evaluate_all].
    destruct (evaluate batch) as [ev|]; [|discriminate].
    destruct (evaluate_all batches) as [evs'|]; [|discriminate].
    intros [= <-]. cbn [length]. now rewrite (IH evs' eq_refl).
Qed.

(** X14.  The buffer grows by one pair per batch.  When every batch of a
    phase evaluates, its steps, validation or test, started in any state,
    all return and leave in [validation_step_outputs] what was there
    followed by the logits and the mask of every batch, in batch order, and
    in the Dice statistic one more update per batch: both lists are as long
    as the phase until the epoch-end hook empties them. *)
Theorem buffer_grows_with_batches (batches : list Batch) (batch_idx : Z)
    (self : State) evs :
  evaluate_all batches = Some evs ->
  let val := steps validation_step batches batch_idx self in
  let test := steps test_step batches batch_idx self in
  (result_of val = Ok tt
   /\ validation_step_outputs (state_of val)
      = (validation_step_outputs self ++ map fst evs)%list
   /\ length (validation_step_outputs (state_of val))
      = (length (validation_step_outputs self) + length batches)%nat
   /\ length (dice_score (state_of val))
      = (length (dice_score self) + length batches)%nat)
  /\ (result_of test = Ok tt
      /\ validation_step_outputs (state_of test)
         = (validation_step_outputs self ++ map fst evs)%list
      /\ length (validation_step_outputs (state_of test))
         = (length (validation_step_outputs self) + length batches)%nat
      /\ length (dice_score (state_of test))
         = (length (dice_score self) + length batches)%nat).
Proof.
  intros Hall. cbv zeta.
  rewrite (validation_steps_evaluate _ batch_idx self Hall).
  rewrite (test_steps_evaluate _ batch_idx self Hall).
  apply length_evaluate_all in Hall.
  unfold SegmentationModel.accumulate_val, SegmentationModel.accumulate_test,
    SegmentationModel.epoch_delta.
  cbn [result_of state_of fst snd SegmentationModel.validation_step_outputs
       SegmentationModel.dice_score SegmentationModel.buffered
       SegmentationModel.dice_pairs].
  rewrite !length_app, !length_map, Hall. now repeat split.
Qed.

(** ** Counting *)

(** The derived labels have one entry per sample and channel. *)
Lemma length_pred_label_of (logits : Tensor4 Logit) :
  length (flatten2 (pred_label_of (map4 sigmoid logits)))
  = length (concat logits).
Proof.
  rewrite pred_label_of_spec. unfold flatten2, map4.
  now rewrite <- !concat_map, !length_map.
Qed.

Lemma evaluate_counted (batch : Batch) logits y ps :
  evaluate batch = Some (logits, y, ps) ->
  length ps = length (concat logits).
Proof.
  intros Hev. apply evaluate_Some in Hev.
  destruct Hev as (x & e & lbl & _ & _ & _ & _ & _ & _ & Hp).
  apply int_pairs_length in Hp. now rewrite Hp, length_pred_label_of.
Qed.

Lemma epoch_counted (batches : list Batch) evs :
  evaluate_all batches = Some evs ->
  length (concat (map snd evs))
  = length (concat (concat (map (fun ev => fst (fst ev)) evs))).
Proof.
  revert evs. induction batches as [|batch batches IH]; intros evs.
  - now intros [= <-].
  - cbn [SegmentationModel.evaluate_all].
    destruct (evaluate batch) as [[[logits y] ps]|] eqn:Hev;
      [|discriminate].
    destruct (evaluate_all batches) as [evs'|]; [|discriminate].
    intros [= <-]. cbn [map concat fst snd].
    rewrite concat_app, !length_app, (IH evs' eq_refl).
    now rewrite (evaluate_counted _ Hev).
Qed.

(** X15.  The confusion matrix counts every sample once per channel.  In a
    validation epoch and in a test epoch that start idle on at least one
    batch and whose batches all evaluate, the four cells that the epoch-end
    hook logs are the true negatives, false positives, false negatives and
    true positives (rows by the true class, columns by the predicted one)
    among the (derived label, label) pairs of the batches; none is
    negative, and they add up to the number of (sample, channel) planes of
    the logits of the epoch. *)
Theorem confusion_matrix_total (batches : list Batch) (self : State) evs :
  idle self ->
  batches <> [] ->
  evaluate_all batches = Some evs ->
  let counts := fold_left count (concat (map snd evs)) StatScores_zero in
  let planes :=
    length (concat (concat (map (fun ev => fst (fst ev)) evs))) in
  let val := output_of (validation_epoch batches self) in
  let test := output_of (test_epoch batches self) in
  (getitem "val_confusion_matrix_0_0" val = Ok (Cell (tn counts))
   /\ getitem "val_confusion_matrix_0_1" val = Ok (Cell (fp counts))
   /\ getitem "val_confusion_matrix_1_0" val = Ok (Cell (fn counts))
   /\ getitem "val_confusion_matrix_1_1" val = Ok (Cell (tp counts)))
  /\ (getitem "test_confusion_matrix_0_0" test = Ok (Cell (tn counts))
      /\ getitem "test_confusion_matrix_0_1" test = Ok (Cell (fp counts))
      /\ getitem "test_confusion_matrix_1_0" test = Ok (Cell (fn counts))
      /\ getitem "test_confusion_matrix_1_1" test = Ok (Cell (tp counts)))
  /\ (0 <= tn counts /\ 0 <= fp counts /\ 0 <= fn counts /\ 0 <= tp counts)
  /\ tn counts + fp counts + fn counts + tp counts = Z.of_nat planes.
Proof.
  intros Hidle Hne Hall counts planes val test.
  unfold SegmentationModel.idle in Hidle. subst self.
  assert (Hevs : evs <> []).
  { pose proof (length_evaluate_all _ Hall) as Hlen.
    destruct evs; [|discriminate]. now destruct batches. }
  assert (Hval : exists ds tail,
            val = (map (fun v => ("val_loss"%string, v))
                     (map (fun ev =>
                             LossValue
                               (loss_value (fst (fst ev)) (snd (fst ev))))
                        evs)
                   ++ (tracked "val" counts ds ++ tail))%list).
  { unfold val, SegmentationModel.validation_epoch, epoch, bind.
    rewrite (validation_steps_evaluate _ 0 _ Hall).
    unfold SegmentationModel.accumulate_val, SegmentationModel.epoch_delta.
    cbn [SegmentationModel.val_metrics SegmentationModel.test_metrics
         SegmentationModel.dice_score
         SegmentationModel.validation_step_outputs
         SegmentationModel.counted SegmentationModel.dice_pairs
         SegmentationModel.buffered app].
    match goal with
    | |- context [SegmentationModel.mkState ?vm ?tm ?ds ?vso] =>
        destruct (@on_validation_epoch_end_output vm tm ds vso)
          as (r & tail & Hrun & _);
        [now destruct evs | rewrite Hrun; exists ds, tail]
    end.
    cbn [output_of snd]. now rewrite map_map. }
  assert (Htest : exists ds tail,
            test = (map (fun v => ("test_loss"%string, v))
                     (map (fun ev =>
                             LossValue
                               (loss_value (fst (fst ev)) (snd (fst ev))))
                        evs)
                   ++ (tracked "test" counts ds ++ tail))%list).
  { unfold test, SegmentationModel.test_epoch, epoch, bind.
    rewrite (test_steps_evaluate _ 0 _ Hall).
    unfold SegmentationModel.accumulate_test, SegmentationModel.epoch_delta.
    cbn [SegmentationModel.val_metrics SegmentationModel.test_metrics
         SegmentationModel.dice_score
         SegmentationModel.validation_step_outputs
         SegmentationModel.counted SegmentationModel.dice_pairs
         SegmentationModel.buffered app].
    match goal with
    | |- context [SegmentationModel.mkState ?vm ?tm ?ds ?vso] =>
        destruct (@on_test_epoch_end_output vm tm ds vso)
          as (r & tail & Hrun & _);
        [now destruct evs | rewrite Hrun; exists ds, tail]
    end.
    cbn [output_of snd]. now rewrite map_map. }
  destruct Hval as (vds & vtail & ->), Htest as (tds & ttail & ->).
  split; [|split; [|split]].
  - repeat split; rewrite getitem_after_losses by reflexivity;
      reflexivity.
  - repeat split; rewrite getitem_after_losses by reflexivity;
      reflexivity.
  - pose proof (@count_nonneg (concat (map snd evs)) StatScores_zero) as H.
    cbv zeta in H. cbn [StatScores_zero tp fp tn fn] in H.
    fold counts in H. lia.
  - pose proof (count_total (concat (map snd evs)) StatScores_zero) as H.
    cbv zeta in H. cbn [StatScores_zero tp fp tn fn] in H.
    fold counts in H. unfold planes.
    rewrite <- (epoch_counted _ Hall). lia.
Qed.

(** ** When the final recomputation returns *)

Lemma evaluate_all_shapes (batches : list Batch) evs :
  evaluate_all batches = Some evs ->
  map shape4 (map (fun ev => fst (fst ev)) evs)
  = map shape4 (map (fun ev => snd (fst ev)) evs).
Proof.
  revert evs. induction batches as [|batch batches IH]; intros evs.
  - now intros [= <-].
  - cbn [SegmentationModel.evaluate_all].
    destruct (evaluate batch) as [[[logits y] ps]|] eqn:Hev;
      [|discriminate].
    destruct (evaluate_all batches) as [evs'|]; [|discriminate].
    intros [= <-]. cbn [map fst snd]. rewrite (IH evs' eq_refl).
    apply evaluate_Some in Hev.
    destruct Hev as (x & e & lbl & _ & _ & _ & _ & Hs & _).
    now rewrite (same_shape4_eq _ _ Hs).
Qed.

Lemma recomputation_returns (vso : list (Tensor4 Logit * Tensor4 Q)) :
  map shape4 (map fst vso) = map shape4 (map snd vso) ->
  forall logits,
    torch_cat (map fst vso) = Ok logits ->
    exists targets smp,
      torch_cat (map snd vso) = Ok targets
      /\ Fscore sigmoid logits targets = Ok smp.
Proof.
  intros Hshapes logits Hl.
  pose proof (torch_cat_shapes _ _ Hshapes) as Hok. rewrite Hl in Hok.
  destruct (torch_cat (map snd vso)) as [targets|e] eqn:Ht;
    [|discriminate].
  apply torch_cat_returns in Hl, Ht. subst logits targets.
  exists (concat (map snd vso)). unfold Fscore.
  rewrite shape4_same_shape4
    by now rewrite !shape4_concat, Hshapes.
  cbn [negb]. eexists. split; reflexivity.
Qed.

(** X16.  Of the three calls of the final recomputation only the first can
    fail.  When a validation epoch or a test epoch starts idle on at least
    one batch and all its batches evaluate, the epoch returns exactly when
    [torch.cat] accepts
    the logits of the batches, and raises [RuntimeError] otherwise: the
    masks then concatenate as well, because the loss has checked every mask
    against its logits, and smp's F-score gets two tensors of one shape.
    An epoch that returns ends idle. *)
Theorem epoch_returns_when_logits_concatenate (batches : list Batch)
    (self : State) evs :
  idle self ->
  batches <> [] ->
  evaluate_all batches = Some evs ->
  let concatenated := torch_cat (map (fun ev => fst (fst ev)) evs) in
  let val := validation_epoch batches self in
  let test := test_epoch batches self in
  result_of val
  = (if is_ok concatenated then Ok tt else Raise RuntimeError)
  /\ result_of test
     = (if is_ok concatenated then Ok tt else Raise RuntimeError)
  /\ (is_ok concatenated = true ->
      idle (state_of val) /\ idle (state_of test)).
Proof.
  intros Hidle Hne Hall concatenated val test.
  unfold SegmentationModel.idle in Hidle. subst self.
  assert (Hevs : evs <> []).
  { pose proof (length_evaluate_all _ Hall) as Hlen.
    destruct evs; [|discriminate]. now destruct batches. }
  pose proof (evaluate_all_shapes _ Hall) as Hshapes.
  assert (Hvso : map fst (map fst evs) = map (fun ev => fst (fst ev)) evs
                 /\ map snd (map fst evs)
                    = map (fun ev => snd (fst ev)) evs)
    by now rewrite !map_map.
  destruct Hvso as [Hfst Hsnd].
  unfold val, test, SegmentationModel.validation_epoch,
    SegmentationModel.test_epoch, epoch, bind.
  rewrite (validation_steps_evaluate _ 0 _ Hall).
  rewrite (test_steps_evaluate _ 0 _ Hall).
  unfold SegmentationModel.accumulate_val, SegmentationModel.accumulate_test,
    SegmentationModel.epoch_delta.
  cbn [SegmentationModel.val_metrics SegmentationModel.test_metrics
       SegmentationModel.dice_score
       SegmentationModel.validation_step_outputs
       SegmentationModel.counted SegmentationModel.dice_pairs
       SegmentationModel.buffered app].
  unfold SegmentationModel.on_validation_epoch_end,
    SegmentationModel.on_test_epoch_end.
  run_hook. cbn [SegmentationModel.dice_score].
  rewrite !dice_score_compute_ok by now destruct evs.
  cbn. rewrite Hfst, Hsnd. fold concatenated.
  destruct concatenated as [logits|e] eqn:Hl.
  - destruct (@recomputation_returns (map fst evs)) with (logits := logits)
      as (targets & smp & Ht & Hs).
    + now rewrite Hfst, Hsnd.
    + now rewrite Hfst.
    + rewrite Hsnd in Ht. rewrite Ht, Hs. cbn. now repeat split.
  - apply torch_cat_raises in Hl. subst e. cbn.
    split; [reflexivity|]. split; [reflexivity | discriminate].
Qed.

(** ** The outcome of a step on a complete batch *)

(** X17.  What [validation_step] and [test_step] do with a batch that has
    all four keys and on which the network returns logits that hold at
    least one entry.  If the mask does not have the shape of the logits
    the loss raises [AssertionError] and nothing has been logged.
    Otherwise the loss is logged, and the step returns exactly when the
    label has one entry per sample and channel of the logits and each
    entry, truncated towards zero, is 0 or 1; if not, the metric update
    raises [RuntimeError].  A step that raises leaves [self] as it was. *)
Theorem evaluation_step_outcome (batch : Batch) (batch_idx : Z)
    (self : State) x y em lbl logits :
  SegmentationModel.image batch = Some x ->
  SegmentationModel.mask batch = Some y ->
  SegmentationModel.embs batch = Some em ->
  SegmentationModel.label batch = Some lbl ->
  forward (x :: map snd em) = Ok logits ->
  flatten4 logits <> [] ->
  let accepted :=
    same_shape2 logits lbl
    && forallb (fun q => (to_int64 q =? 0) || (to_int64 q =? 1))
         (flatten2 lbl) in
  let val := validation_step batch batch_idx self in
  let test := test_step batch batch_idx self in
  let val_loss := [("val_loss"%string, LossValue (loss_value logits y))] in
  let test_loss := [("test_loss"%string, LossValue (loss_value logits y))] in
  (same_shape4 logits y = false ->
   val = (Raise AssertionError, self, [])
   /\ test = (Raise AssertionError, self, []))
  /\ (same_shape4 logits y = true -> accepted = false ->
      val = (Raise RuntimeError, self, val_loss)
      /\ test = (Raise RuntimeError, self, test_loss))
  /\ (same_shape4 logits y = true -> accepted = true ->
      (result_of val = Ok tt /\ output_of val = val_loss)
      /\ (result_of test = Ok tt /\ output_of test = test_loss)).
Proof.
  intros Hx Hy Hem Hl Hf Hne accepted val test val_loss test_loss.
  pose proof (label_accepted lbl (flatten4_nonempty Hne)) as Hacc.
  fold accepted in Hacc.
  unfold val, test.
  split; [|split].
  - intros Hs.
    unfold SegmentationModel.validation_step, SegmentationModel.test_step,
      SegmentationModel.loss_fn.
    run_hook. rewrite Hx, Hy, Hem, Hf, Hs. now split.
  - intros Hs Hno. rewrite Hno in Hacc.
    destruct (int_pairs _ _) as [ps|e] eqn:Hp; [discriminate|].
    apply int_pairs_raises in Hp as He. subst e.
    unfold SegmentationModel.validation_step, SegmentationModel.test_step,
      SegmentationModel.val_metrics_update,
      SegmentationModel.test_metrics_update,
      SegmentationModel.loss_fn, update_int.
    run_hook. rewrite Hx, Hy, Hem, Hf, Hs, Hl, Hp. now split.
  - intros Hs Hyes. rewrite Hyes in Hacc.
    destruct (int_pairs _ _) as [ps|e] eqn:Hp; [|discriminate].
    rewrite (validation_step_ok _ batch_idx self Hx Hy Hem Hf Hs Hl Hp).
    rewrite (test_step_ok _ batch_idx self Hx Hy Hem Hf Hs Hl Hp).
    now repeat split.
Qed.


(** X18.  What [training_step] does with a batch that has its image, its
    mask and the four embeddings and on which the network returns.  If the
    mask does not have the shape of the logits the loss raises
    [AssertionError] and nothing has been logged.  Otherwise the step
    returns the loss, having logged [train_loss] and then [train_dsc]: the
    F-score cannot fail once the loss has accepted the shapes.  The label
    is not read. *)
Theorem training_step_outcome (batch : Batch) (batch_idx : Z)
    (self : State) x y em z3 z6 z9 z12 logits :
  SegmentationModel.image batch = Some x ->
  SegmentationModel.mask batch = Some y ->
  SegmentationModel.embs batch = Some em ->
  getitem "z3" em = Ok z3 -> getitem "z6" em = Ok z6 ->
  getitem "z9" em = Ok z9 -> getitem "z12" em = Ok z12 ->
  forward [x; z3; z6; z9; z12] = Ok logits ->
  (same_shape4 logits y = false ->
   training_step batch batch_idx self = (Raise AssertionError, self, []))
  /\ (same_shape4 logits y = true ->
      exists dsc,
        Fscore sigmoid logits y = Ok dsc
        /\ training_step batch batch_idx self
           = (Ok (loss_value logits y), self,
              [ ("train_loss"%string, LossValue (loss_value logits y));
                ("train_dsc"%string, Fscore_value dsc) ])).
Proof.
  intros Hx Hy Hem H3 H6 H9 H12 Hf.
  unfold SegmentationModel.training_step, SegmentationModel.loss_fn.
  run_hook. rewrite Hx, Hy, Hem, H3, H6, H9, H12, Hf.
  split; intros Hs; rewrite Hs; [reflexivity|].
  unfold Fscore. rewrite Hs. cbn [negb]. eexists. split; reflexivity.
Qed.

End Model.

End SegmentationFacts.

Module ClassificationFacts.

Import Torch Lightning TorchFacts.
Open Scope Z_scope.

Section Model.

Variables Input Logit Loss : Type.
Variable encoder : option (Input -> result Input).
Variable model : Input -> result (Tensor2 Logit).
Variable sigmoid : Logit -> Q.
Variable loss_value : Tensor2 Logit -> Tensor2 Q -> Loss.

Local Abbreviation Batch := (ClassificationModel.Batch Input).
Local Abbreviation State := ClassificationModel.State.
Local Abbreviation training_step :=
  (@ClassificationModel.training_step Input Logit Loss encoder model
     loss_value).
Local Abbreviation on_validation_epoch_end :=
  (@ClassificationModel.on_validation_epoch_end Loss).
Local Abbreviation on_test_epoch_end :=
  (@ClassificationModel.on_test_epoch_end Loss).

(** The training step leaves [self] as it found it. *)
Lemma cls_training_step_state (batch : Batch) (batch_idx : Z)
    (self : State) :
  state_of (training_step batch batch_idx self) = self.
Proof.
  unfold ClassificationModel.training_step, ClassificationModel.input_of,
    state_of.
  run_hook. repeat (next_case; try reflexivity).
Qed.

(** What it returns is the loss of the logits of its batch. *)
Lemma cls_training_step_returns (batch : Batch) (batch_idx : Z)
    (self : State) loss :
  result_of (training_step batch batch_idx self) = Ok loss ->
  exists y logits,
    ClassificationModel.label batch = Some y
    /\ ClassificationModel.loss_fn loss_value logits y = Ok loss.
Proof.
  unfold ClassificationModel.training_step, ClassificationModel.input_of,
    result_of.
  run_hook.
  destruct encoder;
    [destruct (ClassificationModel.image batch) as [x|]
    |destruct (ClassificationModel.embs batch) as [x|]];
    try discriminate;
    (destruct (ClassificationModel.label batch) as [y|]; [|discriminate]);
    (destruct (ClassificationModel.forward _ model x) as [logits|];
     [|discriminate]);
    (destruct (ClassificationModel.loss_fn loss_value logits y) as [l|]
       eqn:Hloss; [|discriminate]);
    cbn; intros [= <-]; exists y, logits; now split.
Qed.

(** The epoch-end hooks raise in no state: they reduce whatever counts
    there are, zero counts included. *)
Lemma cls_epoch_end_returns (self : State) :
  result_of (on_validation_epoch_end self) = Ok tt
  /\ result_of (on_test_epoch_end self) = Ok tt.
Proof. destruct self as [vm tm]. split; reflexivity. Qed.

Local Abbreviation validation_step :=
  (@ClassificationModel.validation_step Input Logit Loss encoder model
     sigmoid loss_value).
Local Abbreviation test_step :=
  (@ClassificationModel.test_step Input Logit Loss encoder model sigmoid
     loss_value).
Local Abbreviation validation_epoch :=
  (@ClassificationModel.validation_epoch Input Logit Loss encoder model
     sigmoid loss_value).
Local Abbreviation test_epoch :=
  (@ClassificationModel.test_epoch Input Logit Loss encoder model sigmoid
     loss_value).
Local Abbreviation mkState := ClassificationModel.mkState.
Local Abbreviation val_metrics := ClassificationModel.val_metrics.
Local Abbreviation test_metrics := ClassificationModel.test_metrics.
Local Abbreviation label_count := (@ClassificationModel.label_count Input).
Local Abbreviation reduction := (ClassificationModel.reduction Loss).
Local Abbreviation steps := (@Lightning.steps State Loss Empty_set Batch).

(** ** The evaluation steps

    A step's result and what it logs do not depend on the state it starts
    from; its effect on the state is to count pairs in the statistics of
    its phase.  A step that raises counts nothing; a step that returns has
    logged its loss and counted one pair per entry of the label. *)
Local Ltac cls_raises :=
  eexists; eexists; exists [];
  split; [intros [? ?]; reflexivity | left; eexists; split; reflexivity].

Lemma cls_validation_step_delta (batch : Batch) (batch_idx : Z) :
  exists r out ps,
    (forall self,
       validation_step batch batch_idx self
       = (r,
          mkState (fold_left count ps (val_metrics self))
            (test_metrics self),
          out))
    /\ ((exists e, r = Raise e /\ ps = [])
        \/ (r = Ok tt
            /\ length ps = label_count batch
            /\ exists l, out = [("val_loss"%string, LossValue l)])).
Proof.
  unfold ClassificationModel.validation_step, ClassificationModel.input_of,
    ClassificationModel.loss_fn, ClassificationModel.label_count,
    update_prob.
  run_hook.
  destruct encoder as [enc|];
    [destruct (ClassificationModel.image batch) as [x|]
    |destruct (ClassificationModel.embs batch) as [x|]];
    try cls_raises;
    (destruct (ClassificationModel.label batch) as [y|]; [|cls_raises]);
    (destruct (ClassificationModel.forward _ model x) as [logits|];
     [|cls_raises]);
    (destruct (same_shape2 logits y); [|cls_raises]);
    (destruct (prob_pairs (map2 sigmoid logits) y) as [ps|] eqn:Hp;
     [|cls_raises]);
    (exists (Ok tt); eexists; exists ps;
     split; [intros [? ?]; reflexivity|];
     right; split; [reflexivity|];
     split; [apply (prob_pairs_length _ _ Hp) | eexists; reflexivity]).
Qed.

Lemma cls_test_step_delta (batch : Batch) (batch_idx : Z) :
  exists r out ps,
    (forall self,
       test_step batch batch_idx self
       = (r,
          mkState (val_metrics self)
            (fold_left count ps (test_metrics self)),
          out))
    /\ ((exists e, r = Raise e /\ ps = [])
        \/ (r = Ok tt
            /\ length ps = label_count batch
            /\ exists l, out = [("test_loss"%string, LossValue l)])).
Proof.
  unfold ClassificationModel.test_step, ClassificationModel.input_of,
    ClassificationModel.loss_fn, ClassificationModel.label_count,
    update_prob.
  run_hook.
  destruct encoder as [enc|];
    [destruct (ClassificationModel.image batch) as [x|]
    |destruct (ClassificationModel.embs batch) as [x|]];
    try cls_raises;
    (destruct (ClassificationModel.label batch) as [y|]; [|cls_raises]);
    (destruct (ClassificationModel.forward _ model x) as [logits|];
     [|cls_raises]);
    (destruct (same_shape2 logits y); [|cls_raises]);
    (destruct (prob_pairs (map2 sigmoid logits) y) as [ps|] eqn:Hp;
     [|cls_raises]);
    (exists (Ok tt); eexists; exists ps;
     split; [intros [? ?]; reflexivity|];
     right; split; [reflexivity|];
     split; [apply (prob_pairs_length _ _ Hp) | eexists; reflexivity]).
Qed.

(** A phase of steps: what was counted, and when all steps return, one
    pair per label entry and one loss per batch. *)
Lemma cls_validation_steps_delta (batches : list Batch) (batch_idx : Z) :
  exists r out ps,
    (forall self,
       steps validation_step batches batch_idx self
       = (r,
          mkState (fold_left count ps (val_metrics self))
            (test_metrics self),
          out))
    /\ (r = Ok tt ->
        length ps = list_sum (map label_count batches)
        /\ exists ls,
             out = map (fun l => ("val_loss"%string, LossValue l)) ls).
Proof.
  revert batch_idx. induction batches as [|batch batches IH];
    intros batch_idx.
  - exists (Ok tt), [], []. split; [now intros [vm tm]|].
    intros _. split; [reflexivity | now exists []].
  - destruct (cls_validation_step_delta batch batch_idx)
      as (r1 & out1 & ps1 & H1 & Hcases).
    destruct (IH (batch_idx + 1)) as (r2 & out2 & ps2 & H2 & Hok).
    destruct Hcases as [(e & -> & ->) | (-> & Hlen & l & ->)].
    + exists (Raise e), out1, []. split; [|discriminate].
      intros self. cbn [Lightning.steps]. unfold bind. now rewrite H1.
    + exists r2, ([("val_loss"%string, LossValue l)] ++ out2)%list,
        (ps1 ++ ps2)%list.
      split.
      * intros self. cbn [Lightning.steps]. unfold bind.
        rewrite H1, H2. cbn [ClassificationModel.val_metrics
                             ClassificationModel.test_metrics].
        now rewrite fold_left_app.
      * intros Hr. destruct (Hok Hr) as (Hlen2 & ls & ->).
        split; [rewrite length_app, Hlen, Hlen2; reflexivity|].
        now exists (l :: ls).
Qed.

Lemma cls_test_steps_delta (batches : list Batch) (batch_idx : Z) :
  exists r out ps,
    (forall self,
       steps test_step batches batch_idx self
       = (r,
          mkState (val_metrics self)
            (fold_left count ps (test_metrics self)),
          out))
    /\ (r = Ok tt ->
        length ps = list_sum (map label_count batches)
        /\ exists ls,
             out = map (fun l => ("test_loss"%string, LossValue l)) ls).
Proof.
  revert batch_idx. induction batches as [|batch batches IH];
    intros batch_idx.
  - exists (Ok tt), [], []. split; [now intros [vm tm]|].
    intros _. split; [reflexivity | now exists []].
  - destruct (cls_test_step_delta batch batch_idx)
      as (r1 & out1 & ps1 & H1 & Hcases).
    destruct (IH (batch_idx + 1)) as (r2 & out2 & ps2 & H2 & Hok).
    destruct Hcases as [(e & -> & ->) | (-> & Hlen & l & ->)].
    + exists (Raise e), out1, []. split; [|discriminate].
      intros self. cbn [Lightning.steps]. unfold bind. now rewrite H1.
    + exists r2, ([("test_loss"%string, LossValue l)] ++ out2)%list,
        (ps1 ++ ps2)%list.
      split.
      * intros self. cbn [Lightning.steps]. unfold bind.
        rewrite H1, H2. cbn [ClassificationModel.val_metrics
                             ClassificationModel.test_metrics].
        now rewrite fold_left_app.
      * intros Hr. destruct (Hok Hr) as (Hlen2 & ls & ->).
        split; [rewrite length_app, Hlen, Hlen2; reflexivity|].
        now exists (l :: ls).
Qed.

(** ** The epoch-end hooks, in closed form *)

Lemma cls_on_validation_epoch_end_run (vm tm : StatScores) :
  on_validation_epoch_end (mkState vm tm)
  = (Ok tt, mkState StatScores_zero tm, reduction "" vm).
Proof. reflexivity. Qed.

Lemma cls_on_test_epoch_end_run (vm tm : StatScores) :
  on_test_epoch_end (mkState vm tm)
  = (Ok tt, mkState vm StatScores_zero, reduction "test_" tm).
Proof. reflexivity. Qed.

(** X19.  In the classification model every accumulator belongs to one
    phase.  [validation_step] leaves [test_metrics] as it was and
    [test_step] leaves [val_metrics] as it was, and the result and the log
    entries of a step do not depend on the state at all.
    [on_validation_epoch_end] always returns, zeroes [val_metrics], leaves
    [test_metrics] and logs the reduction of the validation counts under
    unprefixed names; [on_test_epoch_end] always returns, zeroes
    [test_metrics], leaves [val_metrics] and logs the reduction of the test
    counts under the prefix "test_".  Nothing is shared between the
    phases but the name "confusion_matrix" of the figure. *)
Theorem cls_accumulators_by_phase :
  (forall batch batch_idx self other,
     test_metrics (state_of (validation_step batch batch_idx self))
     = test_metrics self
     /\ result_of (validation_step batch batch_idx self)
        = result_of (validation_step batch batch_idx other)
     /\ output_of (validation_step batch batch_idx self)
        = output_of (validation_step batch batch_idx other))
  /\ (forall batch batch_idx self other,
        val_metrics (state_of (test_step batch batch_idx self))
        = val_metrics self
        /\ result_of (test_step batch batch_idx self)
           = result_of (test_step batch batch_idx other)
        /\ output_of (test_step batch batch_idx self)
           = output_of (test_step batch batch_idx other))
  /\ (forall vm tm,
        on_validation_epoch_end (mkState vm tm)
        = (Ok tt, mkState StatScores_zero tm, reduction "" vm))
  /\ (forall vm tm,
        on_test_epoch_end (mkState vm tm)
        = (Ok tt, mkState vm StatScores_zero, reduction "test_" tm))
  /\ (forall m m',
        getitem "confusion_matrix" (reduction "" m)
        = Ok (Figure (Matrix [[tn m; fp m]; [fn m; tp m]]))
        /\ getitem "confusion_matrix" (reduction "test_" m')
           = Ok (Figure (Matrix [[tn m'; fp m']; [fn m'; tp m']]))).
Proof.
  split; [|split; [|split; [|split]]].
  - intros batch batch_idx self other.
    destruct (cls_validation_step_delta batch batch_idx)
      as (r & out & ps & H & _).
    rewrite !H. now repeat split.
  - intros batch batch_idx self other.
    destruct (cls_test_step_delta batch batch_idx)
      as (r & out & ps & H & _).
    rewrite !H. now repeat split.
  - exact cls_on_validation_epoch_end_run.
  - exact cls_on_test_epoch_end_run.
  - intros m m'. split; reflexivity.
Qed.

(** X20.  A classification step that raises counts nothing: a
    [validation_step] or [test_step] that raises, whatever the exception,
    leaves both statistics as it found them. *)
Theorem cls_failed_step_adds_nothing (batch : Batch) (batch_idx : Z)
    (self : State) (e : exn) :
  (result_of (validation_step batch batch_idx self) = Raise e ->
   state_of (validation_step batch batch_idx self) = self)
  /\ (result_of (test_step batch batch_idx self) = Raise e ->
      state_of (test_step batch batch_idx self) = self).
Proof.
  split.
  - destruct (cls_validation_step_delta batch batch_idx)
      as (r & out & ps & H & Hcases).
    rewrite H. cbn [result_of state_of fst snd]. intros ->.
    destruct Hcases as [(e' & _ & ->) | (Hr & _)]; [|discriminate].
    now destruct self.
  - destruct (cls_test_step_delta batch batch_idx)
      as (r & out & ps & H & Hcases).
    rewrite H. cbn [result_of state_of fst snd]. intros ->.
    destruct Hcases as [(e' & _ & ->) | (Hr & _)]; [|discriminate].
    now destruct self.
Qed.

(** ** The batch contract *)

(** X21.  Which key carries the input depends on the encoder alone: without
    an encoder the three steps read [batch["embs"]] and never
    [batch["image"]], with an encoder they read [batch["image"]] and never
    [batch["embs"]].  Two batches that agree on that key and on the label
    give the same training, validation and test step; a batch that lacks
    it raises [KeyError] with the name of the key, before the label is
    looked at; a batch that has it but lacks the label raises [KeyError]
    for "label", before the network is run.  Nothing is logged and [self]
    is left as it was. *)
Theorem cls_batch_contract (batch batch' : Batch) (batch_idx : Z)
    (self : State) :
  let input (b : Batch) :=
    match encoder with
    | None => ClassificationModel.embs b
    | Some _ => ClassificationModel.image b
    end in
  let key :=
    match encoder with None => "embs"%string | Some _ => "image"%string end
  in
  (input batch = input batch' ->
   ClassificationModel.label batch = ClassificationModel.label batch' ->
   training_step batch batch_idx self = training_step batch' batch_idx self
   /\ validation_step batch batch_idx self
      = validation_step batch' batch_idx self
   /\ test_step batch batch_idx self = test_step batch' batch_idx self)
  /\ (input batch = None ->
      training_step batch batch_idx self = (Raise (KeyError key), self, [])
      /\ validation_step batch batch_idx self
         = (Raise (KeyError key), self, [])
      /\ test_step batch batch_idx self = (Raise (KeyError key), self, []))
  /\ (input batch <> None ->
      ClassificationModel.label batch = None ->
      training_step batch batch_idx self
      = (Raise (KeyError "label"), self, [])
      /\ validation_step batch batch_idx self
         = (Raise (KeyError "label"), self, [])
      /\ test_step batch batch_idx self
         = (Raise (KeyError "label"), self, [])).
Proof.
  unfold ClassificationModel.training_step,
    ClassificationModel.validation_step, ClassificationModel.test_step,
    ClassificationModel.input_of.
  run_hook. cbv zeta.
  destruct encoder as [enc|]; (split; [|split]).
  - intros -> ->. now repeat split.
  - intros ->. now repeat split.
  - destruct (ClassificationModel.image batch); [|congruence].
    intros _ ->. now repeat split.
  - intros -> ->. now repeat split.
  - intros ->. now repeat split.
  - destruct (ClassificationModel.embs batch); [|congruence].
    intros _ ->. now repeat split.
Qed.

(** ** The cycles *)

(** X22.  The classification epochs are repeatable and never fail at their
    end.  From the state of construction, running the validation epoch
    twice on the same batches, or the test epoch twice, gives the same
    result and sends the same values to the logger both times; whenever
    the steps all return, the epoch returns and the state is that of
    construction again. *)
Theorem cls_cycle_twice (batches : list Batch) :
  let init := ClassificationModel.init in
  (let first := validation_epoch batches init in
   let second := validation_epoch batches (state_of first) in
   result_of first = result_of second
   /\ output_of first = output_of second
   /\ (result_of (steps validation_step batches 0 init) = Ok tt ->
       result_of first = Ok tt /\ state_of first = init))
  /\ (let first := test_epoch batches init in
      let second := test_epoch batches (state_of first) in
      result_of first = result_of second
      /\ output_of first = output_of second
      /\ (result_of (steps test_step batches 0 init) = Ok tt ->
          result_of first = Ok tt /\ state_of first = init)).
Proof.
  cbv zeta. unfold ClassificationModel.init. split.
  - destruct (cls_validation_steps_delta batches 0)
      as (r & out & ps & Hsteps & _).
    unfold ClassificationModel.validation_epoch, epoch, bind.
    rewrite !Hsteps. destruct r as [[]|e].
    + repeat
        first
          [ rewrite cls_on_validation_epoch_end_run
          | progress cbn [result_of state_of output_of fst snd
                          ClassificationModel.val_metrics
                          ClassificationModel.test_metrics] ].
      now repeat split.
    + cbn [result_of state_of output_of fst snd].
      split; [reflexivity|]. split; [reflexivity | discriminate].
  - destruct (cls_test_steps_delta batches 0)
      as (r & out & ps & Hsteps & _).
    unfold ClassificationModel.test_epoch, epoch, bind.
    rewrite !Hsteps. destruct r as [[]|e].
    + repeat
        first
          [ rewrite cls_on_test_epoch_end_run
          | progress cbn [result_of state_of output_of fst snd
                          ClassificationModel.val_metrics
                          ClassificationModel.test_metrics] ].
      now repeat split.
    + cbn [result_of state_of output_of fst snd].
      split; [reflexivity|]. split; [reflexivity | discriminate].
Qed.

(** X23.  The confusion matrix of the classification model counts every
    label entry once.  In a validation epoch and in a test epoch that
    start from the state of construction and whose steps all return, the
    four cells that the epoch-end hook logs are not negative and add up to
    the number of entries of the labels of the batches. *)
Theorem cls_confusion_matrix_total (batches : list Batch) :
  let init := ClassificationModel.init in
  let labels := Z.of_nat (list_sum (map label_count batches)) in
  (result_of (steps validation_step batches 0 init) = Ok tt ->
   let out := output_of (validation_epoch batches init) in
   exists c00 c01 c10 c11,
     getitem "confusion_matrix_0_0" out = Ok (Cell c00)
     /\ getitem "confusion_matrix_0_1" out = Ok (Cell c01)
     /\ getitem "confusion_matrix_1_0" out = Ok (Cell c10)
     /\ getitem "confusion_matrix_1_1" out = Ok (Cell c11)
     /\ 0 <= c00 /\ 0 <= c01 /\ 0 <= c10 /\ 0 <= c11
     /\ c00 + c01 + c10 + c11 = labels)
  /\ (result_of (steps test_step batches 0 init) = Ok tt ->
      let out := output_of (test_epoch batches init) in
      exists c00 c01 c10 c11,
        getitem "test_confusion_matrix_0_0" out = Ok (Cell c00)
        /\ getitem "test_confusion_matrix_0_1" out = Ok (Cell c01)
        /\ getitem "test_confusion_matrix_1_0" out = Ok (Cell c10)
        /\ getitem "test_confusion_matrix_1_1" out = Ok (Cell c11)
        /\ 0 <= c00 /\ 0 <= c01 /\ 0 <= c10 /\ 0 <= c11
        /\ c00 + c01 + c10 + c11 = labels).
Proof.
  cbv zeta. unfold ClassificationModel.init. split.
  - destruct (cls_validation_steps_delta batches 0)
      as (r & out & ps & Hsteps & Hok).
    unfold ClassificationModel.validation_epoch, epoch, bind.
    rewrite !Hsteps. cbn [result_of fst]. intros ->.
    destruct (Hok eq_refl) as (Hlen & ls & ->).
    rewrite cls_on_validation_epoch_end_run. cbn [output_of snd].
    cbn [ClassificationModel.val_metrics].
    set (counts := fold_left count ps StatScores_zero).
    exists (tn counts), (fp counts), (fn counts), (tp counts).
    pose proof (@count_nonneg ps StatScores_zero) as Hnn.
    pose proof (count_total ps StatScores_zero) as Htot.
    cbv zeta in Hnn, Htot. cbn [StatScores_zero tp fp tn fn] in Hnn, Htot.
    fold counts in Hnn, Htot.
    repeat split;
      first [ rewrite getitem_after_losses by reflexivity; reflexivity
            | lia ].
  - destruct (cls_test_steps_delta batches 0)
      as (r & out & ps & Hsteps & Hok).
    unfold ClassificationModel.test_epoch, epoch, bind.
    rewrite !Hsteps. cbn [result_of fst]. intros ->.
    destruct (Hok eq_refl) as (Hlen & ls & ->).
    rewrite cls_on_test_epoch_end_run. cbn [output_of snd].
    cbn [ClassificationModel.test_metrics].
    set (counts := fold_left count ps StatScores_zero).
    exists (tn counts), (fp counts), (fn counts), (tp counts).
    pose proof (@count_nonneg ps StatScores_zero) as Hnn.
    pose proof (count_total ps StatScores_zero) as Htot.
    cbv zeta in Hnn, Htot. cbn [StatScores_zero tp fp tn fn] in Hnn, Htot.
    fold counts in Hnn, Htot.
    repeat split;
      first [ rewrite getitem_after_losses by reflexivity; reflexivity
            | lia ].
Qed.

(** ** The outcome of a step on a complete batch *)

(** X24.  What the three steps of the classification model do with a batch
    that has its input and its label and on which the network returns
    logits that hold at least one entry.  If the label does not have the
    shape of the logits the loss raises [ValueError] and nothing has been
    logged.  Otherwise the loss is
    logged; [training_step] returns it whatever the values of the label,
    whereas [validation_step] and [test_step] return exactly when every
    entry of the label is 0 or 1, and else raise [RuntimeError] from the
    metric update.  A step that raises leaves [self] as it was. *)
Theorem cls_step_outcome (batch : Batch) (batch_idx : Z) (self : State)
    x y logits :
  match encoder with
  | None => ClassificationModel.embs batch
  | Some _ => ClassificationModel.image batch
  end = Some x ->
  ClassificationModel.label batch = Some y ->
  ClassificationModel.forward encoder model x = Ok logits ->
  flatten2 logits <> [] ->
  let binary_label :=
    forallb (fun q => Qeq_bool q 0 || Qeq_bool q 1) (flatten2 y) in
  let loss := loss_value logits y in
  let train := training_step batch batch_idx self in
  let val := validation_step batch batch_idx self in
  let test := test_step batch batch_idx self in
  (same_shape2 logits y = false ->
   train = (Raise ValueError, self, [])
   /\ val = (Raise ValueError, self, [])
   /\ test = (Raise ValueError, self, []))
  /\ (same_shape2 logits y = true ->
      train = (Ok loss, self, [("train_loss"%string, LossValue loss)])
      /\ (binary_label = false ->
          val = (Raise RuntimeError, self,
                 [("val_loss"%string, LossValue loss)])
          /\ test = (Raise RuntimeError, self,
                     [("test_loss"%string, LossValue loss)]))
      /\ (binary_label = true ->
          (result_of val = Ok tt
           /\ output_of val = [("val_loss"%string, LossValue loss)])
          /\ (result_of test = Ok tt
              /\ output_of test = [("test_loss"%string, LossValue loss)]))).
Proof.
  intros Hx Hy Hf Hne binary_label loss train val test.
  assert (Hacc := @is_ok_prob_pairs (map2 sigmoid logits) y).
  specialize (Hacc ltac:(destruct logits; [now elim Hne | discriminate])).
  unfold same_shape2 in Hacc. rewrite shape2_map2 in Hacc.
  fold (same_shape2 logits y) in Hacc. fold binary_label in Hacc.
  unfold train, val, test, ClassificationModel.training_step,
    ClassificationModel.validation_step, ClassificationModel.test_step,
    ClassificationModel.input_of, ClassificationModel.loss_fn, update_prob.
  run_hook.
  destruct encoder as [enc|]; rewrite Hx, Hy, Hf;
    (split; [intros Hs; rewrite Hs; now repeat split|]);
    intros Hs; rewrite Hs in *; cbn [andb] in Hacc;
    (split; [reflexivity|]); split.
  1, 3: intros Hno; rewrite Hno in Hacc;
    destruct (prob_pairs _ _) as [ps|e] eqn:Hp; [discriminate|];
    apply prob_pairs_raises in Hp; subst e; destruct self; now split.
  all: intros Hyes; rewrite Hyes in Hacc;
    destruct (prob_pairs _ _) as [ps|e]; [|discriminate];
    now repeat split.
Qed.


End Model.

End ClassificationFacts.

(* ------------------------------------------------------------------ *)
(** * The claims on the hooks, at both models and on concrete batches   *)
(* ------------------------------------------------------------------ *)

Module Claims.

Import Torch Lightning Examples.
Open Scope string_scope.
Open Scope Z_scope.

(** C3 on concrete masks: 1001 foreground pixels give the label 1, 1000
    give 0; a validation step and a test step on a positive sample with
    1001 predicted foreground pixels count a true positive, and on one with
    1000 a false negative. *)
Lemma threshold_derived_label_witness :
  SegmentationModel.pred_label_of [[plane_1001]] = [[1]]
  /\ SegmentationModel.pred_label_of [[plane_1000]] = [[0]]
  /\ (let batch := batch_of plane_1001 (constant 1%Q 7 143) 1%Q in
      result_of (validation_step batch 0 fresh) = Ok tt
      /\ SegmentationModel.val_metrics
           (state_of (validation_step batch 0 fresh))
         = mkStatScores 1 0 0 0
      /\ result_of (test_step batch 0 fresh) = Ok tt
      /\ SegmentationModel.test_metrics
           (state_of (test_step batch 0 fresh))
         = mkStatScores 1 0 0 0)
  /\ (let batch := batch_of plane_1000 (constant 1%Q 25 40) 1%Q in
      result_of (validation_step batch 0 fresh) = Ok tt
      /\ SegmentationModel.val_metrics
           (state_of (validation_step batch 0 fresh))
         = mkStatScores 0 0 0 1
      /\ result_of (test_step batch 0 fresh) = Ok tt
      /\ SegmentationModel.test_metrics
           (state_of (test_step batch 0 fresh))
         = mkStatScores 0 0 0 1).
Proof.
  destruct (@SegmentationFacts.threshold_derived_label (Tensor4 Q) Logit
              Loss (option Q) None decoder sigmoid loss_value)
    as (_ & _ & H1001 & H1000 & Hsteps & _).
  split; [apply H1001; vm_compute; reflexivity|].
  split; [apply H1000; vm_compute; reflexivity|].
  split.
  - apply (Hsteps (batch_of plane_1001 (constant 1%Q 7 143) 1%Q) 0 fresh
             (single plane_1001) (single (constant 1%Q 7 143)) embeddings
             [[1%Q]] (single plane_1001));
      first [reflexivity | now vm_compute].
  - apply (Hsteps (batch_of plane_1000 (constant 1%Q 25 40) 1%Q) 0 fresh
             (single plane_1000) (single (constant 1%Q 25 40)) embeddings
             [[1%Q]] (single plane_1000));
      first [reflexivity | now vm_compute].
Defined.

(** C4 on a concrete epoch of two batches. *)
Lemma validation_cycle_twice_witness :
  let run := steps validation_step [small_lesion; missed_lesion] 0 fresh in
  let first := validation_epoch [small_lesion; missed_lesion] fresh in
  let second :=
    validation_epoch [small_lesion; missed_lesion] (state_of first) in
  result_of first = result_of second
  /\ output_of first = output_of second
  /\ (result_of run = Ok tt ->
      SegmentationModel.idle (state_of first)
      /\ SegmentationModel.idle (state_of second))
  /\ (result_of run = Ok tt -> [small_lesion; missed_lesion] <> [] ->
      exists tail,
        output_of first
        = (output_of run
           ++ @SegmentationModel.tracked Loss (option Q) DiceScore_compute
                "val" (SegmentationModel.val_metrics (state_of run))
                (SegmentationModel.dice_score (state_of run))
           ++ tail)%list
        /\ ((result_of first = Ok tt
             /\ exists smp, tail = [("val_smp", Fscore_value smp)])
            \/ (result_of first = Raise RuntimeError /\ tail = [])))
  /\ (forall any : State,
        SegmentationModel.dice_score any <> [] ->
        let after := state_of (on_validation_epoch_end any) in
        SegmentationModel.val_metrics after = StatScores_zero
        /\ SegmentationModel.dice_score after = []
        /\ SegmentationModel.validation_step_outputs after = []).
Proof.
  apply (@SegmentationFacts.validation_cycle_twice (Tensor4 Q) Logit Loss
           (option Q) None decoder sigmoid loss_value DiceScore_compute
           [small_lesion; missed_lesion] fresh).
  reflexivity.
Defined.

(** C5, as the spec states it, fails for the classification model: with
    nothing accumulated its epoch-end hook raises nothing and logs the
    metrics of the zero counts. *)
Lemma classification_empty_epoch_end_counterexample :
  @ClassificationModel.on_validation_epoch_end unit ClassificationModel.init
  = (Ok tt, ClassificationModel.init,
     [ ("accuracy", Metric (Scalar 0)); ("f1", Metric (Scalar 0));
       ("precision", Metric (Scalar 0)); ("recall", Metric (Scalar 0));
       ("specificity", Metric (Scalar 0));
       ("confusion_matrix_0_0", Cell 0); ("confusion_matrix_0_1", Cell 0);
       ("confusion_matrix_1_0", Cell 0); ("confusion_matrix_1_1", Cell 0);
       ("confusion_matrix", Figure (Matrix [[0; 0]; [0; 0]])) ]).
Proof. vm_compute. reflexivity. Qed.

(** C5, amended.  With a Dice score that has had no update, as when no
    batch was accumulated during the phase, the epoch-end hooks of the
    segmentation model raise [ValueError] from [dice_score.compute()]:
    the metric collection of the phase has been reset, nothing has been
    logged, and the buffered list is as it was.  The epoch-end hooks of the
    classification model raise in no state: they log the metrics of the
    counts they find, those of the zero counts when nothing was
    accumulated. *)
Theorem empty_epoch_end (Logit Loss Dice : Type) (sigmoid : Logit -> Q)
    (dice_value : list (Tensor4 Z * Tensor4 Q) -> Dice) :
  (forall self : SegmentationModel.State Logit,
     SegmentationModel.dice_score self = [] ->
     @SegmentationModel.on_validation_epoch_end Logit Loss Dice sigmoid
       dice_value self
     = (Raise ValueError,
        SegmentationModel.mkState StatScores_zero
          (SegmentationModel.test_metrics self) []
          (SegmentationModel.validation_step_outputs self),
        [])
     /\ @SegmentationModel.on_test_epoch_end Logit Loss Dice sigmoid
          dice_value self
        = (Raise ValueError,
           SegmentationModel.mkState (SegmentationModel.val_metrics self)
             StatScores_zero []
             (SegmentationModel.validation_step_outputs self),
           []))
  /\ (forall self : ClassificationModel.State,
        @ClassificationModel.on_validation_epoch_end Loss self
        = (Ok tt,
           ClassificationModel.mkState StatScores_zero
             (ClassificationModel.test_metrics self),
           ClassificationModel.reduction Loss ""
             (ClassificationModel.val_metrics self))
        /\ @ClassificationModel.on_test_epoch_end Loss self
           = (Ok tt,
              ClassificationModel.mkState
                (ClassificationModel.val_metrics self) StatScores_zero,
              ClassificationModel.reduction Loss "test_"
                (ClassificationModel.test_metrics self))).
Proof.
  split.
  - intros self Hempty. split.
    + now apply SegmentationFacts.on_validation_epoch_end_empty.
    + now apply SegmentationFacts.on_test_epoch_end_empty.
  - intros [vm tm]. split; reflexivity.
Qed.

(** C5 on the states right after construction. *)
Lemma empty_epoch_end_witness :
  (on_validation_epoch_end fresh = (Raise ValueError, fresh, [])
   /\ on_test_epoch_end fresh = (Raise ValueError, fresh, []))
  /\ result_of
       (@ClassificationModel.on_validation_epoch_end Loss
          ClassificationModel.init)
     = Ok tt
  /\ result_of
       (@ClassificationModel.on_test_epoch_end Loss ClassificationModel.init)
     = Ok tt.
Proof.
  destruct (@empty_epoch_end Logit Loss (option Q) sigmoid DiceScore_compute)
    as [Hseg Hcls].
  split; [apply (Hseg fresh); reflexivity|].
  destruct (Hcls ClassificationModel.init) as [-> ->].
  split; reflexivity.
Defined.

(** C6, as the spec states it, fails: a test step adds to the Dice
    statistic and to the buffered list that the validation hooks use, and
    the validation epoch-end hook, which raises [ValueError] on the fresh
    state, then reduces what the test step left there. *)
Lemma test_step_shares_accumulators_counterexample :
  let after := state_of (test_step small_lesion 0 fresh) in
  SegmentationModel.dice_score after
  = [([[[[1; 1]; [1; 1]]]], single (constant 1%Q 2 2))]
  /\ SegmentationModel.validation_step_outputs after
     = [(single (constant (3 # 4)%Q 2 2), single (constant 1%Q 2 2))]
  /\ result_of (on_validation_epoch_end fresh) = Raise ValueError
  /\ result_of (on_validation_epoch_end after) = Ok tt.
Proof. vm_compute. repeat split; reflexivity. Qed.

(** C7, as the spec states it, fails: on an epoch of two positive samples,
    one with a four-pixel mask predicted exactly and one with a two-pixel
    mask missed by a two-pixel prediction, the recomputed F-score is about
    2/3, the tracked F1 is 0 and the Dice score is 1/2. *)
Lemma cross_check_counterexample :
  let out :=
    output_of (validation_epoch [small_lesion; missed_lesion] fresh) in
  exists smp f1 dsc,
    getitem "val_smp" out = Ok (Fscore_value smp)
    /\ getitem "val_f1" out = Ok (Metric (Scalar f1))
    /\ getitem "val_dsc" out = Ok (DiceValue (Some dsc))
    /\ (smp == 80000001 # 120000001)%Q
    /\ (f1 == 0)%Q
    /\ (dsc == 1 # 2)%Q
    /\ within_tolerance smp f1 = false
    /\ within_tolerance smp dsc = false.
Proof.
  exists (800000010000000 # 1200000010000000)%Q, (0 # 2)%Q, (32 # 64)%Q.
  vm_compute. repeat split; reflexivity.
Qed.

(** C7, amended, on the same epoch. *)
Lemma epoch_cross_check_witness :
  let out :=
    output_of (validation_epoch [small_lesion; missed_lesion] fresh) in
  result_of (validation_epoch [small_lesion; missed_lesion] fresh) = Ok tt
  /\ state_of (validation_epoch [small_lesion; missed_lesion] fresh) = fresh
  /\ getitem "val_smp" out
     = Ok (Fscore_value (800000010000000 # 1200000010000000)%Q)
  /\ getitem "val_f1" out = Ok (Metric (Scalar (0 # 2)%Q)).
Proof.
  destruct (@SegmentationFacts.epoch_cross_check (Tensor4 Q) Logit Loss
              (option Q) None decoder sigmoid loss_value DiceScore_compute
              [small_lesion; missed_lesion] fresh
              [ (single (constant (3 # 4)%Q 2 2), single (constant 1%Q 2 2),
                 [(false, true)]);
                (single [[3 # 4; 3 # 4]; [1 # 4; 1 # 4]]%Q,
                 single [[0; 0]; [1; 1]]%Q, [(false, true)]) ]
              [ [constant (3 # 4)%Q 2 2];
                [[[3 # 4; 3 # 4]; [1 # 4; 1 # 4]]%Q] ]
              [ [constant 1%Q 2 2]; [[[0; 0]; [1; 1]]%Q] ]
              (800000010000000 # 1200000010000000)%Q
              eq_refl eq_refl eq_refl eq_refl eq_refl)
    as (Hrun & _ & _).
  change (validation_epoch [small_lesion; missed_lesion] fresh)
    with (@SegmentationModel.validation_epoch (Tensor4 Q) Logit Loss
            (option Q) None decoder sigmoid loss_value DiceScore_compute
            [small_lesion; missed_lesion] fresh).
  rewrite Hrun. vm_compute. repeat split; reflexivity.
Defined.

(** C10.  In both models the training step leaves every attribute of
    [self] as it found it, the metric statistics, the Dice statistic and
    the buffered list included, and what it returns is the value of the
    loss function on the logits and the target of its batch. *)
Theorem training_step_never_aggregates
    (Input Logit Loss Dice : Type)
    (encoder : option (list Input -> result (list Input)))
    (model : list Input -> result (Tensor4 Logit))
    (sigmoid : Logit -> Q)
    (loss_value : Tensor4 Logit -> Tensor4 Q -> Loss)
    (Input' Logit' Loss' : Type)
    (encoder' : option (Input' -> result Input'))
    (model' : Input' -> result (Tensor2 Logit'))
    (loss_value' : Tensor2 Logit' -> Tensor2 Q -> Loss') :
  (forall batch batch_idx self,
     let run :=
       @SegmentationModel.training_step Input Logit Loss Dice encoder model
         sigmoid loss_value batch batch_idx self in
     state_of run = self
     /\ forall loss,
          result_of run = Ok loss ->
          exists x y logits,
            SegmentationModel.image batch = Some x
            /\ SegmentationModel.mask batch = Some y
            /\ SegmentationModel.loss_fn loss_value logits y = Ok loss)
  /\ (forall batch batch_idx self,
        let run :=
          @ClassificationModel.training_step Input' Logit' Loss' encoder'
            model' loss_value' batch batch_idx self in
        state_of run = self
        /\ forall loss,
             result_of run = Ok loss ->
             exists y logits,
               ClassificationModel.label batch = Some y
               /\ ClassificationModel.loss_fn loss_value' logits y
                  = Ok loss).
Proof.
  split.
  - intros batch batch_idx self run. split.
    + apply SegmentationFacts.training_step_state.
    + intros loss. apply SegmentationFacts.training_step_returns.
  - intros batch batch_idx self run. split.
    + apply ClassificationFacts.cls_training_step_state.
    + intros loss. apply ClassificationFacts.cls_training_step_returns.
Qed.

(** C10 on a concrete batch: the training step returns its loss and the
    fresh state stays fresh. *)
Lemma training_step_never_aggregates_witness :
  state_of (training_step small_lesion 0 fresh) = fresh
  /\ result_of (training_step small_lesion 0 fresh) = Ok tt.
Proof.
  destruct (@training_step_never_aggregates (Tensor4 Q) Logit Loss
              (option Q) None decoder sigmoid loss_value
              unit unit unit None (fun _ => Raise ValueError)
              (fun _ _ => tt))
    as [Hseg _].
  destruct (Hseg small_lesion 0 fresh) as [Hstate _].
  split; [exact Hstate | vm_compute; reflexivity].
Defined.

End Claims.

(* ------------------------------------------------------------------ *)
(** * The further properties of the hooks, on concrete batches          *)
(* ------------------------------------------------------------------ *)

Module Instances.

Import Torch Lightning Examples.
Open Scope string_scope.
Open Scope Z_scope.

(** What the batches [small_lesion] and [missed_lesion] evaluate to. *)
Local Abbreviation two_lesions :=
  [ (single (constant (3 # 4)%Q 2 2), single (constant 1%Q 2 2),
     [(false, true)]);
    (single [[3 # 4; 3 # 4]; [1 # 4; 1 # 4]]%Q, single [[0; 0]; [1; 1]]%Q,
     [(false, true)]) ].

(** X8 on a batch without its label: both steps raise and the fresh state
    stays fresh. *)
Lemma failed_step_adds_nothing_witness :
  state_of (validation_step unlabelled 0 fresh) = fresh
  /\ state_of (test_step unlabelled 0 fresh) = fresh.
Proof.
  destruct (@SegmentationFacts.failed_step_adds_nothing (Tensor4 Q) Logit
              Loss (option Q) None decoder sigmoid loss_value unlabelled 0
              fresh (KeyError "label")) as [Hval Htest].
  split; [apply Hval | apply Htest]; reflexivity.
Defined.

(** X9 on a batch that carries its image only, and on one without its
    label. *)
Lemma evaluation_step_missing_key_witness :
  validation_step image_only 0 fresh = (Raise (KeyError "mask"), fresh, [])
  /\ test_step image_only 0 fresh = (Raise (KeyError "embs"), fresh, [])
  /\ validation_step unlabelled 0 fresh
     = (Raise (KeyError "label"), fresh, [("val_loss", LossValue tt)])
  /\ test_step unlabelled 0 fresh
     = (Raise (KeyError "label"), fresh, [("test_loss", LossValue tt)]).
Proof.
  destruct (@SegmentationFacts.evaluation_step_missing_key (Tensor4 Q) Logit
              Loss (option Q) None decoder sigmoid loss_value image_only 0
              fresh) as (_ & Hmask & Hembs & _).
  destruct (@SegmentationFacts.evaluation_step_missing_key (Tensor4 Q) Logit
              Loss (option Q) None decoder sigmoid loss_value unlabelled 0
              fresh) as (_ & _ & _ & _ & _ & Hlabel).
  split; [apply Hmask; [discriminate | reflexivity]|].
  split; [apply Hembs; [discriminate | reflexivity]|].
  apply (Hlabel (single (constant (3 # 4)%Q 2 2))
           (single (constant 1%Q 2 2)) embeddings
           (single (constant (3 # 4)%Q 2 2))); reflexivity.
Defined.

(** X10 without an encoder and with one. *)
Lemma init_requires_no_encoder_witness :
  (SegmentationModel.init Logit
     (@None (list (Tensor4 Q) -> result (list (Tensor4 Q)))) = Ok fresh
   /\ forall x, SegmentationModel.forward None decoder x = decoder x)
  /\ SegmentationModel.init Logit (Some (fun x : list (Tensor4 Q) => Ok x))
     = Raise AssertionError.
Proof.
  split.
  - destruct (@SegmentationFacts.init_requires_no_encoder (Tensor4 Q) Logit
                None decoder) as [_ Hinit].
    destruct (Hinit fresh eq_refl) as (_ & _ & Hforward).
    split; [reflexivity | exact Hforward].
  - apply (@SegmentationFacts.init_requires_no_encoder (Tensor4 Q) Logit
             (Some (fun x : list (Tensor4 Q) => Ok x)) decoder).
    discriminate.
Defined.

(** X11 on embeddings in two orders and on embeddings without "z9". *)
Lemma embs_by_key_or_by_order_witness :
  training_step (with_embs pyramid) 0 fresh
  = training_step (with_embs pyramid_reversed) 0 fresh
  /\ training_step (with_embs pyramid_without_z9) 0 fresh
     = (Raise (KeyError "z9"), fresh, []).
Proof.
  destruct (@SegmentationFacts.embs_by_key_or_by_order (Tensor4 Q) Logit
              Loss (option Q) None decoder sigmoid loss_value 0 fresh)
    as (Hkeys & Hmissing & _).
  split.
  - apply (Hkeys (Some (single (constant (3 # 4)%Q 2 2)))
             (Some (single (constant 1%Q 2 2))) pyramid pyramid_reversed
             (Some [[1%Q]]) (Some [[1%Q]])).
    intros key [<- | [<- | [<- | [<- | []]]]]; reflexivity.
  - destruct (Hmissing (single (constant (3 # 4)%Q 2 2))
                (single (constant 1%Q 2 2)) pyramid_without_z9
                (Some [[1%Q]])) as (_ & _ & Hz9 & _).
    apply Hz9; cbn; intuition discriminate.
Defined.

(** X12 on a concrete epoch of two batches. *)
Lemma test_cycle_twice_witness :
  let first := test_epoch [small_lesion; missed_lesion] fresh in
  let second := test_epoch [small_lesion; missed_lesion] (state_of first) in
  result_of first = result_of second
  /\ output_of first = output_of second
  /\ (result_of (steps test_step [small_lesion; missed_lesion] 0 fresh)
      = Ok tt ->
      SegmentationModel.idle (state_of first)
      /\ SegmentationModel.idle (state_of second))
  /\ (forall any : State,
        SegmentationModel.dice_score any <> [] ->
        let after := state_of (on_test_epoch_end any) in
        SegmentationModel.test_metrics after = StatScores_zero
        /\ SegmentationModel.dice_score after = []
        /\ SegmentationModel.validation_step_outputs after = []
        /\ SegmentationModel.val_metrics after
           = SegmentationModel.val_metrics any).
Proof.
  apply (@SegmentationFacts.test_cycle_twice (Tensor4 Q) Logit Loss
           (option Q) None decoder sigmoid loss_value DiceScore_compute
           [small_lesion; missed_lesion] fresh).
  reflexivity.
Defined.

(** X13 after one validation step and after two steps on images of
    different sizes: the first reduction returns, the second raises after
    the tracked metrics have been logged. *)
Lemma epoch_end_logs_then_recomputes_witness :
  let one := state_of (validation_step small_lesion 0 fresh) in
  let two := state_of (validation_step large_lesion 1 one) in
  result_of (on_validation_epoch_end one) = Ok tt
  /\ result_of (on_validation_epoch_end two) = Raise RuntimeError
  /\ output_of (on_validation_epoch_end two)
     = @SegmentationModel.tracked Loss (option Q) DiceScore_compute "val"
         (SegmentationModel.val_metrics two)
         (SegmentationModel.dice_score two).
Proof.
  cbv zeta.
  destruct (@SegmentationFacts.epoch_end_logs_then_recomputes Logit Loss
              (option Q) sigmoid DiceScore_compute
              (state_of
                 (validation_step large_lesion 1
                    (state_of (validation_step small_lesion 0 fresh)))))
    as [(_ & _ & Hraises) _]; [discriminate|].
  split; [reflexivity|]. split; [reflexivity|].
  apply (Hraises RuntimeError). reflexivity.
Defined.

(** X14 on two batches. *)
Lemma buffer_grows_with_batches_witness :
  let val := steps validation_step [small_lesion; missed_lesion] 0 fresh in
  length (SegmentationModel.validation_step_outputs (state_of val)) = 2%nat
  /\ length (SegmentationModel.dice_score (state_of val)) = 2%nat.
Proof.
  destruct (@SegmentationFacts.buffer_grows_with_batches (Tensor4 Q) Logit
              Loss (option Q) None decoder sigmoid loss_value
              [small_lesion; missed_lesion] 0 fresh two_lesions eq_refl)
    as [(_ & _ & Hbuffer & Hdice) _].
  split; [exact Hbuffer | exact Hdice].
Defined.

(** X15 on the same two batches: two planes, two false negatives. *)
Lemma confusion_matrix_total_witness :
  let val := output_of (validation_epoch [small_lesion; missed_lesion] fresh)
  in
  getitem "val_confusion_matrix_0_0" val = Ok (Cell 0)
  /\ getitem "val_confusion_matrix_0_1" val = Ok (Cell 0)
  /\ getitem "val_confusion_matrix_1_0" val = Ok (Cell 2)
  /\ getitem "val_confusion_matrix_1_1" val = Ok (Cell 0).
Proof.
  destruct (@SegmentationFacts.confusion_matrix_total (Tensor4 Q) Logit Loss
              (option Q) None decoder sigmoid loss_value DiceScore_compute
              [small_lesion; missed_lesion] fresh two_lesions eq_refl
              ltac:(discriminate) eq_refl)
    as (Hval & _).
  exact Hval.
Defined.

(** X16 on two batches of one image size, and on two batches of different
    image sizes. *)
Lemma epoch_returns_when_logits_concatenate_witness :
  result_of (validation_epoch [small_lesion; missed_lesion] fresh) = Ok tt
  /\ result_of (test_epoch [small_lesion; missed_lesion] fresh) = Ok tt
  /\ result_of (validation_epoch [small_lesion; large_lesion] fresh)
     = Raise RuntimeError.
Proof.
  destruct (@SegmentationFacts.epoch_returns_when_logits_concatenate
              (Tensor4 Q) Logit Loss (option Q) None decoder sigmoid
              loss_value DiceScore_compute [small_lesion; missed_lesion]
              fresh two_lesions eq_refl ltac:(discriminate) eq_refl)
    as (Hval & Htest & _).
  destruct (@SegmentationFacts.epoch_returns_when_logits_concatenate
              (Tensor4 Q) Logit Loss (option Q) None decoder sigmoid
              loss_value DiceScore_compute [small_lesion; large_lesion]
              fresh
              [ (single (constant (3 # 4)%Q 2 2), single (constant 1%Q 2 2),
                 [(false, true)]);
                (single (constant (3 # 4)%Q 3 3), single (constant 1%Q 3 3),
                 [(false, true)]) ]
              eq_refl ltac:(discriminate) eq_refl)
    as (Hsizes & _).
  split; [exact Hval|]. split; [exact Htest | exact Hsizes].
Defined.

(** X20 on a batch whose label has another shape than the logits. *)
Lemma cls_failed_step_adds_nothing_witness :
  state_of
    (ClassificationModel.validation_step None head sigmoid head_loss_value
       (embedded [[3 # 4]%Q] [[1; 0]%Q]) 0 ClassificationModel.init)
  = ClassificationModel.init.
Proof.
  apply (@ClassificationFacts.cls_failed_step_adds_nothing (Tensor2 Q) Logit
           Loss None head sigmoid head_loss_value
           (embedded [[3 # 4]%Q] [[1; 0]%Q]) 0 ClassificationModel.init
           ValueError).
  reflexivity.
Defined.

(** X21 without an encoder: the image is not read, and a batch without
    embeddings raises. *)
Lemma cls_batch_contract_witness :
  ClassificationModel.validation_step None head sigmoid head_loss_value
    (ClassificationModel.mkBatch (Some [[3 # 4]%Q]) None (Some [[1%Q]])) 0
    ClassificationModel.init
  = ClassificationModel.validation_step None head sigmoid head_loss_value
      (ClassificationModel.mkBatch (Some [[3 # 4]%Q]) (Some [[1 # 4]%Q])
         (Some [[1%Q]])) 0 ClassificationModel.init
  /\ ClassificationModel.validation_step None head sigmoid head_loss_value
       (ClassificationModel.mkBatch None (Some [[1 # 4]%Q]) (Some [[1%Q]]))
       0 ClassificationModel.init
     = (Raise (KeyError "embs"), ClassificationModel.init, []).
Proof.
  split.
  - apply (@ClassificationFacts.cls_batch_contract (Tensor2 Q) Logit Loss
             None head sigmoid head_loss_value
             (ClassificationModel.mkBatch (Some [[3 # 4]%Q]) None
                (Some [[1%Q]]))
             (ClassificationModel.mkBatch (Some [[3 # 4]%Q])
                (Some [[1 # 4]%Q]) (Some [[1%Q]]))
             0 ClassificationModel.init); reflexivity.
  - apply (@ClassificationFacts.cls_batch_contract (Tensor2 Q) Logit Loss
             None head sigmoid head_loss_value
             (ClassificationModel.mkBatch None (Some [[1 # 4]%Q])
                (Some [[1%Q]]))
             (ClassificationModel.mkBatch None (Some [[1 # 4]%Q])
                (Some [[1%Q]]))
             0 ClassificationModel.init); reflexivity.
Defined.

(** X22 on two batches. *)
Lemma cls_cycle_twice_witness :
  let first :=
    ClassificationModel.validation_epoch None head sigmoid head_loss_value
      embedded_batches ClassificationModel.init in
  let second :=
    ClassificationModel.validation_epoch None head sigmoid head_loss_value
      embedded_batches (state_of first) in
  result_of first = Ok tt
  /\ state_of first = ClassificationModel.init
  /\ output_of first = output_of second.
Proof.
  destruct (@ClassificationFacts.cls_cycle_twice (Tensor2 Q) Logit Loss None
              head sigmoid head_loss_value embedded_batches)
    as [(_ & Hout & Hreturns) _].
  destruct (Hreturns eq_refl) as [Hresult Hstate].
  split; [exact Hresult|]. split; [exact Hstate | exact Hout].
Defined.

(** X23 on the same two batches: three label entries. *)
Lemma cls_confusion_matrix_total_witness :
  let out :=
    output_of
      (ClassificationModel.validation_epoch None head sigmoid
         head_loss_value embedded_batches ClassificationModel.init) in
  exists c00 c01 c10 c11,
    getitem "confusion_matrix_0_0" out = Ok (Cell c00)
    /\ getitem "confusion_matrix_0_1" out = Ok (Cell c01)
    /\ getitem "confusion_matrix_1_0" out = Ok (Cell c10)
    /\ getitem "confusion_matrix_1_1" out = Ok (Cell c11)
    /\ 0 <= c00 /\ 0 <= c01 /\ 0 <= c10 /\ 0 <= c11
    /\ c00 + c01 + c10 + c11 = 3.
Proof.
  destruct (@ClassificationFacts.cls_confusion_matrix_total (Tensor2 Q)
              Logit Loss None head sigmoid head_loss_value embedded_batches)
    as [Hval _].
  exact (Hval eq_refl).
Defined.

(** X17 on a label of 2, which the metric update refuses, and on a label
    of 0.9, which is truncated to 0 and counted. *)
Lemma evaluation_step_outcome_witness :
  validation_step
    (batch_of (constant (3 # 4)%Q 2 2) (constant 1%Q 2 2) 2%Q) 0 fresh
  = (Raise RuntimeError, fresh, [("val_loss", LossValue tt)])
  /\ result_of
       (validation_step
          (batch_of (constant (3 # 4)%Q 2 2) (constant 1%Q 2 2) (9 # 10)%Q)
          0 fresh)
     = Ok tt.
Proof.
  split.
  - apply (@SegmentationFacts.evaluation_step_outcome (Tensor4 Q) Logit
             Loss (option Q) None decoder sigmoid loss_value
             (batch_of (constant (3 # 4)%Q 2 2) (constant 1%Q 2 2) 2%Q) 0
             fresh (single (constant (3 # 4)%Q 2 2))
             (single (constant 1%Q 2 2)) embeddings [[2%Q]]
             (single (constant (3 # 4)%Q 2 2)) eq_refl eq_refl eq_refl
             eq_refl eq_refl); first [reflexivity | now vm_compute].
  - apply (@SegmentationFacts.evaluation_step_outcome (Tensor4 Q) Logit
             Loss (option Q) None decoder sigmoid loss_value
             (batch_of (constant (3 # 4)%Q 2 2) (constant 1%Q 2 2)
                (9 # 10)%Q) 0
             fresh (single (constant (3 # 4)%Q 2 2))
             (single (constant 1%Q 2 2)) embeddings [[(9 # 10)%Q]]
             (single (constant (3 # 4)%Q 2 2)) eq_refl eq_refl eq_refl
             eq_refl eq_refl); first [reflexivity | now vm_compute].
Defined.

(** X18 on a batch with the four embeddings. *)
Lemma training_step_outcome_witness :
  exists dsc,
    Fscore sigmoid (single (constant (3 # 4)%Q 2 2))
      (single (constant 1%Q 2 2)) = Ok dsc
    /\ training_step (with_embs pyramid) 0 fresh
       = (Ok tt, fresh,
          [("train_loss", LossValue tt); ("train_dsc", Fscore_value dsc)]).
Proof.
  apply (@SegmentationFacts.training_step_outcome (Tensor4 Q) Logit Loss
           (option Q) None decoder sigmoid loss_value (with_embs pyramid) 0
           fresh (single (constant (3 # 4)%Q 2 2))
           (single (constant 1%Q 2 2)) pyramid (single [[3%Q]])
           (single [[6%Q]]) (single [[9%Q]]) (single [[12%Q]])
           (single (constant (3 # 4)%Q 2 2)));
    reflexivity.
Defined.

(** X24 on a label of 0.5: the training step returns its loss, the
    validation step raises after logging it. *)
Lemma cls_step_outcome_witness :
  ClassificationModel.training_step None head head_loss_value
    (embedded [[3 # 4]%Q] [[1 # 2]%Q]) 0 ClassificationModel.init
  = (Ok tt, ClassificationModel.init, [("train_loss", LossValue tt)])
  /\ ClassificationModel.validation_step None head sigmoid head_loss_value
       (embedded [[3 # 4]%Q] [[1 # 2]%Q]) 0 ClassificationModel.init
     = (Raise RuntimeError, ClassificationModel.init,
        [("val_loss", LossValue tt)]).
Proof.
  destruct (@ClassificationFacts.cls_step_outcome (Tensor2 Q) Logit Loss
              None head sigmoid head_loss_value
              (embedded [[3 # 4]%Q] [[1 # 2]%Q]) 0 ClassificationModel.init
              [[3 # 4]%Q] [[1 # 2]%Q] [[3 # 4]%Q] eq_refl eq_refl eq_refl
              ltac:(discriminate))
    as [_ Hshape].
  destruct (Hshape eq_refl) as (Htrain & Hrefused & _).
  split; [exact Htrain|]. apply Hrefused. reflexivity.
Defined.



End Instances.

